(** * smart-unity-backend: the weather endpoint of [weatherObserve.js]

    A shallow embedding of the multi-source fallback and normalisation
    pipeline of [src/api/v1/weather/weatherObserve.js], and the properties
    its specification states about it.

    Numbers.  A JavaScript number is modelled as [NaN] or an exact rational
    [Num q]; every arithmetic result is reduced with [Qred], so that a value
    has one representation and [=] on results is meaningful.  The two
    infinities are not part of the model (a division by zero gives [NaN]).
    Arithmetic is exact, except in the two places where rounding to binary64
    decides what the caller sees: the percentage of the probability
    estimator, whose rounded product can fall below a tie, and the wrapping
    loops of [validateCoordinate], which never end once 360 is too small to
    change the number.  There [binary64] rounds to 53 significant bits, ties
    to even; the exponent range of the format is not modelled.

    Effects.  [Math.random] is a stream indexed by the number of draws made
    so far; the functions that draw thread that counter.  The clock
    ([new Date()]), [Math.sin], [Math.pow], [parseFloat], [JSON.parse] and the
    string/number conversions that the model does not compute are fields of a
    [Runtime] record; the three provider adapters and the reverse geocoder are
    fields of a [Services] record: an adapter is any function that resolves
    to [null] or to a weather object.  Exceptions inside the handler's [try]
    block are values of [result].  A call that may loop for ever has a
    [termination] as its outcome: [validateCoordinate], and with it the two
    handlers, which validate the coordinates before anything else.

    Adapters.  The three adapters and the geocoder are also modelled as the
    source has them, over [fetch]: a function from the address to the
    outcome of the request.  [services] builds the handler's [Services] from
    the GMAO and Worldview adapters and a POWER adapter that is given,
    [all_services] from all three.  The CSV export and the download endpoint
    are modelled beside the handler. *)

From Stdlib Require Import QArith Qround Qabs Qpower ZArith Lia Lqa.
From Stdlib Require Import List String Ascii Bool.
From Stdlib Require Import DecimalString.
From Equations Require Import Equations.
Import ListNotations.

Set Implicit Arguments.
Set Warnings "-register-all".

Local Open Scope string_scope.
Local Open Scope Q_scope.

(* ===================================================================== *)
(** ** The JavaScript values the endpoint computes with *)
(* ===================================================================== *)

Module JS.

(** A number: [NaN], or a finite value. *)
Inductive number : Type :=
| NaN
| Num (q : Q).

(** A numeric literal of the source. *)
Definition lit (q : Q) : number := Num (Qred q).

Definition lift2 (f : Q -> Q -> Q) (a b : number) : number :=
  match a, b with
  | Num x, Num y => Num (Qred (f x y))
  | _, _ => NaN
  end.

Definition add : number -> number -> number := lift2 Qplus.
Definition sub : number -> number -> number := lift2 Qminus.
Definition mul : number -> number -> number := lift2 Qmult.

(** [a / b]; a zero divisor is outside the model and yields [NaN]. *)
Definition div (a b : number) : number :=
  match a, b with
  | Num x, Num y => if Qeq_bool y 0 then NaN else Num (Qred (x / y))
  | _, _ => NaN
  end.

(** The relational operators: a comparison with [NaN] is false. *)
Definition cmp (f : Q -> Q -> bool) (a b : number) : bool :=
  match a, b with
  | Num x, Num y => f x y
  | _, _ => false
  end.

Definition Qgt_bool (x y : Q) : bool := negb (Qle_bool x y).
Definition Qlt_bool (x y : Q) : bool := negb (Qle_bool y x).
Definition Qge_bool (x y : Q) : bool := Qle_bool y x.

Definition gtb : number -> number -> bool := cmp Qgt_bool.
Definition ltb : number -> number -> bool := cmp Qlt_bool.
Definition geb : number -> number -> bool := cmp Qge_bool.
Definition leb : number -> number -> bool := cmp Qle_bool.
(** [a === b] on numbers ([NaN === NaN] is false). *)
Definition eqb : number -> number -> bool := cmp Qeq_bool.

(** [isNaN] on a number. *)
Definition isNaN (a : number) : bool :=
  match a with NaN => true | Num _ => false end.

(** [Math.abs], [Math.max], [Math.min]. *)
Definition Math_abs (a : number) : number :=
  match a with NaN => NaN | Num x => Num (Qred (Qabs x)) end.

Definition Math_max (a b : number) : number :=
  match a, b with
  | Num x, Num y => if Qle_bool x y then Num y else Num x
  | _, _ => NaN
  end.

Definition Math_min (a b : number) : number :=
  match a, b with
  | Num x, Num y => if Qle_bool x y then Num x else Num y
  | _, _ => NaN
  end.

(** [Math.round]: the nearest integer, a tie going up. *)
Definition Math_round (a : number) : number :=
  match a with
  | NaN => NaN
  | Num x => Num (inject_Z (Qfloor (x + (1 # 2))))
  end.

(** The exponent of a positive number: the [e] with [2 ^ e <= x < 2 ^ (e + 1)]. *)
Definition ilog2 (x : Q) : Z :=
  let e := (Z.log2 (Qnum x) - Z.log2 (Z.pos (Qden x)))%Z in
  if Qle_bool (2 ^ e) x then e else (e - 1)%Z.

(** The nearest integer, a tie going to the even one. *)
Definition round_half_even (x : Q) : Z :=
  let f := Qfloor x in
  match Qcompare (x - inject_Z f) (1 # 2) with
  | Lt => f
  | Gt => (f + 1)%Z
  | Eq => if Z.even f then f else (f + 1)%Z
  end.

(** The binary64 value nearest to [x]: a significand of 53 bits, a tie going
    to the even significand.  The exponent is not bounded: there is no
    overflow to infinity and no gradual underflow. *)
Definition binary64 (x : Q) : Q :=
  if Qeq_bool x 0 then 0
  else
    let ulp := 2 ^ (ilog2 (Qabs x) - 52) in
    Qred (inject_Z (round_half_even (x / ulp)) * ulp).

(** The result of an arithmetic operation, as it is stored. *)
Definition double (a : number) : number :=
  match a with NaN => NaN | Num x => Num (binary64 x) end.

(** [2 ^ 62].  Above it two neighbouring binary64 values are 1024 apart or
    more, and [x - 360] is stored as [x] again; below its opposite [x + 360]
    is. *)
Definition absorbing : Q := 4611686018427387904.

(** A value: the primitives, arrays and plain objects (as [JSON.parse]
    builds them). *)
Inductive value : Type :=
| VUndefined
| VNull
| VBool (b : bool)
| VNum (n : number)
| VStr (s : string)
| VArr (items : list value)
| VObj (fields : list (string * value)).

(** [v === undefined], [v === null]. *)
Definition is_undefined (v : value) : bool :=
  match v with VUndefined => true | _ => false end.

Definition is_null (v : value) : bool :=
  match v with VNull => true | _ => false end.

(** [v === n] for a number [n]: no conversion takes place. *)
Definition strict_eq_num (v : value) (n : number) : bool :=
  match v with VNum m => eqb m n | _ => false end.

(** Truthiness ([ToBoolean]). *)
Definition truthy (v : value) : bool :=
  match v with
  | VUndefined | VNull => false
  | VBool b => b
  | VNum NaN => false
  | VNum (Num q) => negb (Qeq_bool q 0)
  | VStr s => negb (String.eqb s EmptyString)
  | VArr _ | VObj _ => true
  end.

(** Property lookup in a list of fields: the first binding of the key. *)
Fixpoint assoc (A : Type) (k : string) (l : list (string * A)) : option A :=
  match l with
  | [] => None
  | (k', v) :: rest => if String.eqb k k' then Some v else assoc k rest
  end.

(** [o.k] for a value that is not null or undefined: the property of a plain
    object, [undefined] when it has none (the endpoint reads no property that
    a primitive or an array inherits). *)
Definition get (o : value) (k : string) : value :=
  match o with
  | VObj fields => match assoc k fields with Some v => v | None => VUndefined end
  | _ => VUndefined
  end.

(** The characters that occur in some numeric string literal: digits, signs,
    the point, exponent and radix markers, hexadecimal digits, the letters
    of [Infinity], and white space (the Unicode white space characters lie
    outside ASCII, so every byte from 128 on is let through). *)
Definition numeric_char (c : ascii) : bool :=
  let n := nat_of_ascii c in
  ((48 <=? n) && (n <=? 57))%nat          (* 0-9 *)
  || ((65 <=? n) && (n <=? 70))%nat       (* A-F *)
  || ((97 <=? n) && (n <=? 102))%nat      (* a-f *)
  || (128 <=? n)%nat                      (* bytes of a non-ASCII character *)
  || existsb (Nat.eqb n)
       [43; 45; 46;                       (* + - . *)
        73; 110; 105; 116; 121;           (* I n i t y *)
        88; 120; 79; 111;                 (* X x O o *)
        9; 10; 11; 12; 13; 32]%nat.       (* white space *)

Fixpoint all_chars (p : ascii -> bool) (s : string) : bool :=
  match s with
  | EmptyString => true
  | String c rest => p c && all_chars p rest
  end.

(** The decimal digits of an integer. *)
Definition IntegerToString (z : Z) : string :=
  NilZero.string_of_int (Z.to_int z).

(** What the host provides and the model leaves uninterpreted. *)
Record Runtime : Type := {
  (** [ToNumber] of a string made of numeric characters only *)
  StringToNumber_lit : string -> number;
  (** [ToNumber] of an array or an object (through [ToPrimitive]) *)
  ObjectToNumber : value -> number;
  (** [ToString] of a finite number that is not an integer of at most 53
      bits: the shortest digits that read back as the same binary64 value,
      with an exponent from [1e21] on *)
  NumberToString_frac : Q -> string;
  (** [parseFloat] *)
  parseFloat : value -> number;
  (** [JSON.parse]; [None] when it throws *)
  JSON_parse : value -> option value;
  Math_sin : number -> number;
  Math_pow : number -> number -> number;
  Math_PI : number;
  (** the [i]-th result of [Math.random()] *)
  Math_random : nat -> number;
  (** [new Date().getMonth()], [new Date().getHours()] *)
  Date_getMonth : number;
  Date_getHours : number;
  (** the calendar date [i] days from now, [toISOString().split('T')[0]] *)
  Date_isoDay : nat -> string;
  (** [new Date().toISOString()] *)
  Date_toISOString : string
}.

Section Conversions.
Variable rt : Runtime.

(** [ToNumber] of a string: a string with a character that no numeric
    literal contains is [NaN]. *)
Definition StringToNumber (s : string) : number :=
  if String.eqb s EmptyString then lit 0
  else if all_chars numeric_char s then StringToNumber_lit rt s
  else NaN.

Definition ToNumber (v : value) : number :=
  match v with
  | VUndefined => NaN
  | VNull => lit 0
  | VBool b => if b then lit 1 else lit 0
  | VNum n => n
  | VStr s => StringToNumber s
  | VArr _ | VObj _ => ObjectToNumber rt v
  end.

(** [ToString] of a number: an integer of at most 53 bits, which binary64
    holds exactly, is written with all its digits. *)
Definition NumberToString (n : number) : string :=
  match n with
  | NaN => "NaN"
  | Num q =>
      let r := Qred q in
      if Pos.eqb (Qden r) 1 && (Z.abs (Qnum r) <=? 2 ^ 53)%Z
      then IntegerToString (Qnum r)
      else NumberToString_frac rt q
  end.

End Conversions.

End JS.

Import JS.

Declare Scope js_scope.
Delimit Scope js_scope with js.
Bind Scope js_scope with number.
Notation "a + b" := (add a b) : js_scope.
Notation "a - b" := (sub a b) : js_scope.
Notation "a * b" := (mul a b) : js_scope.
Notation "a / b" := (div a b) : js_scope.
Notation "a >? b" := (gtb a b) (at level 70) : js_scope.
Notation "a <? b" := (ltb a b) (at level 70) : js_scope.
Notation "a >=? b" := (geb a b) (at level 70) : js_scope.
Notation "a <=? b" := (leb a b) (at level 70) : js_scope.

(* ===================================================================== *)
(** ** Effects: the random stream and exceptions *)
(* ===================================================================== *)

(** A computation that draws from [Math.random]: from the number of draws
    made so far to a result and the new count. *)
Definition Gen (A : Type) : Type := nat -> A * nat.

Definition ret (A : Type) (a : A) : Gen A := fun i => (a, i).

Definition bind (A B : Type) (c : Gen A) (k : A -> Gen B) : Gen B :=
  fun i => let (a, j) := c i in k a j.

Notation "x <- c ;; k" := (bind c (fun x => k))
  (at level 61, c at next level, right associativity).

(** The outcome of code that may throw. *)
Inductive result (A : Type) : Type :=
| Ok (a : A)
| Throw (message : string).
Arguments Throw {A} message.

(** The body of a [try] block: it draws, and returns or throws. *)
Definition Try (A : Type) : Type := Gen (result A).

Definition bindT (A B : Type) (c : Try A) (k : A -> Try B) : Try B :=
  fun i =>
    match c i with
    | (Ok a, j) => k a j
    | (Throw m, j) => (Throw m, j)
    end.

Definition liftT (A : Type) (c : Gen A) : Try A :=
  fun i => let (a, j) := c i in (Ok a, j).

Definition throw (A : Type) (m : string) : Try A := fun i => (Throw m, i).
Arguments throw {A} m.

Notation "x <-! c ;; k" := (bindT c (fun x => k))
  (at level 61, c at next level, right associativity).

(** The outcome of a call that may loop for ever. *)
Inductive termination (A : Type) : Type :=
| Returns (a : A)
| NeverReturns.
Arguments NeverReturns {A}.

(* ===================================================================== *)
(** ** Rounding to binary64 *)
(* ===================================================================== *)

(** What the definitions below need of [binary64]: the rounding error, on
    which the measures of the loops of [validateCoordinate] rest, that
    rounding is monotone, and the integers it leaves as they are. *)

Lemma two_power_pos (e : Z) : 0 < 2 ^ e.
Proof. apply Qpower_0_lt. reflexivity. Qed.

Lemma two_power_succ (e : Z) : 2 ^ (e + 1) == 2 * 2 ^ e.
Proof. rewrite Qpower_plus by (intro H; discriminate H). simpl (2 ^ 1). ring. Qed.

Lemma two_power_Z (a : Z) : (0 <= a)%Z -> 2 ^ a == inject_Z (2 ^ a).
Proof. intros H. rewrite Zpower_Qpower by exact H. reflexivity. Qed.

Lemma Qdiv_le_cross (a b c d : Q) :
  0 < b -> 0 < d -> a * d <= c * b -> a / b <= c / d.
Proof.
  intros Hb Hd H.
  apply Qle_shift_div_l; [ exact Hd | ].
  setoid_replace (a / b * d) with ((a * d) / b) by (field; lra).
  apply Qle_shift_div_r; [ exact Hb | exact H ].
Qed.

Lemma Qdiv_lt_cross (a b c d : Q) :
  0 < b -> 0 < d -> a * d < c * b -> a / b < c / d.
Proof.
  intros Hb Hd H.
  apply Qlt_shift_div_l; [ exact Hd | ].
  setoid_replace (a / b * d) with ((a * d) / b) by (field; lra).
  apply Qlt_shift_div_r; [ exact Hb | exact H ].
Qed.

Lemma ilog2_spec (x : Q) :
  0 < x -> 2 ^ ilog2 x <= x /\ x < 2 ^ (ilog2 x + 1).
Proof.
  intros Hx. unfold ilog2.
  destruct x as [n d]. cbn [Qnum Qden].
  assert (Hn : (0 < n)%Z).
  { unfold Qlt in Hx. simpl in Hx. lia. }
  pose proof (Z.log2_spec n Hn) as [Ha1 Ha2].
  pose proof (Z.log2_spec (Z.pos d) (Pos2Z.is_pos d)) as [Hb1 Hb2].
  pose proof (Z.log2_nonneg n) as Ha0.
  pose proof (Z.log2_nonneg (Z.pos d)) as Hb0.
  set (a := Z.log2 n) in *. set (b := Z.log2 (Z.pos d)) in *.
  assert (Hab : 2 ^ (a - b) == inject_Z (2 ^ a) / inject_Z (2 ^ b)).
  { rewrite Qpower_minus by (intro H; discriminate H).
    rewrite !two_power_Z by assumption. reflexivity. }
  assert (HA : 0 < inject_Z (2 ^ a)).
  { rewrite <- two_power_Z by assumption. apply two_power_pos. }
  assert (HB : 0 < inject_Z (2 ^ b)).
  { rewrite <- two_power_Z by assumption. apply two_power_pos. }
  assert (Hx' : n # d == inject_Z n / inject_Z (Z.pos d)).
  { apply Qmake_Qdiv. }
  assert (Hd : 0 < inject_Z (Z.pos d)).
  { change 0 with (inject_Z 0). rewrite <- Zlt_Qlt. lia. }
  rewrite Zle_Qle in Ha1, Hb1. rewrite Zlt_Qlt in Ha2, Hb2.
  replace (Z.succ a) with (a + 1)%Z in Ha2 by lia.
  replace (Z.succ b) with (b + 1)%Z in Hb2 by lia.
  rewrite (Z.pow_add_r 2 a 1), Z.pow_1_r, inject_Z_mult in Ha2 by lia.
  rewrite (Z.pow_add_r 2 b 1), Z.pow_1_r, inject_Z_mult in Hb2 by lia.
  set (A := inject_Z (2 ^ a)) in *. set (B := inject_Z (2 ^ b)) in *.
  set (N := inject_Z n) in *. set (D := inject_Z (Z.pos d)) in *.
  change (inject_Z 2) with 2 in *.
  destruct (Qle_bool (2 ^ (a - b)) (n # d)) eqn:E.
  - apply Qle_bool_iff in E. split; [ exact E | ].
    rewrite two_power_succ, Hab, Hx'.
    setoid_replace (2 * (A / B)) with ((2 * A) / B) by (field; lra).
    apply Qdiv_lt_cross; [ exact Hd | exact HB | nra ].
  - assert (E' : n # d < 2 ^ (a - b)).
    { apply Qnot_le_lt. intro H. apply Qle_bool_iff in H. congruence. }
    replace (a - b - 1 + 1)%Z with (a - b)%Z by lia.
    split; [ | exact E' ].
    assert (H2 : 2 ^ (a - b) == 2 * 2 ^ (a - b - 1)).
    { rewrite <- two_power_succ. replace (a - b - 1 + 1)%Z with (a - b)%Z by lia.
      reflexivity. }
    assert (H3 : 2 ^ (a - b - 1) == A / (2 * B)).
    { apply (Qmult_inj_l _ _ 2); [ lra | ]. rewrite <- H2, Hab. field. lra. }
    rewrite H3, Hx'.
    apply Qdiv_le_cross; [ lra | exact Hd | nra ].
Qed.

Lemma two_power_lt_inv (a b : Z) : 2 ^ a < 2 ^ b -> (a < b)%Z.
Proof. intros H. apply (Qpower_lt_compat_l_inv 2); [ exact H | reflexivity ]. Qed.

Lemma two_power_le (a b : Z) : (a <= b)%Z -> 2 ^ a <= 2 ^ b.
Proof. intros H. apply Qpower_le_compat_l; [ exact H | discriminate ]. Qed.

Lemma ilog2_unique (x : Q) (e : Z) :
  2 ^ e <= x -> x < 2 ^ (e + 1) -> ilog2 x = e.
Proof.
  intros H1 H2.
  assert (Hx : 0 < x).
  { eapply Qlt_le_trans; [ apply (two_power_pos e) | exact H1 ]. }
  destruct (ilog2_spec Hx) as [H3 H4].
  assert (ilog2 x < e + 1)%Z.
  { apply two_power_lt_inv. eapply Qle_lt_trans; eassumption. }
  assert (e < ilog2 x + 1)%Z.
  { apply two_power_lt_inv. eapply Qle_lt_trans; eassumption. }
  lia.
Qed.

Lemma ilog2_comp (x y : Q) : 0 < x -> x == y -> ilog2 x = ilog2 y.
Proof.
  intros Hx Hxy. symmetry.
  destruct (ilog2_spec Hx) as [H1 H2].
  apply ilog2_unique; rewrite <- Hxy; assumption.
Qed.

Lemma ilog2_mono (x y : Q) : 0 < x -> x <= y -> (ilog2 x <= ilog2 y)%Z.
Proof.
  intros Hx Hxy.
  assert (Hy : 0 < y) by lra.
  destruct (ilog2_spec Hx) as [H1 _].
  destruct (ilog2_spec Hy) as [_ H2].
  assert (ilog2 x < ilog2 y + 1)%Z.
  { apply two_power_lt_inv. lra. }
  lia.
Qed.

(** Rounding to the nearest integer, ties to even. *)

Definition nearest_even (x : Q) (m : Z) : Prop :=
  (inject_Z m - (1 # 2) < x /\ x < inject_Z m + (1 # 2))
  \/ ((x == inject_Z m - (1 # 2) \/ x == inject_Z m + (1 # 2)) /\ Z.even m = true).

Lemma round_half_even_spec (x : Q) : nearest_even x (round_half_even x).
Proof.
  unfold nearest_even, round_half_even.
  pose proof (Qfloor_le x) as Hlo.
  pose proof (Qlt_floor x) as Hhi.
  rewrite inject_Z_plus in Hhi. change (inject_Z 1) with 1 in Hhi.
  destruct (Qcompare (x - inject_Z (Qfloor x)) (1 # 2)) eqn:E.
  - apply Qeq_alt in E.
    destruct (Z.even (Qfloor x)) eqn:Ev.
    + right. split; [ right; lra | exact Ev ].
    + right. split.
      * left. rewrite inject_Z_plus. change (inject_Z 1) with 1. lra.
      * rewrite Z.even_add, Ev. reflexivity.
  - apply Qlt_alt in E. left. lra.
  - apply Qgt_alt in E. left.
    rewrite inject_Z_plus. change (inject_Z 1) with 1. lra.
Qed.

Lemma nearest_even_unique (x : Q) (m k : Z) :
  nearest_even x m -> nearest_even x k -> m = k.
Proof.
  unfold nearest_even.
  intros Hm Hk.
  assert (Hcases : (m = k \/ m = k + 1 \/ k = m + 1)%Z
                   \/ (inject_Z m + 1 < inject_Z k) \/ (inject_Z k + 1 < inject_Z m)).
  { destruct (Z_lt_le_dec (m + 1) k) as [H | H].
    - right. left. change 1 with (inject_Z 1). rewrite <- inject_Z_plus.
      rewrite <- Zlt_Qlt. exact H.
    - destruct (Z_lt_le_dec (k + 1) m) as [H' | H'].
      + right. right. change 1 with (inject_Z 1). rewrite <- inject_Z_plus.
        rewrite <- Zlt_Qlt. exact H'.
      + left. lia. }
  destruct Hcases as [[H | [H | H]] | [H | H]].
  - exact H.
  - subst m. rewrite inject_Z_plus in Hm. change (inject_Z 1) with 1 in Hm.
    destruct Hm as [Hm | [Hm Em]]; destruct Hk as [Hk | [Hk Ek]];
      try (exfalso; lra).
    exfalso. rewrite Z.even_add, Ek in Em. discriminate Em.
  - subst k. rewrite inject_Z_plus in Hk. change (inject_Z 1) with 1 in Hk.
    destruct Hm as [Hm | [Hm Em]]; destruct Hk as [Hk | [Hk Ek]];
      try (exfalso; lra).
    exfalso. rewrite Z.even_add, Em in Ek. discriminate Ek.
  - exfalso.
    destruct Hm as [Hm | [[Hm | Hm] _]]; destruct Hk as [Hk | [[Hk | Hk] _]]; lra.
  - exfalso.
    destruct Hm as [Hm | [[Hm | Hm] _]]; destruct Hk as [Hk | [[Hk | Hk] _]]; lra.
Qed.

Lemma round_half_even_unique (x : Q) (m : Z) :
  nearest_even x m -> round_half_even x = m.
Proof.
  intros H. apply (nearest_even_unique (round_half_even_spec x) H).
Qed.

Lemma round_half_even_error (x : Q) :
  Qabs (inject_Z (round_half_even x) - x) <= 1 # 2.
Proof.
  apply Qabs_Qle_condition.
  destruct (round_half_even_spec x) as [H | [[H | H] _]]; lra.
Qed.

Lemma round_half_even_Z (k : Z) : round_half_even (inject_Z k) = k.
Proof. apply round_half_even_unique. left. lra. Qed.

Lemma round_half_even_comp (x y : Q) :
  x == y -> round_half_even x = round_half_even y.
Proof.
  intros H. apply round_half_even_unique.
  destruct (round_half_even_spec y) as [Hy | [Hy Ey]].
  - left. lra.
  - right. split; [ | exact Ey ]. destruct Hy; [ left | right ]; lra.
Qed.

Lemma round_half_even_opp (x : Q) :
  round_half_even (- x) = (- round_half_even x)%Z.
Proof.
  apply round_half_even_unique.
  destruct (round_half_even_spec x) as [Hx | [Hx Ex]].
  - left. rewrite inject_Z_opp. lra.
  - right. split.
    + rewrite inject_Z_opp. destruct Hx; [ right | left ]; lra.
    + rewrite Z.even_opp. exact Ex.
Qed.

Lemma round_half_even_mono (x y : Q) :
  x <= y -> (round_half_even x <= round_half_even y)%Z.
Proof.
  intros Hxy.
  destruct (Z_le_gt_dec (round_half_even x) (round_half_even y)) as [H | H];
    [ exact H | exfalso ].
  assert (H1 : inject_Z (round_half_even y) + 1 <= inject_Z (round_half_even x)).
  { change 1 with (inject_Z 1). rewrite <- inject_Z_plus, <- Zle_Qle. lia. }
  pose proof (round_half_even_spec x) as Hx.
  pose proof (round_half_even_spec y) as Hy.
  unfold nearest_even in Hx, Hy.
  assert (Hx' : inject_Z (round_half_even x) - (1 # 2) <= x).
  { destruct Hx as [Hx | [[Hx | Hx] _]]; lra. }
  assert (Hy' : y <= inject_Z (round_half_even y) + (1 # 2)).
  { destruct Hy as [Hy | [[Hy | Hy] _]]; lra. }
  (* x = y is the tie between two consecutive integers, both even *)
  assert (E1 : inject_Z (round_half_even x) == inject_Z (round_half_even y) + 1) by lra.
  assert (E2 : (round_half_even x = round_half_even y + 1)%Z).
  { apply inject_Z_injective. rewrite inject_Z_plus. exact E1. }
  assert (Ex : Z.even (round_half_even x) = true).
  { destruct Hx as [Hx | [_ Hx]]; [ exfalso; lra | exact Hx ]. }
  assert (Ey : Z.even (round_half_even y) = true).
  { destruct Hy as [Hy | [_ Hy]]; [ exfalso; lra | exact Hy ]. }
  rewrite E2, Z.even_add, Ey in Ex. discriminate Ex.
Qed.

Lemma binary64_unfold (x : Q) :
  ~ x == 0 ->
  binary64 x ==
  inject_Z (round_half_even (x / 2 ^ (ilog2 (Qabs x) - 52)))
  * 2 ^ (ilog2 (Qabs x) - 52).
Proof.
  intros Hx. unfold binary64.
  destruct (Qeq_bool x 0) eqn:E.
  - apply Qeq_bool_iff in E. contradiction.
  - apply Qred_correct.
Qed.

Lemma Qabs_pos_lt (x : Q) : ~ x == 0 -> 0 < Qabs x.
Proof.
  intros Hx. destruct (Qlt_le_dec 0 (Qabs x)) as [H | H]; [ exact H | ].
  exfalso. apply Hx. apply Qabs_Qle_condition in H. lra.
Qed.

Lemma binary64_comp (x y : Q) : x == y -> binary64 x = binary64 y.
Proof.
  intros Hxy. unfold binary64.
  assert (E : Qeq_bool x 0 = Qeq_bool y 0).
  { destruct (Qeq_bool x 0) eqn:Ex; destruct (Qeq_bool y 0) eqn:Ey; try reflexivity.
    - apply Qeq_bool_iff in Ex.
      assert (H : y == 0) by (rewrite <- Hxy; exact Ex).
      apply Qeq_bool_iff in H. congruence.
    - apply Qeq_bool_iff in Ey.
      assert (H : x == 0) by (rewrite Hxy; exact Ey).
      apply Qeq_bool_iff in H. congruence. }
  rewrite <- E. destruct (Qeq_bool x 0) eqn:Ex; [ reflexivity | ].
  assert (Hx : ~ x == 0).
  { intro H. apply Qeq_bool_iff in H. congruence. }
  assert (Hl : ilog2 (Qabs x) = ilog2 (Qabs y)).
  { apply ilog2_comp; [ apply Qabs_pos_lt; exact Hx | rewrite Hxy; reflexivity ]. }
  rewrite <- Hl.
  apply Qred_complete.
  rewrite (@round_half_even_comp (x / 2 ^ (ilog2 (Qabs x) - 52))
             (y / 2 ^ (ilog2 (Qabs x) - 52)))
    by (unfold Qdiv; apply Qmult_comp; [ exact Hxy | reflexivity ]).
  reflexivity.
Qed.

Lemma binary64_error (x : Q) :
  ~ x == 0 -> Qabs (binary64 x - x) <= 2 ^ (ilog2 (Qabs x) - 53).
Proof.
  intros Hx. rewrite (binary64_unfold Hx).
  set (e := ilog2 (Qabs x)).
  pose proof (two_power_pos (e - 52)) as Hu.
  assert (Hhalf : 2 ^ (e - 52) == 2 * 2 ^ (e - 53)).
  { rewrite <- two_power_succ. replace (e - 53 + 1)%Z with (e - 52)%Z by lia.
    reflexivity. }
  set (u := 2 ^ (e - 52)) in *.
  pose proof (round_half_even_error (x / u)) as Herr.
  set (m := inject_Z (round_half_even (x / u))) in *.
  assert (E : m * u - x == (m - x / u) * u) by (field; lra).
  rewrite E, Qabs_Qmult, (Qabs_pos u) by lra.
  apply Qle_trans with ((1 # 2) * u).
  - apply Qmult_le_compat_r; [ exact Herr | lra ].
  - lra.
Qed.

Lemma binary64_error_rel (x : Q) :
  Qabs (binary64 x - x) <= Qabs x * 2 ^ (-53).
Proof.
  destruct (Qeq_dec x 0) as [H0 | Hx].
  - rewrite (binary64_comp H0). change (binary64 0) with 0.
    rewrite H0. discriminate.
  - eapply Qle_trans; [ apply (binary64_error Hx) | ].
    destruct (ilog2_spec (Qabs_pos_lt Hx)) as [Hlo _].
    set (e := ilog2 (Qabs x)) in *.
    assert (E : 2 ^ (e - 53) == 2 ^ e * 2 ^ (-53)).
    { replace (e - 53)%Z with (e + -53)%Z by lia.
      apply Qpower_plus. intro H; discriminate H. }
    rewrite E. apply Qmult_le_compat_r; [ exact Hlo | ].
    apply Qlt_le_weak, two_power_pos.
Qed.

Lemma binary64_bounds (x : Q) :
  0 < x -> 2 ^ ilog2 x <= binary64 x /\ binary64 x <= 2 ^ (ilog2 x + 1).
Proof.
  intros Hx.
  assert (Hn : ~ x == 0) by lra.
  rewrite (binary64_unfold Hn).
  assert (Habs : ilog2 (Qabs x) = ilog2 x).
  { apply ilog2_comp; [ apply Qabs_pos_lt; exact Hn | apply Qabs_pos; lra ]. }
  rewrite Habs.
  destruct (ilog2_spec Hx) as [Hlo Hhi].
  set (e := ilog2 x) in *.
  pose proof (two_power_pos (e - 52)) as Hu.
  assert (E1 : 2 ^ e == inject_Z (2 ^ 52) * 2 ^ (e - 52)).
  { rewrite <- two_power_Z by lia.
    rewrite <- Qpower_plus by (intro H; discriminate H).
    replace (52 + (e - 52))%Z with e by lia. reflexivity. }
  assert (E2 : 2 ^ (e + 1) == inject_Z (2 ^ 53) * 2 ^ (e - 52)).
  { rewrite <- two_power_Z by lia.
    rewrite <- Qpower_plus by (intro H; discriminate H).
    replace (53 + (e - 52))%Z with (e + 1)%Z by lia. reflexivity. }
  set (u := 2 ^ (e - 52)) in *.
  assert (H1 : inject_Z (2 ^ 52) <= x / u).
  { apply Qle_shift_div_l; [ exact Hu | lra ]. }
  assert (H2 : x / u <= inject_Z (2 ^ 53)).
  { apply Qle_shift_div_r; [ exact Hu | lra ]. }
  apply round_half_even_mono in H1, H2.
  rewrite round_half_even_Z in H1, H2.
  rewrite Zle_Qle in H1, H2.
  rewrite E1, E2. split; apply Qmult_le_compat_r; try assumption; lra.
Qed.

Lemma binary64_mono_pos (x y : Q) :
  0 < x -> x <= y -> binary64 x <= binary64 y.
Proof.
  intros Hx Hxy.
  assert (Hy : 0 < y) by lra.
  pose proof (ilog2_mono Hx Hxy) as He.
  destruct (Z.eq_dec (ilog2 x) (ilog2 y)) as [E | E].
  - assert (Hnx : ~ x == 0) by lra. assert (Hny : ~ y == 0) by lra.
    rewrite (binary64_unfold Hnx), (binary64_unfold Hny).
    rewrite (@ilog2_comp (Qabs x) x), (@ilog2_comp (Qabs y) y), E;
      try (apply Qabs_pos_lt; assumption); try (apply Qabs_pos; lra).
    pose proof (two_power_pos (ilog2 y - 52)) as Hu.
    set (u := 2 ^ (ilog2 y - 52)) in *.
    apply Qmult_le_compat_r; [ | lra ].
    rewrite <- Zle_Qle. apply round_half_even_mono.
    apply Qmult_le_compat_r; [ exact Hxy | ].
    apply Qlt_le_weak, Qinv_lt_0_compat, Hu.
  - destruct (binary64_bounds Hx) as [_ H1].
    destruct (binary64_bounds Hy) as [H2 _].
    assert (H3 : 2 ^ (ilog2 x + 1) <= 2 ^ ilog2 y) by (apply two_power_le; lia).
    lra.
Qed.

Lemma binary64_opp (x : Q) : binary64 (- x) == - binary64 x.
Proof.
  destruct (Qeq_dec x 0) as [H0 | Hx].
  - assert (H0' : - x == 0) by lra.
    rewrite (binary64_comp H0), (binary64_comp H0'). reflexivity.
  - assert (Hx' : ~ - x == 0) by lra.
    rewrite (binary64_unfold Hx), (binary64_unfold Hx').
    assert (E : ilog2 (Qabs (- x)) = ilog2 (Qabs x)).
    { apply ilog2_comp; [ apply Qabs_pos_lt; exact Hx' | apply Qabs_opp ]. }
    rewrite E.
    set (u := 2 ^ (ilog2 (Qabs x) - 52)).
    rewrite (@round_half_even_comp (- x / u) (- (x / u))).
    + rewrite round_half_even_opp, inject_Z_opp. ring.
    + unfold Qdiv. ring.
Qed.

Lemma binary64_nonneg (x : Q) : 0 <= x -> 0 <= binary64 x.
Proof.
  intros Hx. destruct (Qeq_dec x 0) as [H0 | Hn].
  - rewrite (binary64_comp H0). discriminate.
  - assert (Hp : 0 < x) by lra.
    destruct (binary64_bounds Hp) as [H _].
    pose proof (two_power_pos (ilog2 x)). lra.
Qed.

Lemma binary64_mono (x y : Q) : x <= y -> binary64 x <= binary64 y.
Proof.
  intros Hxy.
  destruct (Qlt_le_dec 0 x) as [Hx | Hx].
  - apply binary64_mono_pos; assumption.
  - destruct (Qlt_le_dec y 0) as [Hy | Hy].
    + assert (H : binary64 (- y) <= binary64 (- x)).
      { apply binary64_mono_pos; lra. }
      rewrite !binary64_opp in H. lra.
    + assert (H1 : 0 <= binary64 y) by (apply binary64_nonneg; exact Hy).
      assert (H2 : 0 <= binary64 (- x)) by (apply binary64_nonneg; lra).
      rewrite binary64_opp in H2. lra.
Qed.

(** An integer of at most 53 bits is a binary64 value. *)
Lemma binary64_Z (z : Z) :
  (Z.abs z <= 2 ^ 53)%Z -> binary64 (inject_Z z) == inject_Z z.
Proof.
  intros Hz.
  assert (Hpos : forall k : Z, (0 < k <= 2 ^ 53)%Z ->
            binary64 (inject_Z k) == inject_Z k).
  { intros k Hk.
    assert (Hq : 0 < inject_Z k).
    { change 0 with (inject_Z 0). rewrite <- Zlt_Qlt. lia. }
    assert (Hn : ~ inject_Z k == 0) by lra.
    rewrite (binary64_unfold Hn).
    rewrite (@ilog2_comp (Qabs (inject_Z k)) (inject_Z k))
      by (try (apply Qabs_pos_lt; assumption); try (apply Qabs_pos; lra)).
    destruct (ilog2_spec Hq) as [Hlo Hhi].
    set (e := ilog2 (inject_Z k)) in *.
    assert (He : (e <= 53)%Z).
    { apply (Qpower_le_compat_l_inv 2); [ | reflexivity ].
      eapply Qle_trans; [ exact Hlo | ].
      rewrite two_power_Z by lia. rewrite <- Zle_Qle. lia. }
    destruct (Z_le_gt_dec e 52) as [He' | He'].
    - assert (E : inject_Z k / 2 ^ (e - 52) == inject_Z (k * 2 ^ (52 - e))).
      { rewrite inject_Z_mult, <- two_power_Z by lia.
        replace (52 - e)%Z with (- (e - 52))%Z by lia.
        rewrite Qpower_opp. reflexivity. }
      rewrite (round_half_even_comp E), round_half_even_Z.
      rewrite inject_Z_mult, <- two_power_Z by lia.
      rewrite <- Qmult_assoc, <- Qpower_plus by (intro H; discriminate H).
      replace (52 - e + (e - 52))%Z with 0%Z by lia.
      simpl (2 ^ 0). ring.
    - assert (E53 : e = 53%Z) by lia.
      assert (Ek : k = (2 ^ 53)%Z).
      { rewrite E53, two_power_Z in Hlo by lia. rewrite <- Zle_Qle in Hlo. lia. }
      subst k. rewrite E53.
      vm_compute. reflexivity. }
  destruct (Z.lt_trichotomy z 0) as [H | [H | H]].
  - assert (E : inject_Z z == - inject_Z (- z)) by (rewrite inject_Z_opp; ring).
    rewrite (binary64_comp E), binary64_opp, Hpos by lia.
    rewrite inject_Z_opp. ring.
  - subst z. reflexivity.
  - apply Hpos. lia.
Qed.

Lemma absorbing_power : absorbing == 2 ^ 62.
Proof. reflexivity. Qed.

Lemma binary64_error_below (y : Q) :
  Qabs y < absorbing -> Qabs (binary64 y - y) <= 256.
Proof.
  intros Hy.
  destruct (Qeq_dec y 0) as [H0 | Hn].
  - rewrite (binary64_comp H0). change (binary64 0) with 0.
    rewrite H0. discriminate.
  - eapply Qle_trans; [ apply (binary64_error Hn) | ].
    destruct (ilog2_spec (Qabs_pos_lt Hn)) as [Hlo _].
    assert (He : (ilog2 (Qabs y) < 62)%Z).
    { apply two_power_lt_inv. rewrite <- absorbing_power. lra. }
    change 256 with (2 ^ 8). apply two_power_le. lia.
Qed.

(** The measures of the two loops of [validateCoordinate]. *)
Lemma Qceiling_drop (x y : Q) :
  y <= x - 1 -> 0 < x -> (Z.to_nat (Qceiling y) < Z.to_nat (Qceiling x))%nat.
Proof.
  intros Hy Hx.
  pose proof (Qceiling_lt y) as H1. pose proof (Qle_ceiling x) as H2.
  assert (H3 : (Qceiling y - 1 < Qceiling x - 1)%Z).
  { rewrite Zlt_Qlt. unfold Z.sub at 2. rewrite inject_Z_plus.
    change (inject_Z (- (1))) with (- (1)). lra. }
  assert (H4 : (0 < Qceiling x)%Z).
  { rewrite Zlt_Qlt. eapply Qlt_le_trans; [ exact Hx | apply Qle_ceiling ]. }
  lia.
Qed.

Lemma Qfloor_rise (x y : Q) :
  x + 1 <= y -> x < 0 -> (Z.to_nat (- Qfloor y) < Z.to_nat (- Qfloor x))%nat.
Proof.
  intros Hy Hx.
  pose proof (Qfloor_le x) as H1. pose proof (Qlt_floor y) as H2.
  assert (H3 : (Qfloor x + 1 < Qfloor y + 1)%Z).
  { rewrite Zlt_Qlt. rewrite (inject_Z_plus (Qfloor x)).
    change (inject_Z 1) with 1. lra. }
  assert (H4 : (Qfloor x < 0)%Z).
  { rewrite Zlt_Qlt. eapply Qle_lt_trans; [ apply Qfloor_le | exact Hx ]. }
  lia.
Qed.

(* ===================================================================== *)
(** ** Sentinel/value validator *)
(* ===================================================================== *)

Section Pipeline.
Variable rt : Runtime.

(** [Math.random()] *)
Definition random : Gen number := fun i => (Math_random rt i, S i).

(** [function isValidNASAValue(value)]:
    [value !== undefined && value !== null && value !== -999 && value > -900] *)
Definition isValidNASAValue (value : JS.value) : bool :=
  negb (is_undefined value)
  && negb (is_null value)
  && negb (strict_eq_num value (lit (-999)))
  && gtb (ToNumber rt value) (lit (-900)).

(** [function getValidNASAValue(value, defaultValue = 0)]: the default
    takes the place of an argument that is missing or [undefined]. *)
Definition getValidNASAValue (value defaultValue : JS.value) : JS.value :=
  let defaultValue :=
    if is_undefined defaultValue then VNum (lit 0) else defaultValue in
  if isValidNASAValue value then value else defaultValue.

(* ===================================================================== *)
(** ** Response formatter *)
(* ===================================================================== *)

(** [function formatToOneDecimal(value)] *)
Definition formatToOneDecimal (value : JS.value) : JS.value :=
  if is_null value || is_undefined value then value
  else VNum (div (Math_round (mul (ToNumber rt value) (lit 10))) (lit 10)).

(** [function formatPercentage(value)]: the template literal converts the
    rounded number to a string. *)
Definition formatPercentage (value : JS.value) : JS.value :=
  if is_null value || is_undefined value then value
  else VStr (NumberToString rt (Math_round (ToNumber rt value)) ++ "%").


(** *** The weather objects

    A property that an object does not have reads as [undefined], so a field
    that is absent holds [VUndefined]. *)

(** The [current] record. *)
Record Current : Type := {
  c_temperature : value;
  c_temperature_max : value;
  c_temperature_min : value;
  c_humidity : value;
  c_wind_speed : value;
  c_wind_speed_50m : value;
  c_precipitation : value;
  c_pressure : value;
  c_solar_radiation : value;
  c_cloud_cover : value;
  c_conditions : value;
  c_weather_code : value;
  c_feels_like : value;
  c_data_quality : value;
  (** provenance: [measurement_height], [model], [satellite], ... *)
  c_provenance : list (string * value)
}.

(** One day of the [forecast] array. *)
Record ForecastDay : Type := {
  d_date : value;
  d_temperature : value;
  d_max_temp : value;
  d_min_temp : value;
  d_precipitation : value;
  d_wind_speed : value;
  d_humidity : value;
  d_pressure : value;
  d_weather_code : value;
  d_conditions : value;
  d_feels_like : value;
  (** [climate_note], [model_confidence], [data_based_on], [confidence] *)
  d_provenance : list (string * value)
}.

(** [weatherData.historicalData] *)
Record Historical : Type := {
  h_temperature : option (list number);
  h_precipitation : option (list number);
  h_wind : option (list number);
  h_humidity : option (list number)
}.

(** The weather object that the adapters and the synthetic model return and
    the handler extends. *)
Record WeatherData : Type := {
  w_current : option Current;
  w_forecast : option (list ForecastDay);
  w_location : value;
  w_data_source : value;
  w_nasa_mission : value;
  w_climate_note : value;
  w_disclaimer : value;
  w_historicalData : option Historical;
  w_lat : value;
  w_lon : value;
  w_isDesert : value;
  w_probabilities : option (list (string * value))
}.

(** The block [if (formatted.current) { ... }] of [formatWeatherData]. *)
Definition format_current (c : Current) : Current :=
  {| c_humidity := formatPercentage c.(c_humidity);
     c_temperature := formatToOneDecimal c.(c_temperature);
     c_temperature_max := formatToOneDecimal c.(c_temperature_max);
     c_temperature_min := formatToOneDecimal c.(c_temperature_min);
     c_wind_speed := formatToOneDecimal c.(c_wind_speed);
     c_wind_speed_50m :=
       if negb (is_undefined c.(c_wind_speed_50m))
       then formatToOneDecimal c.(c_wind_speed_50m)
       else c.(c_wind_speed_50m);
     c_precipitation := formatToOneDecimal c.(c_precipitation);
     c_pressure := formatToOneDecimal c.(c_pressure);
     c_solar_radiation :=
       if negb (is_undefined c.(c_solar_radiation))
       then formatToOneDecimal c.(c_solar_radiation)
       else c.(c_solar_radiation);
     c_cloud_cover :=
       if negb (is_undefined c.(c_cloud_cover))
       then formatPercentage c.(c_cloud_cover)
       else c.(c_cloud_cover);
     c_feels_like := formatToOneDecimal c.(c_feels_like);
     c_conditions := c.(c_conditions);
     c_weather_code := c.(c_weather_code);
     c_data_quality := c.(c_data_quality);
     c_provenance := c.(c_provenance) |}.

(** The function mapped over [formatted.forecast]. *)
Definition format_day (day : ForecastDay) : ForecastDay :=
  {| d_date := day.(d_date);
     d_temperature := formatToOneDecimal day.(d_temperature);
     d_max_temp := formatToOneDecimal day.(d_max_temp);
     d_min_temp := formatToOneDecimal day.(d_min_temp);
     d_precipitation := formatToOneDecimal day.(d_precipitation);
     d_wind_speed := formatToOneDecimal day.(d_wind_speed);
     d_humidity := formatPercentage day.(d_humidity);
     d_pressure := formatToOneDecimal day.(d_pressure);
     d_feels_like := formatToOneDecimal day.(d_feels_like);
     d_weather_code := day.(d_weather_code);
     d_conditions := day.(d_conditions);
     d_provenance := day.(d_provenance) |}.

(** [function formatWeatherData(weatherObj)]; [None] is a missing (falsy)
    argument.  The copy [{ ...weatherObj }] is shallow: the source writes the
    formatted [current] into the argument's own record as well, and returns
    a fresh [forecast] array. *)
Definition formatWeatherData (weatherObj : option WeatherData)
  : option WeatherData :=
  match weatherObj with
  | None => None
  | Some w =>
      Some {| w_current := option_map format_current w.(w_current);
              w_forecast := option_map (map format_day) w.(w_forecast);
              w_location := w.(w_location);
              w_data_source := w.(w_data_source);
              w_nasa_mission := w.(w_nasa_mission);
              w_climate_note := w.(w_climate_note);
              w_disclaimer := w.(w_disclaimer);
              w_historicalData := w.(w_historicalData);
              w_lat := w.(w_lat);
              w_lon := w.(w_lon);
              w_isDesert := w.(w_isDesert);
              w_probabilities := w.(w_probabilities) |}
  end.

(* ===================================================================== *)
(** ** Desert region classifier *)
(* ===================================================================== *)

Record DesertRegion : Type := {
  name : string;
  latMin : number;
  latMax : number;
  lonMin : number;
  lonMax : number
}.

Definition DESERT_REGIONS : list DesertRegion :=
  [ {| name := "Sahara"; latMin := lit 15; latMax := lit 30;
       lonMin := lit (-20); lonMax := lit 50 |};
    {| name := "Arabian"; latMin := lit 15; latMax := lit 30;
       lonMin := lit 35; lonMax := lit 60 |};
    {| name := "Gobi"; latMin := lit 35; latMax := lit 50;
       lonMin := lit 85; lonMax := lit 120 |};
    {| name := "Australian"; latMin := lit (-30); latMax := lit (-20);
       lonMin := lit 120; lonMax := lit 150 |};
    {| name := "North American"; latMin := lit 25; latMax := lit 40;
       lonMin := lit (-120); lonMax := lit (-100) |};
    {| name := "Kalahari"; latMin := lit (-25); latMax := lit (-15);
       lonMin := lit 15; lonMax := lit 25 |};
    {| name := "Thar"; latMin := lit 20; latMax := lit 30;
       lonMin := lit 65; lonMax := lit 75 |};
    {| name := "Syrian"; latMin := lit 30; latMax := lit 35;
       lonMin := lit 35; lonMax := lit 45 |} ].

(** [function isDesertRegion(lat, lon)] *)
Definition isDesertRegion (lat lon : number) : bool :=
  existsb (fun desert =>
             geb lat desert.(latMin) && leb lat desert.(latMax)
             && geb lon desert.(lonMin) && leb lon desert.(lonMax))
          DESERT_REGIONS.

(* ===================================================================== *)
(** ** Coordinate validation *)
(* ===================================================================== *)

(** [while (normalized > 180) normalized -= 360;]
    Each round stores the binary64 value nearest to the difference.  Above
    [absorbing] that value is [normalized] itself and the loop never ends
    ([binary64_absorbs]); up to it a round lowers [normalized] by 104 at
    least, and the loop ends. *)
Equations? wrap_down (normalized : Q) : termination Q
  by wf (Z.to_nat (Qceiling normalized)) lt :=
  wrap_down normalized with Qlt_le_dec 180 normalized => {
    | right _ => Returns normalized;
    | left _ with Qlt_le_dec absorbing normalized => {
        | left _ => NeverReturns;
        | right _ => wrap_down (binary64 (normalized - 360)) } }.
Proof.
  apply Qceiling_drop; [ | lra ].
  assert (H : Qabs (binary64 (normalized - 360) - (normalized - 360)) <= 256).
  { apply binary64_error_below. apply Qabs_case; intros; unfold absorbing in *; lra. }
  apply Qabs_Qle_condition in H. lra.
Qed.

(** [while (normalized < -180) normalized += 360;]
    The same the other way: below [- absorbing] the sum is [normalized]
    again ([binary64_absorbs_up]); from there on a round raises [normalized]
    by 104 at least. *)
Equations? wrap_up (normalized : Q) : termination Q
  by wf (Z.to_nat (- Qfloor normalized)) lt :=
  wrap_up normalized with Qlt_le_dec normalized (-180) => {
    | right _ => Returns normalized;
    | left _ with Qlt_le_dec normalized (- absorbing) => {
        | left _ => NeverReturns;
        | right _ => wrap_up (binary64 (normalized + 360)) } }.
Proof.
  apply Qfloor_rise; [ | lra ].
  assert (H : Qabs (binary64 (normalized + 360) - (normalized + 360)) <= 256).
  { apply binary64_error_below. apply Qabs_case; intros; unfold absorbing in *; lra. }
  apply Qabs_Qle_condition in H. lra.
Qed.

(** [function validateCoordinate(coord, type)]; [None] is [null].  The call
    never returns when one of the loops never ends.  (So it is with the
    infinities, which are not numbers of the model.) *)
Definition validateCoordinate (coord : number) (type : string)
  : termination (option number) :=
  match coord with
  | NaN => Returns None
  | Num q =>
      if String.eqb type "lat" then
        Returns (if geb coord (lit (-90)) && leb coord (lit 90) then Some coord
                 else None)
      else if String.eqb type "lon" then
        let normalized := q in
        match wrap_down normalized with
        | NeverReturns => NeverReturns
        | Returns normalized =>
            match wrap_up normalized with
            | NeverReturns => NeverReturns
            | Returns normalized => Returns (Some (Num normalized))
            end
        end
      else Returns None
  end.


(* ===================================================================== *)
(** ** Synthetic climate model *)
(* ===================================================================== *)

(** [Math.sin((month - 6) * Math.PI / 6)] *)
Definition seasonal (month : number) : number :=
  Math_sin rt ((month - lit 6) * Math_PI rt / lit 6)%js.

(** [function getRealisticTemperature(lat, isDesert = false)] *)
Definition getRealisticTemperature (lat : number) (isDesert : bool) : number :=
  let absLat := Math_abs lat in
  let month := Date_getMonth rt in
  let currentHour := Date_getHours rt in
  if isDesert then
    let baseTemp := if (absLat <? lit 25)%js then lit 35 else lit 30 in
    let seasonalVariation := (seasonal month * lit 8)%js in
    let diurnalVariation :=
      (Math_sin rt ((currentHour - lit 12) * Math_PI rt / lit 12) * lit 10)%js in
    (baseTemp + seasonalVariation + diurnalVariation)%js
  else
    if (absLat <? lit 15)%js then (lit 28 + seasonal month * lit 2)%js
    else if (absLat <? lit 35)%js then (lit 22 + seasonal month * lit 6)%js
    else if (absLat <? lit 55)%js then (lit 15 + seasonal month * lit 10)%js
    else (lit 5 + seasonal month * lit 8)%js.

(** [function getRealisticMaxTemperature(lat, isDesert = false)] *)
Definition getRealisticMaxTemperature (lat : number) (isDesert : bool)
  : Gen number :=
  let baseTemp := getRealisticTemperature lat isDesert in
  if isDesert then
    r <- random ;; ret (baseTemp + lit 12 + r * lit 5)%js
  else
    r <- random ;; ret (baseTemp + lit 5 + r * lit 3)%js.

(** [function getRealisticMinTemperature(lat, isDesert = false)] *)
Definition getRealisticMinTemperature (lat : number) (isDesert : bool)
  : Gen number :=
  let baseTemp := getRealisticTemperature lat isDesert in
  if isDesert then
    r <- random ;; ret (baseTemp - lit 15 - r * lit 5)%js
  else
    r <- random ;; ret (baseTemp - lit 3 - r * lit 2)%js.

(** [function getRealisticHumidity(lat, isDesert = false)] *)
Definition getRealisticHumidity (lat : number) (isDesert : bool) : Gen number :=
  if isDesert then
    r <- random ;; ret (lit 20 + r * lit 25)%js
  else
    let absLat := Math_abs lat in
    if (absLat <? lit 15)%js then r <- random ;; ret (lit 75 + r * lit 10)%js
    else if (absLat <? lit 35)%js then r <- random ;; ret (lit 65 + r * lit 15)%js
    else r <- random ;; ret (lit 60 + r * lit 20)%js.

(** [function getRealisticWindSpeed(lat, isDesert = false)] *)
Definition getRealisticWindSpeed (lat : number) (isDesert : bool) : Gen number :=
  if isDesert then
    r <- random ;; ret (lit 3.5 + r * lit 3)%js
  else
    let absLat := Math_abs lat in
    if (absLat <? lit 15)%js then r <- random ;; ret (lit 3.0 + r * lit 2)%js
    else if (absLat <? lit 35)%js then r <- random ;; ret (lit 2.5 + r * lit 1.5)%js
    else r <- random ;; ret (lit 2.0 + r * lit 1)%js.

(** [function getRealisticPrecipitation(isDesert = false)]: the second draw
    is made only when the first is below the chance of rain. *)
Definition getRealisticPrecipitation (isDesert : bool) : Gen number :=
  if isDesert then
    r <- random ;;
    if (r <? lit 0.03)%js then r' <- random ;; ret (r' * lit 1)%js
    else ret (lit 0)
  else
    r <- random ;;
    if (r <? lit 0.3)%js then r' <- random ;; ret (r' * lit 8)%js
    else ret (lit 0).

(** [function getRealisticCloudCover(isDesert = false)] *)
Definition getRealisticCloudCover (isDesert : bool) : Gen number :=
  if isDesert then r <- random ;; ret (lit 5 + r * lit 20)%js
  else r <- random ;; ret (lit 30 + r * lit 50)%js.

(** [function getRealisticPressure(lat)] *)
Definition getRealisticPressure (lat : number) : Gen number :=
  let absLat := Math_abs lat in
  if (absLat <? lit 15)%js then r <- random ;; ret (lit 1010 + r * lit 5)%js
  else if (absLat <? lit 35)%js then r <- random ;; ret (lit 1013 + r * lit 5)%js
  else r <- random ;; ret (lit 1015 + r * lit 5)%js.

(* ===================================================================== *)
(** ** Condition, weather code and feels-like derivation *)
(* ===================================================================== *)

(** [function getNASA_WeatherCode(precipitation, humidity)] *)
Definition getNASA_WeatherCode (precipitation humidity : number) : string :=
  if (precipitation >? lit 12)%js then "11"
  else if (precipitation >? lit 6)%js then "10"
  else if (precipitation >? lit 2)%js then "09"
  else if (precipitation >? lit 0)%js then "09"
  else if (humidity >? lit 85)%js then "04"
  else if (humidity >? lit 70)%js then "03"
  else if (humidity >? lit 60)%js then "02"
  else "01".

(** [function getNASA_WeatherCondition(precipitation, humidity, isDesert = false)] *)
Definition getNASA_WeatherCondition (precipitation humidity : number)
  (isDesert : bool) : string :=
  if (precipitation >? lit 12)%js then "Thunderstorm"
  else if (precipitation >? lit 6)%js then "Heavy Rain"
  else if (precipitation >? lit 2)%js then "Rain"
  else if (precipitation >? lit 0)%js then "Light Rain"
  else if (humidity >? lit 85)%js then "Overcast"
  else if (humidity >? lit 70)%js then "Mostly Cloudy"
  else if (humidity >? lit 60)%js then "Partly Cloudy"
  else if isDesert && (humidity <? lit 25)%js then "Clear and Dry"
  else if isDesert && (humidity <? lit 35)%js then "Clear Sky"
  else if isDesert then "Mostly Clear"
  else "Clear Sky".

(** The wind-chill expression shared by both branches of
    [calculateNASA_FeelsLike]:
    [13.12 + 0.6215 * temp - 11.37 * Math.pow(windSpeed * 3.6, 0.16)
       + 0.3965 * temp * Math.pow(windSpeed * 3.6, 0.16)] *)
Definition windChill (temp windSpeed : number) : number :=
  (lit 13.12 + lit 0.6215 * temp
   - lit 11.37 * Math_pow rt (windSpeed * lit 3.6) (lit 0.16)
   + lit 0.3965 * temp * Math_pow rt (windSpeed * lit 3.6) (lit 0.16))%js.

(** [function calculateNASA_FeelsLike(temp, humidity, windSpeed, isDesert = false)] *)
Definition calculateNASA_FeelsLike (temp humidity windSpeed : number)
  (isDesert : bool) : number :=
  if isDesert then
    if (temp >=? lit 30)%js then
      let dryHeatEffect := (temp + (temp - lit 25) * lit 0.1)%js in
      dryHeatEffect
    else if (temp <=? lit 15)%js && (windSpeed >? lit 2)%js then
      windChill temp windSpeed
    else temp
  else
    if (temp >=? lit 27)%js then
      let heatIndex := (temp + lit 0.5 * (humidity / lit 100) * (temp - lit 20))%js in
      heatIndex
    else if (temp <=? lit 10)%js && (windSpeed >? lit 1.34)%js then
      windChill temp windSpeed
    else temp.

(** [o[k]]: reading a property of [undefined] or [null] throws. *)
Definition member (o : value) (k : string) : result value :=
  match o with
  | VUndefined | VNull => Throw "TypeError"
  | _ => Ok (get o k)
  end.

Definition liftR (A : Type) (r : result A) : Try A := fun i => (r, i).

(** [params.P[dateStr] ? parseFloat(params.P[dateStr]) : -999] *)
Definition rawParameter (params : value) (P dateStr : string) : result number :=
  match member params P with
  | Throw m => Throw m
  | Ok column =>
      match member column dateStr with
      | Throw m => Throw m
      | Ok v => Ok (if truthy v then parseFloat rt v else lit (-999))
      end
  end.

(** [function getNASA_ConditionsFromPOWER(params, dateStr, isDesert = false)];
    both fallbacks are computed (and draw) before [getValidNASAValue] is
    entered. *)
Definition getNASA_ConditionsFromPOWER (params : value) (dateStr : string)
  (isDesert : bool) : Try string :=
  rawCloudCover <-! liftR (rawParameter params "CLOUD_AMT" dateStr) ;;
  rawPrecipitation <-! liftR (rawParameter params "PRECTOTCORR" dateStr) ;;
  realisticCloudCover <-! liftT (getRealisticCloudCover isDesert) ;;
  let cloudCover :=
    ToNumber rt (getValidNASAValue (VNum rawCloudCover) (VNum realisticCloudCover)) in
  realisticPrecipitation <-! liftT (getRealisticPrecipitation isDesert) ;;
  let precipitation :=
    ToNumber rt (getValidNASAValue (VNum rawPrecipitation)
                                   (VNum realisticPrecipitation)) in
  liftR (Ok (
    if (precipitation >? lit 10)%js then "Heavy Rain"
    else if (precipitation >? lit 5)%js then "Rain"
    else if (precipitation >? lit 2)%js then "Light Rain"
    else if (precipitation >? lit 0)%js then "Drizzle"
    else if (cloudCover >? lit 80)%js then "Overcast"
    else if (cloudCover >? lit 50)%js then "Partly Cloudy"
    else if (cloudCover >? lit 20)%js then "Mostly Clear"
    else if isDesert then "Clear and Dry" else "Clear Sky")).

(* ===================================================================== *)
(** ** Probability estimator *)
(* ===================================================================== *)

(** The length of an array, as a number. *)
Definition length_number (A : Type) (l : list A) : number :=
  lit (inject_Z (Z.of_nat (List.length l))).

(** The common body of the three probability functions:
[[
  if (!historicalData || historicalData.length === 0) return dflt;
  const daysAboveThreshold = historicalData.filter(x => x > threshold).length;
  return Math.round((daysAboveThreshold / historicalData.length) * 100);
]]
    The quotient and the product are stored as binary64 values before
    [Math.round] reads them. *)
Definition probabilityAbove (dflt : number) (threshold : value)
  (historicalData : option (list number)) : number :=
  match historicalData with
  | None => dflt
  | Some historicalData =>
      if (List.length historicalData =? 0)%nat then dflt
      else
        let daysAboveThreshold :=
          length_number
            (filter (fun x => (x >? ToNumber rt threshold)%js) historicalData) in
        Math_round
          (double (double (daysAboveThreshold / length_number historicalData)
                   * lit 100))%js
  end.

(** [function calculateTemperatureProbability(temperature, threshold, historicalData)] *)
Definition calculateTemperatureProbability (temperature threshold : value)
  (historicalData : option (list number)) : number :=
  probabilityAbove (lit 50) threshold historicalData.

(** [function calculatePrecipitationProbability(precipitation, threshold, historicalData)] *)
Definition calculatePrecipitationProbability (precipitation threshold : value)
  (historicalData : option (list number)) : number :=
  probabilityAbove (lit 20) threshold historicalData.

(** [function calculateWindProbability(windSpeed, threshold, historicalData)] *)
Definition calculateWindProbability (windSpeed threshold : value)
  (historicalData : option (list number)) : number :=
  probabilityAbove (lit 30) threshold historicalData.

(** The loop of [generateHistoricalData]: [days] rounds, each drawing the
    variation and pushing the sample of the requested kind (no sample for a
    kind the [switch] does not list). *)
Fixpoint historicalLoop (days : nat) (dataType : string)
  (temperature precipitation wind humidity : number) : Gen (list number) :=
  match days with
  | O => ret []
  | S days' =>
      r <- random ;;
      let variation := ((r - lit 0.5) * lit 2)%js in
      let pushed :=
        if String.eqb dataType "temperature" then
          [(temperature + variation * lit 8)%js]
        else if String.eqb dataType "precipitation" then
          [Math_max (lit 0) (precipitation + variation * lit 3)%js]
        else if String.eqb dataType "wind" then
          [Math_max (lit 0) (wind + variation * lit 2)%js]
        else if String.eqb dataType "humidity" then
          [Math_max (lit 10) (Math_min (lit 100) (humidity + variation * lit 15)%js)]
        else [] in
      rest <- historicalLoop days' dataType temperature precipitation wind humidity ;;
      ret (pushed ++ rest)%list
  end.

(** [function generateHistoricalData(lat, lon, isDesert, dataType, days = 365)] *)
Definition generateHistoricalData (lat lon : number) (isDesert : bool)
  (dataType : string) (days : nat) : Gen (list number) :=
  let temperature := getRealisticTemperature lat isDesert in
  precipitation <- getRealisticPrecipitation isDesert ;;
  wind <- getRealisticWindSpeed lat isDesert ;;
  humidity <- getRealisticHumidity lat isDesert ;;
  historicalLoop days dataType temperature precipitation wind humidity.

(** [historicalData?.kind || generateHistoricalData(weatherData.lat,
    weatherData.lon, weatherData.isDesert, kind)]: an array, even an empty
    one, is truthy. *)
Definition historicalOrGenerated (weatherData : WeatherData)
  (series : option (list number)) (dataType : string) : Gen (list number) :=
  match series with
  | Some l => ret l
  | None =>
      generateHistoricalData (ToNumber rt weatherData.(w_lat))
        (ToNumber rt weatherData.(w_lon)) (truthy weatherData.(w_isDesert))
        dataType 365
  end.

(** [weatherData.current.field]: throws when there is no [current]. *)
Definition currentField (weatherData : WeatherData) (field : Current -> value)
  : result value :=
  match weatherData.(w_current) with
  | Some c => Ok (field c)
  | None => Throw "TypeError"
  end.

(** [function calculateProbabilities(weatherData, thresholds, historicalData)];
    the result lists the keys in the order they were added.  Reading a
    property of [thresholds] throws when it is [null] or [undefined]; the
    second read of a property, in the call, gives the value of the first. *)
Definition calculateProbabilities (weatherData : WeatherData)
  (thresholds : value) (historicalData : option Historical)
  : Try (list (string * value)) :=
  let probabilities := [] in
  probabilities <-!
    (threshold <-! liftR (member thresholds "temperature") ;;
     if negb (is_undefined threshold) then
       tempHistorical <-! liftT (historicalOrGenerated weatherData
         (match historicalData with Some h => h.(h_temperature) | None => None end)
         "temperature") ;;
       temperature <-! liftR (currentField weatherData c_temperature) ;;
       liftR (Ok (probabilities ++
         [("temperature_above",
           VNum (calculateTemperatureProbability temperature
                   threshold (Some tempHistorical)))])%list)
     else liftR (Ok probabilities)) ;;
  probabilities <-!
    (threshold <-! liftR (member thresholds "precipitation") ;;
     if negb (is_undefined threshold) then
       precipHistorical <-! liftT (historicalOrGenerated weatherData
         (match historicalData with Some h => h.(h_precipitation) | None => None end)
         "precipitation") ;;
       precipitation <-! liftR (currentField weatherData c_precipitation) ;;
       liftR (Ok (probabilities ++
         [("precipitation_above",
           VNum (calculatePrecipitationProbability precipitation
                   threshold (Some precipHistorical)))])%list)
     else liftR (Ok probabilities)) ;;
  probabilities <-!
    (threshold <-! liftR (member thresholds "windSpeed") ;;
     if negb (is_undefined threshold) then
       windHistorical <-! liftT (historicalOrGenerated weatherData
         (match historicalData with Some h => h.(h_wind) | None => None end)
         "wind") ;;
       wind_speed <-! liftR (currentField weatherData c_wind_speed) ;;
       liftR (Ok (probabilities ++
         [("windspeed_above",
           VNum (calculateWindProbability wind_speed
                   threshold (Some windHistorical)))])%list)
     else liftR (Ok probabilities)) ;;
  liftR (Ok probabilities).

(* ===================================================================== *)
(** ** The synthetic forecast and the full synthetic data set *)
(* ===================================================================== *)

(** [for (let i = start; i < start + count; i++) forecast.push(body(i))] *)
Fixpoint forLoop (A : Type) (body : nat -> Gen A) (start count : nat)
  : Gen (list A) :=
  match count with
  | O => ret []
  | S count' =>
      x <- body start ;;
      rest <- forLoop body (S start) count' ;;
      ret (x :: rest)
  end.

(** One round of the loop of [generateNASA_ClimateForecast]. *)
Definition climateForecastDay (lat lon : number) (isDesert : bool) (i : nat)
  : Gen ForecastDay :=
  let baseTemp := getRealisticTemperature lat isDesert in
  maxTemp <- getRealisticMaxTemperature lat isDesert ;;
  minTemp <- getRealisticMinTemperature lat isDesert ;;
  precipitation <- getRealisticPrecipitation isDesert ;;
  humidity <- getRealisticHumidity lat isDesert ;;
  windSpeed <- getRealisticWindSpeed lat isDesert ;;
  pressure <- getRealisticPressure lat ;;
  r <- random ;;
  ret {| d_date := VStr (Date_isoDay rt i);
         d_temperature := VNum baseTemp;
         d_max_temp := VNum maxTemp;
         d_min_temp := VNum minTemp;
         d_precipitation := VNum precipitation;
         d_wind_speed := VNum windSpeed;
         d_humidity := VNum humidity;
         d_pressure := VNum pressure;
         d_weather_code := VStr (getNASA_WeatherCode precipitation humidity);
         d_conditions :=
           VStr (getNASA_WeatherCondition precipitation humidity isDesert);
         d_feels_like :=
           VNum (calculateNASA_FeelsLike baseTemp humidity windSpeed isDesert);
         d_provenance :=
           [("climate_note",
             VStr (if isDesert then "Desert Climate" else "Standard Climate"));
            ("model_confidence", VNum (lit 0.85 + r * lit 0.1)%js)] |}.

(** [function generateNASA_ClimateForecast(lat, lon, isDesert = false)] *)
Definition generateNASA_ClimateForecast (lat lon : number) (isDesert : bool)
  : Gen (list ForecastDay) :=
  forLoop (climateForecastDay lat lon isDesert) 0 7.

(** What [JSON] makes of a promise that was not awaited: an object without
    fields. *)
Definition pendingPromise : value := VObj [].

(** [function generateNASA_Model_Data(lat, lon, isDesert = false)].
    [forecast[0].temperature] throws on an empty array.  [getLocationName] is
    called without [await], so [locationName] is the promise itself, which is
    truthy. *)
Definition generateNASA_Model_Data (lat lon : number) (isDesert : bool)
  : Try WeatherData :=
  forecast <-! liftT (generateNASA_ClimateForecast lat lon isDesert) ;;
  match forecast with
  | [] => throw "TypeError"
  | day0 :: _ =>
      let current :=
        {| c_temperature := day0.(d_temperature);
           c_feels_like := day0.(d_feels_like);
           c_humidity := day0.(d_humidity);
           c_wind_speed := day0.(d_wind_speed);
           c_pressure := day0.(d_pressure);
           c_conditions := day0.(d_conditions);
           c_weather_code := day0.(d_weather_code);
           c_data_quality := VStr "NASA Climate Model Simulation";
           c_provenance :=
             [("model", VStr "GEOS-5 Atmospheric Model");
              ("simulation_type", VStr "Numerical Weather Prediction")];
           c_temperature_max := VUndefined;
           c_temperature_min := VUndefined;
           c_wind_speed_50m := VUndefined;
           c_precipitation := VUndefined;
           c_solar_radiation := VUndefined;
           c_cloud_cover := VUndefined |} in
      let locationName := pendingPromise in
      liftR (Ok
        {| w_current := Some current;
           w_forecast := Some forecast;
           w_location := locationName;
           w_data_source := VStr "NASA Climate Simulation";
           w_nasa_mission := VStr "Global Modeling and Assimilation Office";
           w_climate_note :=
             VStr (if isDesert then "Desert Climate Region"
                   else "Standard Climate Region");
           w_disclaimer :=
             VStr "Data simulated using NASA climate models and historical patterns";
           w_historicalData := None;
           w_lat := VUndefined;
           w_lon := VUndefined;
           w_isDesert := VUndefined;
           w_probabilities := None |})
  end.

(* ===================================================================== *)
(** ** The HTTP surface: [GET /weather] *)
(* ===================================================================== *)

(** An entry of [ErrorType.json]. *)
Record ErrorSpec : Type := {
  HTTP_ERR_CODE : value;
  ERR_MESSAGE : value
}.

(** What the handler reaches outside the process.  Each provider adapter is
    an [async] function whose whole body sits in [try]/[catch]: it resolves
    to [null] ([None]) or to a weather object, it never rejects, and it may
    draw from [Math.random].  [getLocationName] resolves to a display name or
    to [null].  [QUERY_MISSING_ERR] is the entry of the error table, a file
    that is read at start-up. *)
Record Services : Type := {
  tryNASA_POWER : number -> number -> bool -> Gen (option WeatherData);
  tryNASA_GMAO : number -> number -> bool -> Gen (option WeatherData);
  tryNASA_Worldview : number -> number -> bool -> Gen (option WeatherData);
  getLocationName : number -> number -> value;
  QUERY_MISSING_ERR : ErrorSpec
}.

(** [req.query] *)
Record Request : Type := {
  query_lat : value;
  query_lon : value;
  query_thresholds : value
}.

(** The keys that the handler adds around the formatted data. *)
Record Metadata : Type := {
  coordinates : number * number;
  units : list (string * string);
  user_thresholds : value;
  timestamp : string
}.

Inductive Body : Type :=
| ErrorBody (e : ErrorSpec)
| WeatherBody (data : option WeatherData) (metadata : option Metadata).

(** [res.status(s).json(b)] *)
Record Response : Type := {
  status : value;
  body : Body
}.

(** [Object.keys(o).length] *)
Definition Object_keys_length (o : value) : result nat :=
  match o with
  | VUndefined | VNull => Throw "TypeError"
  | VBool _ | VNum _ => Ok 0%nat
  | VStr s => Ok (String.length s)
  | VArr items => Ok (List.length items)
  | VObj fields => Ok (List.length fields)
  end.

(** [a || b] *)
Definition or_else (a b : value) : value := if truthy a then a else b.

Section Handler.
Variable sv : Services.

(** The body of the handler's [try] block, for validated coordinates. *)
Definition fetchAndRespond (validatedLat validatedLon : number)
  (thresholds : value) : Try Response :=
  let isDesert := isDesertRegion validatedLat validatedLon in
  let userThresholds :=
    if truthy thresholds then
      match JSON_parse rt thresholds with
      | Some parsed => parsed
      | None => VObj []
      end
    else VObj [] in
  weatherData <-! liftT (tryNASA_POWER sv validatedLat validatedLon isDesert) ;;
  weatherData <-!
    match weatherData with
    | None => liftT (tryNASA_GMAO sv validatedLat validatedLon isDesert)
    | Some _ => liftR (Ok weatherData)
    end ;;
  weatherData <-!
    match weatherData with
    | None => liftT (tryNASA_Worldview sv validatedLat validatedLon isDesert)
    | Some _ => liftR (Ok weatherData)
    end ;;
  weatherData <-!
    match weatherData with
    | None => generateNASA_Model_Data validatedLat validatedLon isDesert
    | Some w => liftR (Ok w)
    end ;;
  temperature <-! liftT (generateHistoricalData validatedLat validatedLon
                           isDesert "temperature" 365) ;;
  precipitation <-! liftT (generateHistoricalData validatedLat validatedLon
                             isDesert "precipitation" 365) ;;
  wind <-! liftT (generateHistoricalData validatedLat validatedLon
                    isDesert "wind" 365) ;;
  humidity <-! liftT (generateHistoricalData validatedLat validatedLon
                        isDesert "humidity" 365) ;;
  let weatherData :=
    {| w_current := weatherData.(w_current);
       w_forecast := weatherData.(w_forecast);
       w_location := weatherData.(w_location);
       w_data_source := weatherData.(w_data_source);
       w_nasa_mission := weatherData.(w_nasa_mission);
       w_climate_note := weatherData.(w_climate_note);
       w_disclaimer := weatherData.(w_disclaimer);
       w_historicalData :=
         Some {| h_temperature := Some temperature;
                 h_precipitation := Some precipitation;
                 h_wind := Some wind;
                 h_humidity := Some humidity |};
       w_lat := VNum validatedLat;
       w_lon := VNum validatedLon;
       w_isDesert := VBool isDesert;
       w_probabilities := weatherData.(w_probabilities) |} in
  match formatWeatherData (Some weatherData) with
  | None => throw "TypeError"
  | Some formattedData =>
      keys <-! liftR (Object_keys_length userThresholds) ;;
      formattedData <-!
        (if (0 <? keys)%nat then
           computed <-! calculateProbabilities formattedData userThresholds
                          weatherData.(w_historicalData) ;;
           liftR (Ok
             {| w_current := formattedData.(w_current);
                w_forecast := formattedData.(w_forecast);
                w_location := formattedData.(w_location);
                w_data_source := formattedData.(w_data_source);
                w_nasa_mission := formattedData.(w_nasa_mission);
                w_climate_note := formattedData.(w_climate_note);
                w_disclaimer := formattedData.(w_disclaimer);
                w_historicalData := formattedData.(w_historicalData);
                w_lat := formattedData.(w_lat);
                w_lon := formattedData.(w_lon);
                w_isDesert := formattedData.(w_isDesert);
                w_probabilities := Some computed |})
         else liftR (Ok formattedData)) ;;
      let locationName := getLocationName sv validatedLat validatedLon in
      let responseData :=
        {| w_current := formattedData.(w_current);
           w_forecast := formattedData.(w_forecast);
           w_location :=
             or_else locationName
               (VStr ("Lat: " ++ NumberToString rt validatedLat
                      ++ ", Lon: " ++ NumberToString rt validatedLon));
           w_data_source :=
             or_else weatherData.(w_data_source) (VStr "NASA Climate Simulation");
           w_nasa_mission :=
             or_else weatherData.(w_nasa_mission)
               (VStr "Global Modeling and Assimilation Office");
           w_climate_note :=
             VStr (if isDesert then "Desert Climate Region"
                   else "Standard Climate Region");
           w_disclaimer := formattedData.(w_disclaimer);
           w_historicalData := formattedData.(w_historicalData);
           w_lat := formattedData.(w_lat);
           w_lon := formattedData.(w_lon);
           w_isDesert := formattedData.(w_isDesert);
           w_probabilities := formattedData.(w_probabilities) |} in
      liftR (Ok
        {| status := VNum (lit 200);
           body :=
             WeatherBody (Some responseData)
               (Some {| coordinates := (validatedLat, validatedLon);
                        units := [("temperature", "째C"); ("humidity", "%");
                                  ("wind_speed", "m/s"); ("precipitation", "mm");
                                  ("pressure", "hPa")];
                        user_thresholds := userThresholds;
                        timestamp := Date_toISOString rt |}) |})
  end.

(** The handler's [try] block: what it returns or throws, unless a
    coordinate's validation never returns. *)
Definition tryBlock (req : Request) (i : nat)
  : termination (result Response * nat) :=
  match validateCoordinate (parseFloat rt req.(query_lat)) "lat" with
  | NeverReturns => NeverReturns
  | Returns validatedLat =>
      match validateCoordinate (parseFloat rt req.(query_lon)) "lon" with
      | NeverReturns => NeverReturns
      | Returns validatedLon =>
          Returns
            (match validatedLat, validatedLon with
             | Some validatedLat, Some validatedLon =>
                 if negb (truthy (VNum validatedLat))
                    || negb (truthy (VNum validatedLon))
                 then throw "Invalid coordinates provided" i
                 else fetchAndRespond validatedLat validatedLon
                        req.(query_thresholds) i
             | _, _ => throw "Invalid coordinates provided" i
             end)
      end
  end.

(** The handler's [catch] block. *)
Definition catchBlock (req : Request) : Try Response :=
  let isDesert :=
    isDesertRegion (parseFloat rt req.(query_lat)) (parseFloat rt req.(query_lon)) in
  weatherData <-! generateNASA_Model_Data (parseFloat rt req.(query_lat))
                    (parseFloat rt req.(query_lon)) isDesert ;;
  let formattedData := formatWeatherData (Some weatherData) in
  liftR (Ok {| status := VNum (lit 200);
               body := WeatherBody formattedData None |}).

(** [rt.get("/", async (req, res) => { ... })]: the response that is sent
    or the exception that leaves the handler, after [i] draws; no response
    is sent when the [try] block never returns. *)
Definition handler (req : Request) (i : nat)
  : termination (result Response * nat) :=
  if negb (truthy req.(query_lat)) || negb (truthy req.(query_lon)) then
    Returns
      (liftR (Ok {| status := (QUERY_MISSING_ERR sv).(HTTP_ERR_CODE);
                    body := ErrorBody (QUERY_MISSING_ERR sv) |}) i)
  else
    match tryBlock req i with
    | NeverReturns => NeverReturns
    | Returns (Ok response, j) => Returns (Ok response, j)
    | Returns (Throw _, j) => Returns (catchBlock req j)
    end.

End Handler.
End Pipeline.

(* ===================================================================== *)
(** ** The weather code of a POWER reading *)
(* ===================================================================== *)

Section PowerCode.
Variable rt : Runtime.

(** [function getNASA_WeatherCodeFromPOWER(params, dateStr)]: the fallbacks
    are the constants 0 and 20. *)
Definition getNASA_WeatherCodeFromPOWER (params : value) (dateStr : string)
  : result string :=
  match rawParameter rt params "PRECTOTCORR" dateStr with
  | Throw m => Throw m
  | Ok rawPrecipitation =>
      match rawParameter rt params "CLOUD_AMT" dateStr with
      | Throw m => Throw m
      | Ok rawCloudCover =>
          let precipitation :=
            ToNumber rt (getValidNASAValue rt (VNum rawPrecipitation)
                           (VNum (lit 0))) in
          let cloudCover :=
            ToNumber rt (getValidNASAValue rt (VNum rawCloudCover)
                           (VNum (lit 20))) in
          Ok (if (precipitation >? lit 10)%js then "11"
              else if (precipitation >? lit 5)%js then "10"
              else if (precipitation >? lit 2)%js then "09"
              else if (precipitation >? lit 0)%js then "09"
              else if (cloudCover >? lit 80)%js then "04"
              else if (cloudCover >? lit 50)%js then "03"
              else if (cloudCover >? lit 20)%js then "02"
              else "01")
      end
  end.

End PowerCode.

(* ===================================================================== *)
(** ** The CSV export and [GET /weather/download] *)
(* ===================================================================== *)

(** The line feed and the double quote, as strings. *)
Definition newline : string := String (ascii_of_nat 10) EmptyString.
Definition dquote : string := String (ascii_of_nat 34) EmptyString.

(** [Array.prototype.join] on strings. *)
Fixpoint join (sep : string) (cells : list string) : string :=
  match cells with
  | [] => ""
  | c :: rest =>
      match rest with
      | [] => c
      | _ :: _ => c ++ sep ++ join sep rest
      end
  end.

(** [s.replace(c, '')] for a one-character pattern: the first occurrence
    goes. *)
Fixpoint removeFirst (c : ascii) (s : string) : string :=
  match s with
  | EmptyString => EmptyString
  | String a rest =>
      if Ascii.eqb a c then rest else String a (removeFirst c rest)
  end.

(** [s.replace(/c/g, '')] for a one-character pattern: every occurrence
    goes. *)
Fixpoint removeAll (c : ascii) (s : string) : string :=
  match s with
  | EmptyString => EmptyString
  | String a rest =>
      if Ascii.eqb a c then removeAll c rest else String a (removeAll c rest)
  end.

(** [v === s] for a string [s]. *)
Definition strict_eq_str (v : value) (s : string) : bool :=
  match v with VStr t => String.eqb t s | _ => false end.

Section CsvExport.
Variable rt : Runtime.

(** [ToString] of an array or an object, which the model leaves to the
    host. *)
Variable ObjectToString : value -> string.

(** [ToString] *)
Definition ToString (v : value) : string :=
  match v with
  | VUndefined => "undefined"
  | VNull => "null"
  | VBool b => if b then "true" else "false"
  | VNum n => NumberToString rt n
  | VStr s => s
  | VArr _ | VObj _ => ObjectToString v
  end.

(** How [join] writes an element: nothing for [undefined] and [null]. *)
Definition joinElement (v : value) : string :=
  match v with
  | VUndefined | VNull => ""
  | _ => ToString v
  end.

Definition headers : list string :=
  [ "Date"; "Temperature_C"; "Max_Temp_C"; "Min_Temp_C"; "Precipitation_mm";
    "Wind_Speed_m/s"; "Humidity_%"; "Pressure_hPa"; "Conditions" ].

(** The array that [convertToCSV] builds for one forecast day. *)
Definition csvRow (day : ForecastDay) : list value :=
  [ d_date day;
    or_else (d_temperature day) (VStr "");
    or_else (d_max_temp day) (VStr "");
    or_else (d_min_temp day) (VStr "");
    or_else (d_precipitation day) (VStr "");
    or_else (d_wind_speed day) (VStr "");
    match d_humidity day with
    | VStr humidity => VStr (removeFirst "%" humidity)
    | humidity => or_else humidity (VStr "")
    end;
    or_else (d_pressure day) (VStr "");
    or_else (d_conditions day) (VStr "") ].

(** [function convertToCSV(weatherData)]; [weatherData.forecast.map] throws
    when there is no forecast array. *)
Definition convertToCSV (weatherData : WeatherData) : result string :=
  match w_forecast weatherData with
  | None => Throw "TypeError"
  | Some forecast =>
      let rows := map csvRow forecast in
      let csvContent :=
        join newline
          (map (fun row => join "," (map joinElement row))
               (map VStr headers :: rows)) in
      Ok csvContent
  end.

(** [req.query] of the download endpoint. *)
Record DownloadRequest : Type := {
  download_lat : value;
  download_lon : value;
  download_format : value
}.

(** What the download endpoint sends: the error entry, the CSV text or the
    weather object as an attachment (with its [Content-Disposition]), or an
    object [{ error }]. *)
Inductive DownloadBody : Type :=
| DownloadErrorSpec (e : ErrorSpec)
| DownloadCSV (contentDisposition csvData : string)
| DownloadJSON (contentDisposition : string) (weatherData : WeatherData)
| DownloadError (error : string).

Record DownloadResponse : Type := {
  download_status : value;
  download_body : DownloadBody
}.

Variable sv : Services.

(** [attachment; filename="nasa_weather_${lat}_${lon}.ext"] *)
Definition contentDisposition (validatedLat validatedLon : number)
  (extension : string) : string :=
  "attachment; filename=" ++ dquote ++ "nasa_weather_"
  ++ NumberToString rt validatedLat ++ "_" ++ NumberToString rt validatedLon
  ++ extension ++ dquote.

(** The [try] block of the download handler. *)
Definition downloadTry (req : DownloadRequest) (i : nat)
  : termination (result DownloadResponse * nat) :=
  let format :=
    if is_undefined (download_format req) then VStr "csv"
    else download_format req in
  match validateCoordinate (parseFloat rt (download_lat req)) "lat" with
  | NeverReturns => NeverReturns
  | Returns validatedLat =>
      match validateCoordinate (parseFloat rt (download_lon req)) "lon" with
      | NeverReturns => NeverReturns
      | Returns validatedLon =>
          Returns
            (match validatedLat, validatedLon with
             | Some validatedLat, Some validatedLon =>
                 if negb (truthy (VNum validatedLat))
                    || negb (truthy (VNum validatedLon))
                 then throw "Invalid coordinates provided" i
                 else
                   let isDesert := isDesertRegion validatedLat validatedLon in
                   (measured <-! liftT (tryNASA_POWER sv validatedLat
                                          validatedLon isDesert) ;;
                    weatherData <-!
                      match measured with
                      | Some w => liftR (Ok w)
                      | None => generateNASA_Model_Data rt validatedLat
                                  validatedLon isDesert
                      end ;;
                    if strict_eq_str format "csv" then
                      csvData <-! liftR (convertToCSV weatherData) ;;
                      liftR (Ok {| download_status := VNum (lit 200);
                                   download_body :=
                                     DownloadCSV
                                       (contentDisposition validatedLat
                                          validatedLon ".csv")
                                       csvData |})
                    else if strict_eq_str format "json" then
                      liftR (Ok {| download_status := VNum (lit 200);
                                   download_body :=
                                     DownloadJSON
                                       (contentDisposition validatedLat
                                          validatedLon ".json")
                                       weatherData |})
                    else
                      liftR (Ok {| download_status := VNum (lit 400);
                                   download_body :=
                                     DownloadError
                                       "Unsupported format. Use csv or json." |}))
                     i
             | _, _ => throw "Invalid coordinates provided" i
             end)
      end
  end.

(** [rt.get("/download", async (req, res) => { ... })] *)
Definition download (req : DownloadRequest) (i : nat)
  : termination (DownloadResponse * nat) :=
  if negb (truthy (download_lat req)) || negb (truthy (download_lon req)) then
    Returns
      (ret {| download_status := (QUERY_MISSING_ERR sv).(HTTP_ERR_CODE);
              download_body := DownloadErrorSpec (QUERY_MISSING_ERR sv) |} i)
  else
    match downloadTry req i with
    | NeverReturns => NeverReturns
    | Returns (Ok response, j) => Returns (response, j)
    | Returns (Throw _, j) =>
        Returns ({| download_status := VNum (lit 500);
                    download_body := DownloadError "Download failed" |}, j)
    end.

End CsvExport.

(* ===================================================================== *)
(** ** The GMAO and Worldview adapters and the reverse geocoder *)
(* ===================================================================== *)

Module Adapters.

(** What [await fetch(url)] gives: the promise rejects, or it resolves to a
    response with its [ok] flag, its status and, when the body is JSON, what
    [response.json()] resolves to ([None] when that rejects). *)
Inductive FetchResult : Type :=
| Rejected
| Responded (ok : bool) (status : value) (json : option value).

Definition NASA_APIS_POWER : string :=
  "https://power.larc.nasa.gov/api/temporal/daily/point".
Definition NASA_APIS_WORLDVIEW : string :=
  "https://wvs.earthdata.nasa.gov/api/v1/snapshot".
Definition NASA_APIS_GMAO : string :=
  "https://gmao.gsfc.nasa.gov/cgi-bin/weather_api/forecast_plot.py".

Section Adapters.
Variable rt : Runtime.
Variable fetch : string -> FetchResult.

(** [function generateNASA_Current(lat, lon, isDesert = false)] *)
Definition generateNASA_Current (lat lon : number) (isDesert : bool)
  : Gen Current :=
  let temperature := getRealisticTemperature rt lat isDesert in
  humidity <- getRealisticHumidity rt lat isDesert ;;
  windSpeed <- getRealisticWindSpeed rt lat isDesert ;;
  pressure <- getRealisticPressure rt lat ;;
  ret {| c_temperature := VNum temperature;
         c_feels_like :=
           VNum (calculateNASA_FeelsLike rt temperature humidity windSpeed isDesert);
         c_humidity := VNum humidity;
         c_wind_speed := VNum windSpeed;
         c_pressure := VNum pressure;
         c_conditions := VStr (if isDesert then "Clear and Dry" else "Clear Sky");
         c_weather_code := VStr "01";
         c_data_quality := VStr "NASA Climate Model";
         c_provenance := [];
         c_temperature_max := VUndefined;
         c_temperature_min := VUndefined;
         c_wind_speed_50m := VUndefined;
         c_precipitation := VUndefined;
         c_solar_radiation := VUndefined;
         c_cloud_cover := VUndefined |}.

(** The [current] record that the adapters derive from [forecast[0]]. *)
Definition currentOfDay (day0 : ForecastDay) (data_quality : string)
  (provenance : list (string * value)) : Current :=
  {| c_temperature := d_temperature day0;
     c_feels_like := d_feels_like day0;
     c_humidity := d_humidity day0;
     c_wind_speed := d_wind_speed day0;
     c_pressure := d_pressure day0;
     c_conditions := d_conditions day0;
     c_weather_code := d_weather_code day0;
     c_data_quality := VStr data_quality;
     c_provenance := provenance;
     c_temperature_max := VUndefined;
     c_temperature_min := VUndefined;
     c_wind_speed_50m := VUndefined;
     c_precipitation := VUndefined;
     c_solar_radiation := VUndefined;
     c_cloud_cover := VUndefined |}.

(** An object [{ current, forecast }]. *)
Definition currentAndForecast (current : Current) (forecast : list ForecastDay)
  : WeatherData :=
  {| w_current := Some current;
     w_forecast := Some forecast;
     w_location := VUndefined;
     w_data_source := VUndefined;
     w_nasa_mission := VUndefined;
     w_climate_note := VUndefined;
     w_disclaimer := VUndefined;
     w_historicalData := None;
     w_lat := VUndefined;
     w_lon := VUndefined;
     w_isDesert := VUndefined;
     w_probabilities := None |}.

(** [function generateNASA_FromSatellite(lat, lon, isDesert = false)];
    [forecast[0].temperature] throws on an empty array. *)
Definition generateNASA_FromSatellite (lat lon : number) (isDesert : bool)
  : Try WeatherData :=
  forecast <-! liftT (generateNASA_ClimateForecast rt lat lon isDesert) ;;
  match forecast with
  | [] => throw "TypeError"
  | day0 :: _ =>
      let current :=
        currentOfDay day0 "NASA Satellite Derived"
          [("satellite", VStr "Terra/MODIS");
           ("resolution", VStr "250m resolution")] in
      liftR (Ok (currentAndForecast current forecast))
  end.

(** The address that [tryNASA_Worldview] requests: [worldviewUrl]. *)
Definition worldviewUrl (lat lon : number) : string :=
  let dateStr := Date_isoDay rt 0 in
  NASA_APIS_WORLDVIEW
  ++ "?REQUEST=GetSnapshot&LAYERS=MODIS_Terra_CorrectedReflectance_TrueColor&CRS=EPSG:4326&TIME="
  ++ dateStr ++ "&WRAP=DAY&BBOX="
  ++ NumberToString rt (lon - lit 0.1)%js ++ ","
  ++ NumberToString rt (lat - lit 0.1)%js ++ ","
  ++ NumberToString rt (lon + lit 0.1)%js ++ ","
  ++ NumberToString rt (lat + lit 0.1)%js
  ++ "&FORMAT=image/jpeg&WIDTH=256&HEIGHT=256".

(** [async function tryNASA_Worldview(lat, lon, isDesert = false)]: any
    exception of the body is caught and gives [null]. *)
Definition tryNASA_Worldview (lat lon : number) (isDesert : bool)
  : Gen (option WeatherData) :=
  match fetch (worldviewUrl lat lon) with
  | Rejected => ret None
  | Responded ok _ _ =>
      if ok then
        fun i =>
          match generateNASA_FromSatellite lat lon isDesert i with
          | (Ok satelliteData, j) => (Some satelliteData, j)
          | (Throw _, j) => (None, j)
          end
      else ret None
  end.

(** [day.key ? parseFloat(day.key) : -999], for a [day] that is not [null]
    or [undefined]. *)
Definition rawField (day : value) (key : string) : number :=
  if truthy (get day key) then parseFloat rt (get day key) else lit (-999).

(** One call of the function that [processGMAO_Data] passes to [forEach].
    Reading [day.temperature] throws for a [day] that is [null] or
    [undefined]; each fallback is computed (and draws) whether it is used or
    not. *)
Definition processGMAO_Day (lat lon : number) (isDesert : bool) (day : value)
  (index : nat) : Try ForecastDay :=
  match day with
  | VUndefined | VNull => throw "TypeError"
  | _ =>
      liftT (
        let temperature :=
          getValidNASAValue rt (VNum (rawField day "temperature"))
            (VNum (getRealisticTemperature rt lat isDesert)) in
        realisticHumidity <- getRealisticHumidity rt lat isDesert ;;
        let humidity :=
          getValidNASAValue rt (VNum (rawField day "humidity"))
            (VNum realisticHumidity) in
        realisticWindSpeed <- getRealisticWindSpeed rt lat isDesert ;;
        let windSpeed :=
          getValidNASAValue rt (VNum (rawField day "wind_speed"))
            (VNum realisticWindSpeed) in
        realisticPrecipitation <- getRealisticPrecipitation rt isDesert ;;
        let precipitation :=
          getValidNASAValue rt (VNum (rawField day "precipitation"))
            (VNum realisticPrecipitation) in
        realisticPressure <- getRealisticPressure rt lat ;;
        let pressure :=
          getValidNASAValue rt (VNum (rawField day "pressure"))
            (VNum realisticPressure) in
        realisticMax <- getRealisticMaxTemperature rt lat isDesert ;;
        realisticMin <- getRealisticMinTemperature rt lat isDesert ;;
        ret {| d_date := VStr (Date_isoDay rt index);
               d_temperature := temperature;
               d_max_temp :=
                 getValidNASAValue rt (VNum (rawField day "temp_max"))
                   (VNum realisticMax);
               d_min_temp :=
                 getValidNASAValue rt (VNum (rawField day "temp_min"))
                   (VNum realisticMin);
               d_precipitation := precipitation;
               d_wind_speed := windSpeed;
               d_humidity := humidity;
               d_pressure := pressure;
               d_weather_code :=
                 VStr (getNASA_WeatherCode (ToNumber rt precipitation)
                         (ToNumber rt humidity));
               d_conditions :=
                 VStr (getNASA_WeatherCondition (ToNumber rt precipitation)
                         (ToNumber rt humidity) isDesert);
               d_feels_like :=
                 VNum (calculateNASA_FeelsLike rt (ToNumber rt temperature)
                         (ToNumber rt humidity) (ToNumber rt windSpeed) isDesert);
               d_provenance := [] |})
  end.

(** [gmaoData.forecast.forEach((day, index) => { ... })], from [index] on. *)
Fixpoint processGMAO_Days (lat lon : number) (isDesert : bool)
  (days : list value) (index : nat) : Try (list ForecastDay) :=
  match days with
  | [] => liftR (Ok [])
  | day :: rest =>
      pushed <-! processGMAO_Day lat lon isDesert day index ;;
      forecast <-! processGMAO_Days lat lon isDesert rest (S index) ;;
      liftR (Ok (pushed :: forecast))
  end.

(** [function processGMAO_Data(gmaoData, lat, lon, isDesert = false)]:
    [forEach] is a method of arrays only. *)
Definition processGMAO_Data (gmaoData : value) (lat lon : number)
  (isDesert : bool) : Try WeatherData :=
  match member gmaoData "forecast" with
  | Ok (VArr days) =>
      forecast <-! processGMAO_Days lat lon isDesert days 0 ;;
      match forecast with
      | day0 :: _ =>
          let current :=
            currentOfDay day0 "NASA GEOS Forecast Model"
              [("model_resolution", VStr "0.25째 grid spacing")] in
          liftR (Ok (currentAndForecast current forecast))
      | [] =>
          current <-! liftT (generateNASA_Current lat lon isDesert) ;;
          liftR (Ok (currentAndForecast current forecast))
      end
  | _ => throw "TypeError"
  end.

(** The address that [tryNASA_GMAO] requests: [gmaoUrl]. *)
Definition gmaoUrl (lat lon : number) : string :=
  NASA_APIS_GMAO ++ "?lat=" ++ NumberToString rt lat
  ++ "&lon=" ++ NumberToString rt lon ++ "&type=json".

(** [async function tryNASA_GMAO(lat, lon, isDesert = false)] *)
Definition tryNASA_GMAO (lat lon : number) (isDesert : bool)
  : Gen (option WeatherData) :=
  match fetch (gmaoUrl lat lon) with
  | Rejected => ret None
  | Responded ok _ json =>
      if negb ok then ret None
      else
        match json with
        | None => ret None
        | Some data =>
            if truthy data && truthy (get data "forecast") then
              fun i =>
                match processGMAO_Data data lat lon isDesert i with
                | (Ok weatherData, j) => (Some weatherData, j)
                | (Throw _, j) => (None, j)
                end
            else ret None
        end
  end.

(** The address that [getLocationName] requests. *)
Definition reverseUrl (lat lon : number) : string :=
  "https://nominatim.openstreetmap.org/reverse?format=json&lat="
  ++ NumberToString rt lat ++ "&lon=" ++ NumberToString rt lon ++ "&zoom=10".

(** [async function getLocationName(lat, lon)]: the display name, or [null]
    when the request fails, the answer is not JSON or the name is missing. *)
Definition getLocationName (lat lon : number) : value :=
  match fetch (reverseUrl lat lon) with
  | Rejected => VNull
  | Responded ok _ json =>
      if ok then
        match json with
        | None => VNull
        | Some data =>
            match member data "display_name" with
            | Ok display_name => or_else display_name VNull
            | Throw _ => VNull
            end
        end
      else VNull
  end.

(** *** The POWER adapter *)

(** [Object.keys] of a value that is not [null] or [undefined], in the order
    of the host: the keys that are array indices first, in ascending order,
    then the others as they were added. *)
Variable Object_keys : value -> list string.

(** The address that [tryNASA_POWER] requests: [powerUrl]. *)
Definition powerUrl (lat lon : number) : string :=
  let startDate := removeAll "-" (Date_isoDay rt 0) in
  let parameters :=
    join ","
      [ "T2M"; "T2M_MAX"; "T2M_MIN"; "RH2M"; "WS10M"; "WS50M";
        "PRECTOTCORR"; "PS"; "ALLSKY_SFC_SW_DWN"; "CLOUD_AMT" ] in
  NASA_APIS_POWER ++ "?parameters=" ++ parameters
  ++ "&community=RE&longitude=" ++ NumberToString rt lon
  ++ "&latitude=" ++ NumberToString rt lat
  ++ "&start=" ++ startDate ++ "&end=" ++ startDate ++ "&format=JSON".

(** [a || b] for a number [a]: [b] is computed, and draws, only when [a] is
    falsy. *)
Definition orDraw (a : number) (b : Gen number) : Gen number :=
  if truthy (VNum a) then ret a else b.

(** One round of the loop of [generateNASA_ForecastFromPOWER]. *)
Definition powerForecastDay
  (temperature wind_speed humidity precipitation pressure : number)
  (lat lon : number) (isDesert : bool) (i : nat) : Gen ForecastDay :=
  let baseTemp :=
    if truthy (VNum temperature) then temperature
    else getRealisticTemperature rt lat isDesert in
  r <- random rt ;;
  let tempVariation :=
    (Math_sin rt (lit (inject_Z (Z.of_nat i)) * lit 0.8) * lit 2
     + (r - lit 0.5) * lit 3)%js in
  windSpeed <- orDraw wind_speed (getRealisticWindSpeed rt lat isDesert) ;;
  humidity <- orDraw humidity (getRealisticHumidity rt lat isDesert) ;;
  precipitation <- orDraw precipitation (getRealisticPrecipitation rt isDesert) ;;
  rMax <- random rt ;;
  rMin <- random rt ;;
  rPrecipitation <- random rt ;;
  rWind <- random rt ;;
  rHumidity <- random rt ;;
  pressure <- orDraw pressure (getRealisticPressure rt lat) ;;
  rPressure <- random rt ;;
  rConfidence <- random rt ;;
  ret {| d_date := VStr (Date_isoDay rt i);
         d_temperature := VNum (baseTemp + tempVariation)%js;
         d_max_temp :=
           VNum (baseTemp + tempVariation + lit 2 + rMax * lit 2)%js;
         d_min_temp :=
           VNum (baseTemp + tempVariation - lit 2 - rMin * lit 2)%js;
         d_precipitation :=
           VNum (precipitation * (lit 0.8 + rPrecipitation * lit 0.4))%js;
         d_wind_speed := VNum (windSpeed * (lit 0.9 + rWind * lit 0.2))%js;
         d_humidity := VNum (humidity * (lit 0.95 + rHumidity * lit 0.1))%js;
         d_pressure := VNum (pressure * (lit 0.99 + rPressure * lit 0.02))%js;
         d_weather_code := VStr (getNASA_WeatherCode precipitation humidity);
         d_conditions :=
           VStr (getNASA_WeatherCondition precipitation humidity isDesert);
         d_feels_like :=
           VNum (calculateNASA_FeelsLike rt (baseTemp + tempVariation)%js
                   humidity windSpeed isDesert);
         d_provenance :=
           [("data_based_on", VStr "NASA POWER Historical Patterns");
            ("confidence", VNum (lit 0.75 + rConfidence * lit 0.2)%js)] |}.

(** [function generateNASA_ForecastFromPOWER(current, lat, lon, isDesert = false)],
    for a [current] whose temperature, wind speed, humidity, precipitation
    and pressure are numbers, as [tryNASA_POWER] builds them. *)
Definition generateNASA_ForecastFromPOWER
  (temperature wind_speed humidity precipitation pressure : number)
  (lat lon : number) (isDesert : bool) : Gen (list ForecastDay) :=
  forLoop (powerForecastDay temperature wind_speed humidity precipitation
             pressure lat lon isDesert) 0 7.

(** The body of [tryNASA_POWER] from the parsed answer on; [None] is
    [return null].  The five raw readings are taken first; each fallback is
    computed, and draws, whether it is used or not.  Reading a date of a
    column that the answer does not have throws. *)
Definition processPOWER (data : value) (lat lon : number) (isDesert : bool)
  : Try (option WeatherData) :=
  properties <-! liftR (member data "properties") ;;
  if negb (truthy properties) || negb (truthy (get properties "parameter"))
  then liftR (Ok None)
  else
    let params := get properties "parameter" in
    let dates := Object_keys (or_else (get params "T2M") (VObj [])) in
    match dates with
    | [] => liftR (Ok None)
    | currentDateStr :: _ =>
        rawTemperature <-! liftR (rawParameter rt params "T2M" currentDateStr) ;;
        rawHumidity <-! liftR (rawParameter rt params "RH2M" currentDateStr) ;;
        rawWindSpeed <-! liftR (rawParameter rt params "WS10M" currentDateStr) ;;
        rawPrecipitation <-!
          liftR (rawParameter rt params "PRECTOTCORR" currentDateStr) ;;
        rawPressure <-! liftR (rawParameter rt params "PS" currentDateStr) ;;
        let temperature :=
          getValidNASAValue rt (VNum rawTemperature)
            (VNum (getRealisticTemperature rt lat isDesert)) in
        realisticHumidity <-! liftT (getRealisticHumidity rt lat isDesert) ;;
        let humidity :=
          getValidNASAValue rt (VNum rawHumidity) (VNum realisticHumidity) in
        realisticWindSpeed <-! liftT (getRealisticWindSpeed rt lat isDesert) ;;
        let windSpeed :=
          getValidNASAValue rt (VNum rawWindSpeed) (VNum realisticWindSpeed) in
        realisticPrecipitation <-! liftT (getRealisticPrecipitation rt isDesert) ;;
        let precipitation :=
          getValidNASAValue rt (VNum rawPrecipitation)
            (VNum realisticPrecipitation) in
        realisticPressure <-! liftT (getRealisticPressure rt lat) ;;
        let pressure :=
          getValidNASAValue rt (VNum rawPressure) (VNum realisticPressure) in
        rawMax <-! liftR (rawParameter rt params "T2M_MAX" currentDateStr) ;;
        realisticMax <-! liftT (getRealisticMaxTemperature rt lat isDesert) ;;
        rawMin <-! liftR (rawParameter rt params "T2M_MIN" currentDateStr) ;;
        realisticMin <-! liftT (getRealisticMinTemperature rt lat isDesert) ;;
        rawWindSpeed50m <-! liftR (rawParameter rt params "WS50M" currentDateStr) ;;
        rawSolar <-!
          liftR (rawParameter rt params "ALLSKY_SFC_SW_DWN" currentDateStr) ;;
        rawCloud <-! liftR (rawParameter rt params "CLOUD_AMT" currentDateStr) ;;
        realisticCloud <-! liftT (getRealisticCloudCover rt isDesert) ;;
        conditions <-! getNASA_ConditionsFromPOWER rt params currentDateStr isDesert ;;
        weather_code <-!
          liftR (getNASA_WeatherCodeFromPOWER rt params currentDateStr) ;;
        let current :=
          {| c_temperature := temperature;
             c_temperature_max :=
               getValidNASAValue rt (VNum rawMax) (VNum realisticMax);
             c_temperature_min :=
               getValidNASAValue rt (VNum rawMin) (VNum realisticMin);
             c_humidity := humidity;
             c_wind_speed := windSpeed;
             c_wind_speed_50m :=
               getValidNASAValue rt (VNum rawWindSpeed50m)
                 (VNum (ToNumber rt windSpeed * lit 1.2)%js);
             c_precipitation := precipitation;
             c_pressure := pressure;
             c_solar_radiation := getValidNASAValue rt (VNum rawSolar) VNull;
             c_cloud_cover :=
               getValidNASAValue rt (VNum rawCloud) (VNum realisticCloud);
             c_conditions := VStr conditions;
             c_weather_code := VStr weather_code;
             c_feels_like :=
               VNum (calculateNASA_FeelsLike rt (ToNumber rt temperature)
                       (ToNumber rt humidity) (ToNumber rt windSpeed) isDesert);
             c_data_quality := VStr "NASA Satellite & Model Data";
             c_provenance :=
               [("measurement_height", VStr "2m above surface")] |} in
        forecast <-!
          liftT (generateNASA_ForecastFromPOWER (ToNumber rt temperature)
                   (ToNumber rt windSpeed) (ToNumber rt humidity)
                   (ToNumber rt precipitation) (ToNumber rt pressure)
                   lat lon isDesert) ;;
        liftR (Ok (Some (currentAndForecast current forecast)))
    end.

(** [async function tryNASA_POWER(lat, lon, isDesert = false)]: any
    exception of the body is caught and gives [null]. *)
Definition tryNASA_POWER (lat lon : number) (isDesert : bool)
  : Gen (option WeatherData) :=
  match fetch (powerUrl lat lon) with
  | Rejected => ret None
  | Responded ok _ json =>
      if negb ok then ret None
      else
        match json with
        | None => ret None
        | Some data =>
            fun i =>
              match processPOWER data lat lon isDesert i with
              | (Ok answer, j) => (answer, j)
              | (Throw _, j) => (None, j)
              end
        end
  end.

End Adapters.
End Adapters.

(** The services of the handler with the GMAO and Worldview adapters and
    the geocoder above; the POWER adapter and the error entry are given. *)
Definition services (rt : Runtime) (fetch : string -> Adapters.FetchResult)
  (power : number -> number -> bool -> Gen (option WeatherData))
  (missing : ErrorSpec) : Services :=
  {| tryNASA_POWER := power;
     tryNASA_GMAO := Adapters.tryNASA_GMAO rt fetch;
     tryNASA_Worldview := Adapters.tryNASA_Worldview rt fetch;
     getLocationName := Adapters.getLocationName rt fetch;
     QUERY_MISSING_ERR := missing |}.

(** The same services with the POWER adapter above. *)
Definition all_services (rt : Runtime) (fetch : string -> Adapters.FetchResult)
  (Object_keys : value -> list string) (missing : ErrorSpec) : Services :=
  services rt fetch (Adapters.tryNASA_POWER rt fetch Object_keys) missing.

(* ===================================================================== *)
(** ** A concrete host, to run the model on examples *)
(* ===================================================================== *)

Module Host.

(** The leading decimal digits of [s]: their value after [acc], how many
    there are, and the rest of the string. *)
Fixpoint digits (s : string) (acc : Z) (count : nat) : Z * nat * string :=
  match s with
  | String c rest =>
      let n := nat_of_ascii c in
      if ((48 <=? n) && (n <=? 57))%nat
      then digits rest (acc * 10 + Z.of_nat (n - 48)) (S count)
      else (acc, count, s)
  | EmptyString => (acc, count, s)
  end.

(** [parseFloat] on plain decimal notation (a sign, digits, a fraction);
    [NaN] when no digit is found. *)
Definition parseDecimal (s : string) : number :=
  let '(negative, s) :=
    match s with
    | String "-" rest => (true, rest)
    | String "+" rest => (false, rest)
    | _ => (false, s)
    end in
  let '(whole, nw, s) := digits s 0 0 in
  let '(frac, nf, _) :=
    match s with
    | String "." rest => digits rest 0 0
    | _ => (0%Z, 0%nat, s)
    end in
  if (nw + nf =? 0)%nat then NaN
  else
    let scale := (10 ^ Z.of_nat nf)%Z in
    let q := (whole * scale + frac)%Z # Z.to_pos scale in
    lit (if negative then - q else q).

(** The first [n] decimals of [num / den], for [0 <= num < den], up to the
    last one that is not zero. *)
Fixpoint decimals (n : nat) (num den : Z) : string :=
  match n with
  | O => ""
  | S n' =>
      if (num =? 0)%Z then ""
      else IntegerToString (10 * num / den)
           ++ decimals n' ((10 * num) mod den) den
  end.

(** A finite number in decimal notation, with at most 17 decimals. *)
Definition printDecimal (q : Q) : string :=
  let den := Z.pos (Qden q) in
  let num := Z.abs (Qnum q) in
  (if (Qnum q <? 0)%Z then "-" else "")
  ++ IntegerToString (num / den) ++ "." ++ decimals 17 (num mod den) den.

Definition runtime : Runtime :=
  {| StringToNumber_lit := parseDecimal;
     ObjectToNumber := fun _ => NaN;
     NumberToString_frac := printDecimal;
     parseFloat := fun v =>
       match v with
       | VNum n => n
       | VStr s => parseDecimal s
       | _ => NaN
       end;
     JSON_parse := fun v =>
       match v with
       | VStr "null" => Some VNull
       | VStr "{}" => Some (VObj [])
       | _ => None
       end;
     Math_sin := fun _ => lit 0;
     Math_pow := fun _ _ => lit 1;
     Math_PI := lit 3.141592653589793;
     Math_random := fun i => lit (inject_Z (Z.of_nat (i mod 10)) / 10);
     Date_getMonth := lit 6;
     Date_getHours := lit 12;
     Date_isoDay := fun _ => "2025-07-01";
     Date_toISOString := "2025-07-01T12:00:00.000Z" |}.

(** Every provider is unreachable, and so is the geocoder. *)
Definition offline : Services :=
  {| tryNASA_POWER := fun _ _ _ => ret None;
     tryNASA_GMAO := fun _ _ _ => ret None;
     tryNASA_Worldview := fun _ _ _ => ret None;
     getLocationName := fun _ _ => VNull;
     QUERY_MISSING_ERR :=
       {| HTTP_ERR_CODE := VNum (lit 400);
          ERR_MESSAGE := VStr "Missing query parameters" |} |}.

(** A weather object as the POWER adapter builds it. *)
Definition measured : WeatherData :=
  let day :=
    {| d_date := VStr "2025-07-01";
       d_temperature := VNum (lit 21.37);
       d_max_temp := VNum (lit 25.02);
       d_min_temp := VNum (lit 17.5);
       d_precipitation := VNum (lit 0);
       d_wind_speed := VNum (lit 3.21);
       d_humidity := VNum (lit 65);
       d_pressure := VNum (lit 1013.25);
       d_weather_code := VStr "02";
       d_conditions := VStr "Partly Cloudy";
       d_feels_like := VNum (lit 21.37);
       d_provenance := [("data_based_on", VStr "NASA POWER Historical Patterns")]
    |} in
  {| w_current :=
       Some {| c_temperature := VNum (lit 21.37);
               c_temperature_max := VNum (lit 25.02);
               c_temperature_min := VNum (lit 17.5);
               c_humidity := VNum (lit 65);
               c_wind_speed := VNum (lit 3.21);
               c_wind_speed_50m := VNum (lit 3.852);
               c_precipitation := VNum (lit 0);
               c_pressure := VNum (lit 1013.25);
               c_solar_radiation := VNull;
               c_cloud_cover := VNum (lit 40);
               c_conditions := VStr "Mostly Clear";
               c_weather_code := VStr "02";
               c_feels_like := VNum (lit 21.37);
               c_data_quality := VStr "NASA Satellite & Model Data";
               c_provenance := [("measurement_height", VStr "2m above surface")]
            |};
     w_forecast := Some [day];
     w_location := VUndefined;
     w_data_source := VUndefined;
     w_nasa_mission := VUndefined;
     w_climate_note := VUndefined;
     w_disclaimer := VUndefined;
     w_historicalData := None;
     w_lat := VUndefined;
     w_lon := VUndefined;
     w_isDesert := VUndefined;
     w_probabilities := None |}.

(** The POWER adapter answers with [measured]; the others are unreachable. *)
Definition online : Services :=
  {| tryNASA_POWER := fun _ _ _ => ret (Some measured);
     tryNASA_GMAO := fun _ _ _ => ret None;
     tryNASA_Worldview := fun _ _ _ => ret None;
     getLocationName := fun _ _ => VStr "Quito, Ecuador";
     QUERY_MISSING_ERR := QUERY_MISSING_ERR offline |}.

(** The [parameter] object of a POWER answer for the day 20250701. *)
Definition power_parameters (precipitation cloud : Q) : value :=
  VObj [("CLOUD_AMT", VObj [("20250701", VNum (lit cloud))]);
        ("PRECTOTCORR", VObj [("20250701", VNum (lit precipitation))])].

Definition request (lat lon : string) : Request :=
  {| query_lat := VStr lat; query_lon := VStr lon;
     query_thresholds := VUndefined |}.

(** The same request with a [thresholds] parameter. *)
Definition request_with (lat lon thresholds : string) : Request :=
  {| query_lat := VStr lat; query_lon := VStr lon;
     query_thresholds := VStr thresholds |}.

(** [req.query] of a download. *)
Definition download_request (lat lon : string) (format : value)
  : DownloadRequest :=
  {| download_lat := VStr lat; download_lon := VStr lon;
     download_format := format |}.

(** [ToString] of an object. *)
Definition ObjectToString (v : value) : string := "[object Object]".

(** A forecast day without rain, as an adapter builds it. *)
Definition dry_day : ForecastDay :=
  {| d_date := VStr "2025-07-01";
     d_temperature := VNum (lit 21.37);
     d_max_temp := VNum (lit 25.02);
     d_min_temp := VNum (lit 17.5);
     d_precipitation := VNum (lit 0);
     d_wind_speed := VNum (lit 3.21);
     d_humidity := VNum (lit 64.6);
     d_pressure := VNum (lit 1013.25);
     d_weather_code := VStr "02";
     d_conditions := VStr "Partly Cloudy";
     d_feels_like := VNum (lit 21.37);
     d_provenance := [] |}.

(** No request is answered. *)
Definition unreachable (url : string) : Adapters.FetchResult :=
  Adapters.Rejected.

(** Only the Worldview snapshot service answers; its body is an image. *)
Definition worldview_up (url : string) : Adapters.FetchResult :=
  if String.prefix Adapters.NASA_APIS_WORLDVIEW url
  then Adapters.Responded true (VNum (lit 200)) None
  else Adapters.Rejected.

(** A day of a GMAO answer. *)
Definition gmao_day (precipitation : Q) : value :=
  VObj [("temperature", VNum (lit 18.2)); ("temp_max", VNum (lit 22));
        ("temp_min", VNum (lit 12.5));
        ("precipitation", VNum (lit precipitation));
        ("wind_speed", VNum (lit 4)); ("humidity", VNum (lit 70));
        ("pressure", VNum (lit 1012))].

(** A GMAO answer of two days, the first without rain. *)
Definition gmao_answer : value :=
  VObj [("forecast", VArr [gmao_day 0; gmao_day 3])].

(** Only the GMAO service answers. *)
Definition gmao_up (url : string) : Adapters.FetchResult :=
  if String.prefix Adapters.NASA_APIS_GMAO url
  then Adapters.Responded true (VNum (lit 200)) (Some gmao_answer)
  else Adapters.Rejected.

(** The keys of an object whose keys are not array indices. *)
Definition Object_keys (v : value) : list string :=
  match v with VObj fields => map fst fields | _ => [] end.

(** A POWER answer for one day, with its ten columns; the last three
    readings are missing. *)
Definition power_answer (precipitation humidity : Q) : value :=
  let column (q : Q) := VObj [("20250701", VNum (lit q))] in
  VObj [("properties",
         VObj [("parameter",
                VObj [("T2M", column 21.37); ("T2M_MAX", column 25.02);
                      ("T2M_MIN", column 17.5); ("RH2M", column humidity);
                      ("WS10M", column 3.21); ("WS50M", column (-999));
                      ("PRECTOTCORR", column precipitation);
                      ("PS", column 101.3);
                      ("ALLSKY_SFC_SW_DWN", column (-999));
                      ("CLOUD_AMT", column (-999))])])].

(** A POWER answer that has the temperature column only. *)
Definition power_answer_T2M_only : value :=
  VObj [("properties",
         VObj [("parameter",
                VObj [("T2M", VObj [("20250701", VNum (lit 21.37))])])])].

(** The POWER service answers with the temperature column only. *)
Definition power_partial (url : string) : Adapters.FetchResult :=
  if String.prefix Adapters.NASA_APIS_POWER url
  then Adapters.Responded true (VNum (lit 200)) (Some power_answer_T2M_only)
  else Adapters.Rejected.

(** Only the POWER service answers. *)
Definition power_up (url : string) : Adapters.FetchResult :=
  if String.prefix Adapters.NASA_APIS_POWER url
  then Adapters.Responded true (VNum (lit 200)) (Some (power_answer 1.5 65))
  else Adapters.Rejected.

End Host.

(* ===================================================================== *)
(** ** The vocabulary of the specification *)
(* ===================================================================== *)

(** Two numbers with the same value. *)
Definition same_number (a b : number) : Prop :=
  match a, b with
  | NaN, NaN => True
  | Num x, Num y => x == y
  | _, _ => False
  end.

(** The table of the specification: region, latMin, latMax, lonMin, lonMax. *)
Definition desert_table : list (string * Q * Q * Q * Q) :=
  [ ("Sahara", 15, 30, -20, 50);
    ("Arabian", 15, 30, 35, 60);
    ("Gobi", 35, 50, 85, 120);
    ("Australian", -30, -20, 120, 150);
    ("North American", 25, 40, -120, -100);
    ("Kalahari", -25, -15, 15, 25);
    ("Thar", 20, 30, 65, 75);
    ("Syrian", 30, 35, 35, 45) ].

(** The point lies in the box, its four edges included. *)
Definition in_box (lat lon : Q) (box : string * Q * Q * Q * Q) : Prop :=
  let '(_, latMin, latMax, lonMin, lonMax) := box in
  latMin <= lat /\ lat <= latMax /\ lonMin <= lon /\ lon <= lonMax.

(** What the first loop establishes of its outcome: it returns unless the
    number is above [absorbing]; what it returns is at most 180, is the
    number itself when that was at most 180 already, and is not below -180
    unless the number was. *)
Definition wrap_down_post (x : Q) (t : termination Q) : Prop :=
  match t with
  | Returns r =>
      x <= absorbing /\ r <= 180 /\ (x <= 180 -> r = x) /\ (-180 <= x -> -180 <= r)
  | NeverReturns => absorbing < x
  end.

(** What the second loop establishes, the other way round. *)
Definition wrap_up_post (x : Q) (t : termination Q) : Prop :=
  match t with
  | Returns r =>
      - absorbing <= x /\ -180 <= r /\ (-180 <= x -> r = x) /\ (x <= 180 -> r <= 180)
  | NeverReturns => x < - absorbing
  end.

(** A longitude that the loops of [validateCoordinate] bring back: [NaN],
    which never enters them, or a number of magnitude [2 ^ 62] at most. *)
Definition wrappable (lon : number) : Prop :=
  match lon with
  | NaN => True
  | Num q => - absorbing <= q /\ q <= absorbing
  end.

(** The wind-chill formula of the specification, for a temperature [T] and
    the power [P = (V * 3.6) ^ 0.16]. *)
Definition wind_chill_formula (T P : Q) : Q :=
  13.12 + 0.6215 * T - 11.37 * P + 0.3965 * T * P.

(** The decision of [getNASA_ConditionsFromPOWER] once both values are
    resolved. *)
Definition power_label (precipitation cloudCover : number) (isDesert : bool)
  : string :=
  if (precipitation >? lit 10)%js then "Heavy Rain"
  else if (precipitation >? lit 5)%js then "Rain"
  else if (precipitation >? lit 2)%js then "Light Rain"
  else if (precipitation >? lit 0)%js then "Drizzle"
  else if (cloudCover >? lit 80)%js then "Overcast"
  else if (cloudCover >? lit 50)%js then "Partly Cloudy"
  else if (cloudCover >? lit 20)%js then "Mostly Clear"
  else if isDesert then "Clear and Dry" else "Clear Sky".

(** The number of samples strictly greater than the threshold. *)
Definition count_above (t : Q) (series : list number) : nat :=
  List.length (filter (fun x => gtb x (Num t)) series).

(** The percentage as [probabilityAbove] hands it to [Math.round]: the share
    [c / n] and its product by 100, each stored as a binary64 value. *)
Definition stored_percent (c n : Z) : Q :=
  binary64 (Qred (binary64 (Qred (Qred (inject_Z c) / Qred (inject_Z n))) * Qred 100)).

(** [p] is an integer nearest to [100 * count / total]: it lies half a
    percent away at most.  Where [100 * count / total] is halfway between
    two integers, both are nearest. *)
Definition nearest_percent (p : Z) (count total : nat) : Prop :=
  (2 * Z.of_nat total * p - Z.of_nat total <= 200 * Z.of_nat count
   /\ 200 * Z.of_nat count <= 2 * Z.of_nat total * p + Z.of_nat total)%Z.

(** What [calculateProbabilities] says about one dimension: no key when the
    threshold is absent, an integer percentage nearest to the share of
    exceeding samples when it is a number and the series is not empty (an
    array has fewer than [2 ^ 32] elements). *)
Definition dimension (thresholds : value) (probabilities : list (string * value))
  (threshold key : string) (series : list number) : Prop :=
  (get thresholds threshold = VUndefined -> assoc key probabilities = None)
  /\ (forall t : Q,
        get thresholds threshold = VNum (Num t) -> series <> [] ->
        (Z.of_nat (List.length series) < 2 ^ 32)%Z ->
        exists p : Z,
          assoc key probabilities = Some (VNum (Num (inject_Z p)))
          /\ nearest_percent p (count_above t series) (List.length series)).

(** The fields of [current] that the formatter rounds to one decimal. *)
Definition one_decimal_current (c : Current) : list value :=
  [ c_temperature c; c_temperature_max c; c_temperature_min c;
    c_wind_speed c; c_wind_speed_50m c; c_precipitation c; c_pressure c;
    c_solar_radiation c; c_feels_like c ].

(** The fields of [current] that the formatter turns into a percentage. *)
Definition percent_current (c : Current) : list value :=
  [ c_humidity c; c_cloud_cover c ].

(** The fields of [current] that the formatter leaves alone. *)
Definition plain_current (c : Current)
  : value * value * value * list (string * value) :=
  (c_conditions c, c_weather_code c, c_data_quality c, c_provenance c).

(** The same three groups for a forecast day. *)
Definition one_decimal_day (d : ForecastDay) : list value :=
  [ d_temperature d; d_max_temp d; d_min_temp d; d_precipitation d;
    d_wind_speed d; d_pressure d; d_feels_like d ].

Definition percent_day (d : ForecastDay) : list value := [ d_humidity d ].

Definition plain_day (d : ForecastDay)
  : value * value * value * list (string * value) :=
  (d_date d, d_weather_code d, d_conditions d, d_provenance d).

(** What formatting makes of a percentage that is formatted already: the
    string is not numeric any more. *)
Definition percent_again (v : value) : value :=
  if is_null v || is_undefined v then v else VStr "NaN%".

Definition current_of (o : option WeatherData) : option Current :=
  match o with Some w => w_current w | None => None end.

Definition forecast_of (o : option WeatherData) : option (list ForecastDay) :=
  match o with Some w => w_forecast w | None => None end.

(** The value is there: it is neither [undefined] nor [null]. *)
Definition populated (v : value) : bool := negb (is_undefined v || is_null v).

(** A forecast day all of whose fields are there. *)
Definition populated_day (d : ForecastDay) : Prop :=
  forallb populated
    [ d_date d; d_temperature d; d_max_temp d; d_min_temp d; d_precipitation d;
      d_wind_speed d; d_humidity d; d_pressure d; d_weather_code d;
      d_conditions d; d_feels_like d ] = true.

(** A [current] record with the fields that the synthetic model fills (it
    has no extremes, no wind at 50 m, no precipitation, solar radiation or
    cloud cover). *)
Definition populated_current (c : Current) : Prop :=
  forallb populated
    [ c_temperature c; c_feels_like c; c_humidity c; c_wind_speed c;
      c_pressure c; c_conditions c; c_weather_code c; c_data_quality c ] = true.

(** [data] carries the output of the synthetic climate model for the point
    [lat], [lon], formatted: its [current] record and its seven forecast
    days are those of one run of [generateNASA_Model_Data] there, and their
    fields are there. *)
Definition synthetic (rt : Runtime) (lat lon : number) (data : WeatherData)
  : Prop :=
  exists (i j : nat) (model : WeatherData) (c : Current)
         (days : list ForecastDay),
    generateNASA_Model_Data rt lat lon (isDesertRegion lat lon) i = (Ok model, j)
    /\ w_current model = Some c
    /\ w_forecast model = Some days
    /\ List.length days = 7%nat
    /\ w_data_source model = VStr "NASA Climate Simulation"
    /\ w_current data = Some (format_current rt c)
    /\ w_forecast data = Some (map (format_day rt) days)
    /\ populated_current (format_current rt c)
    /\ Forall (fun day => populated_day (format_day rt day)) days.

(** The response is HTTP 200 with a weather body from the synthetic model
    for the point [lat], [lon], whose [data_source] is
    "NASA Climate Simulation". *)
Definition served_synthetic (rt : Runtime) (lat lon : number)
  (response : Response) : Prop :=
  status response = VNum (lit 200)
  /\ exists data metadata,
       body response = WeatherBody (Some data) metadata
       /\ w_data_source data = VStr "NASA Climate Simulation"
       /\ synthetic rt lat lon data.

(** The point that the handler computes its synthetic data for: the
    validated coordinates, both valid and not zero, when the [try] block
    answers, and the coordinates as [parseFloat] read them when the [catch]
    block does. *)
Definition fallback_point (rt : Runtime) (req : Request) (lat lon : number)
  : Prop :=
  (validateCoordinate (parseFloat rt (query_lat req)) "lat" = Returns (Some lat)
   /\ validateCoordinate (parseFloat rt (query_lon req)) "lon"
      = Returns (Some lon)
   /\ truthy (VNum lat) = true /\ truthy (VNum lon) = true)
  \/ (lat = parseFloat rt (query_lat req)
      /\ lon = parseFloat rt (query_lon req)).

(** The cells of the CSV line of a forecast day, as [join] writes them. *)
Definition csvCells (rt : Runtime) (ObjectToString : value -> string)
  (day : ForecastDay) : list string :=
  map (joinElement rt ObjectToString) (csvRow day).

(** The columns of a CSV line after the date, each with the field of the
    forecast day that it holds. *)
Definition csv_columns : list (nat * (ForecastDay -> value)) :=
  [ (1, d_temperature); (2, d_max_temp); (3, d_min_temp);
    (4, d_precipitation); (5, d_wind_speed); (6, d_humidity);
    (7, d_pressure); (8, d_conditions) ]%nat.

(** An integer number of percent. *)
Definition percentage (r : number) : Prop :=
  exists p : Z, r = Num (inject_Z p) /\ (0 <= p <= 100)%Z.

(** The number of samples strictly greater than [t], for any number [t]. *)
Definition count_gt (t : number) (series : list number) : nat :=
  List.length (filter (fun x => gtb x t) series).

(** [Math.random()] returns a number from 0 up to, not including, 1. *)
Definition unit_random (rt : Runtime) : Prop :=
  forall i : nat, exists r : Q, Math_random rt i = Num r /\ 0 <= r /\ r < 1.

(** The value is a finite number in [[lo, hi)]. *)
Definition within (lo hi : Q) (v : value) : Prop :=
  exists q : Q, v = VNum (Num q) /\ lo <= q /\ q < hi.

(** The value is a finite number in [(lo, hi]]. *)
Definition within_left_open (lo hi : Q) (v : value) : Prop :=
  exists q : Q, v = VNum (Num q) /\ lo < q /\ q <= hi.

(** The ranges of a day of the synthetic forecast around the base
    temperature [t]. *)
Definition day_in_bands (isDesert : bool) (t : Q) (day : ForecastDay) : Prop :=
  d_temperature day = VNum (Num t)
  /\ (if isDesert then within (t + 12) (t + 17) (d_max_temp day)
      else within (t + 5) (t + 8) (d_max_temp day))
  /\ (if isDesert then within_left_open (t - 20) (t - 15) (d_min_temp day)
      else within_left_open (t - 5) (t - 3) (d_min_temp day))
  /\ (if isDesert then within 0 1 (d_precipitation day)
      else within 0 8 (d_precipitation day))
  /\ (if isDesert then within 20 45 (d_humidity day)
      else within 60 85 (d_humidity day))
  /\ (if isDesert then within 3.5 6.5 (d_wind_speed day)
      else within 2 5 (d_wind_speed day))
  /\ within 1010 1020 (d_pressure day).

(** The weather code that goes with a condition text of the generic
    derivation. *)
Definition code_of_condition (conditions : string) : string :=
  if String.eqb conditions "Thunderstorm" then "11"
  else if String.eqb conditions "Heavy Rain" then "10"
  else if String.eqb conditions "Rain" then "09"
  else if String.eqb conditions "Light Rain" then "09"
  else if String.eqb conditions "Overcast" then "04"
  else if String.eqb conditions "Mostly Cloudy" then "03"
  else if String.eqb conditions "Partly Cloudy" then "02"
  else "01".

(** The kinds of series that [generateHistoricalData] knows. *)
Definition known_kind (dataType : string) : bool :=
  existsb (String.eqb dataType)
    ["temperature"; "precipitation"; "wind"; "humidity"].

(** The weather code that goes with a condition text of the POWER
    derivation. *)
Definition code_of_power_condition (conditions : string) : string :=
  if String.eqb conditions "Heavy Rain" then "11"
  else if String.eqb conditions "Rain" then "10"
  else if String.eqb conditions "Light Rain" then "09"
  else if String.eqb conditions "Drizzle" then "09"
  else if String.eqb conditions "Overcast" then "04"
  else if String.eqb conditions "Partly Cloudy" then "03"
  else if String.eqb conditions "Mostly Clear" then "02"
  else "01".

(** A finite number with the given bounds. *)
Definition finite_in (lo hi : Q) (x : number) : Prop :=
  exists q : Q, x = Num q /\ lo <= q /\ q <= hi.

Definition finite_from (lo : Q) (x : number) : Prop :=
  exists q : Q, x = Num q /\ lo <= q.

(** [w] is the answer of the first of the adapters POWER, GMAO, Worldview
    that does not return [null], asked in this order from draw [i] on. *)
Definition first_answer (sv : Services) (lat lon : number) (isDesert : bool)
  (i : nat) (w : WeatherData) : Prop :=
  (exists j, tryNASA_POWER sv lat lon isDesert i = (Some w, j))
  \/ (exists i1 j,
        tryNASA_POWER sv lat lon isDesert i = (None, i1)
        /\ tryNASA_GMAO sv lat lon isDesert i1 = (Some w, j))
  \/ (exists i1 i2 j,
        tryNASA_POWER sv lat lon isDesert i = (None, i1)
        /\ tryNASA_GMAO sv lat lon isDesert i1 = (None, i2)
        /\ tryNASA_Worldview sv lat lon isDesert i2 = (Some w, j)).

(** The response is HTTP 200 and carries the weather object [w], formatted,
    with the default labels where [w] has none. *)
Definition serves (rt : Runtime) (w : WeatherData) (response : Response) : Prop :=
  status response = VNum (lit 200)
  /\ exists data metadata,
       body response = WeatherBody (Some data) (Some metadata)
       /\ w_current data = option_map (format_current rt) (w_current w)
       /\ w_forecast data = option_map (map (format_day rt)) (w_forecast w)
       /\ w_data_source data
          = or_else (w_data_source w) (VStr "NASA Climate Simulation")
       /\ w_nasa_mission data
          = or_else (w_nasa_mission w)
              (VStr "Global Modeling and Assimilation Office")
       /\ w_probabilities data = w_probabilities w.

(** The response of the download endpoint to a failure of its [try] block. *)
Definition download_failed : DownloadResponse :=
  {| download_status := VNum (lit 500);
     download_body := DownloadError "Download failed" |}.

(** [null] or [undefined]. *)
Definition nullish (v : value) : Prop := v = VNull \/ v = VUndefined.

(** The keys that [processGMAO_Data] reads from a day of the answer, each
    with the field of the forecast day that it fills. *)
Definition gmao_fields : list (string * (ForecastDay -> value)) :=
  [ ("temperature", d_temperature); ("temp_max", d_max_temp);
    ("temp_min", d_min_temp); ("precipitation", d_precipitation);
    ("wind_speed", d_wind_speed); ("humidity", d_humidity);
    ("pressure", d_pressure) ].

(** No request gets an answer with an ok status. *)
Definition network_down (fetch : string -> Adapters.FetchResult) : Prop :=
  forall url : string,
    fetch url = Adapters.Rejected
    \/ exists status json, fetch url = Adapters.Responded false status json.

(** [Math.sin] of a finite number is a number from -1 to 1. *)
Definition sine_range (rt : Runtime) : Prop :=
  forall q : Q, exists s : Q, Math_sin rt (Num q) = Num s /\ -1 <= s /\ s <= 1.

(** The columns of a POWER answer that [tryNASA_POWER] reads besides T2M. *)
Definition power_columns : list string :=
  [ "T2M_MAX"; "T2M_MIN"; "RH2M"; "WS10M"; "WS50M"; "PRECTOTCORR"; "PS";
    "ALLSKY_SFC_SW_DWN"; "CLOUD_AMT" ].

(** A day of the forecast that is derived from a POWER reading [t] of the
    temperature: the day's temperature is within 3.5 of [t], and its extremes
    lie from 2 to 4 below and above it. *)
Definition power_day_in_bands (t : Q) (day : ForecastDay) : Prop :=
  exists T : Q,
    d_temperature day = VNum (Num T)
    /\ t - 3.5 <= T /\ T < t + 3.5
    /\ within (T + 2) (T + 4) (d_max_temp day)
    /\ within_left_open (T - 4) (T - 2) (d_min_temp day).

(* ===================================================================== *)
(** ** Facts about the number model *)
(* ===================================================================== *)

Lemma Qgt_bool_iff (x y : Q) : Qgt_bool x y = true <-> y < x.
Proof.
  unfold Qgt_bool. rewrite negb_true_iff, <- not_true_iff_false, Qle_bool_iff.
  split; [ apply Qnot_le_lt | apply Qlt_not_le ].
Qed.

Lemma Qlt_bool_iff (x y : Q) : Qlt_bool x y = true <-> x < y.
Proof. apply (Qgt_bool_iff y x). Qed.

Lemma Qge_bool_iff (x y : Q) : Qge_bool x y = true <-> y <= x.
Proof. apply Qle_bool_iff. Qed.

Lemma gtb_lit (x c : Q) : gtb (Num x) (lit c) = true <-> c < x.
Proof. unfold gtb, lit; simpl. rewrite Qgt_bool_iff, Qred_correct. tauto. Qed.

Lemma ltb_lit (x c : Q) : ltb (Num x) (lit c) = true <-> x < c.
Proof. unfold ltb, lit; simpl. rewrite Qlt_bool_iff, Qred_correct. tauto. Qed.

Lemma geb_lit (x c : Q) : geb (Num x) (lit c) = true <-> c <= x.
Proof. unfold geb, lit; simpl. rewrite Qge_bool_iff, Qred_correct. tauto. Qed.

Lemma leb_lit (x c : Q) : leb (Num x) (lit c) = true <-> x <= c.
Proof. unfold leb, lit; simpl. rewrite Qle_bool_iff, Qred_correct. tauto. Qed.

Lemma gtb_lit_false (x c : Q) : gtb (Num x) (lit c) = false <-> x <= c.
Proof.
  rewrite <- not_true_iff_false, gtb_lit.
  split; [ apply Qnot_lt_le | apply Qle_not_lt ].
Qed.

Lemma eqb_lit (x c : Q) : eqb (Num x) (lit c) = true <-> x == c.
Proof. unfold eqb, lit; simpl. rewrite Qeq_bool_iff, Qred_correct. tauto. Qed.

(* ===================================================================== *)
(** ** The sentinel/value validator *)
(* ===================================================================== *)

Section ValidatorFacts.
Variable rt : Runtime.

(** The test [value !== -999] never decides: what it rejects fails
    [value > -900] as well. *)
Lemma isValidNASAValue_iff (v : value) :
  isValidNASAValue rt v = true <->
  v <> VUndefined /\ v <> VNull /\
  exists q, ToNumber rt v = Num q /\ -900 < q.
Proof.
  unfold isValidNASAValue.
  rewrite !andb_true_iff, !negb_true_iff. split.
  - intros [[[Hu Hn] _] Hgt].
    split; [ intros ->; discriminate | ].
    split; [ intros ->; discriminate | ].
    destruct (ToNumber rt v) as [ | q ]; [ discriminate | ].
    exists q. split; [ reflexivity | ]. apply gtb_lit. exact Hgt.
  - intros (Hu & Hn & q & Hq & Hlt).
    assert (Hgt : gtb (ToNumber rt v) (lit (-900)) = true).
    { rewrite Hq. apply gtb_lit. exact Hlt. }
    repeat split; trivial.
    + destruct v; try reflexivity; congruence.
    + destruct v; try reflexivity; congruence.
    + destruct v as [ | | b | [ | m ] | s | l | l ]; try reflexivity.
      simpl in Hq. injection Hq as ->.
      unfold strict_eq_num. apply not_true_iff_false. rewrite eqb_lit.
      intros Heq. rewrite Heq in Hlt. revert Hlt. apply Qle_not_lt.
      discriminate.
Qed.

(** C2, as the code has it: [isValidNASAValue(value)] is true exactly when
    [value] is neither [undefined] nor [null] and, as a number, is greater
    than -900.  It is false for [NaN] and for every number less than or equal
    to -900: for -999, for -900.1 and for -900 itself; it is true for
    -899.9. *)
Theorem isValidNASAValue_spec :
  (forall v : value,
     isValidNASAValue rt v = true <->
     v <> VUndefined /\ v <> VNull /\
     exists q, ToNumber rt v = Num q /\ -900 < q)
  /\ (forall q : Q, isValidNASAValue rt (VNum (Num q)) = false <-> q <= -900)
  /\ isValidNASAValue rt (VNum NaN) = false
  /\ isValidNASAValue rt VUndefined = false
  /\ isValidNASAValue rt VNull = false
  /\ isValidNASAValue rt (VNum (lit (-999))) = false
  /\ isValidNASAValue rt (VNum (lit (-900.1))) = false
  /\ isValidNASAValue rt (VNum (lit (-900))) = false
  /\ isValidNASAValue rt (VNum (lit (-899.9))) = true.
Proof.
  split; [ exact isValidNASAValue_iff | ].
  split; [ | repeat split; reflexivity ].
  intros q. rewrite <- not_true_iff_false, isValidNASAValue_iff. split.
  - intros Hn. apply Qnot_lt_le. intros Hlt. apply Hn.
    split; [ discriminate | ]. split; [ discriminate | ].
    exists q. split; [ reflexivity | exact Hlt ].
  - intros Hle (_ & _ & q' & Hq & Hlt). simpl in Hq. injection Hq as <-.
    revert Hlt. apply Qle_not_lt. exact Hle.
Qed.

(** C3: for every value and every fallback that is passed (JavaScript
    takes an argument [undefined] for a missing one),
    [getValidNASAValue(value, fallback)] is [fallback] when [value] is not
    valid and [value] itself when it is; without a fallback the default 0
    takes its place. *)
Theorem getValidNASAValue_spec (v fallback : value) :
  (isValidNASAValue rt v = true -> getValidNASAValue rt v fallback = v)
  /\ (isValidNASAValue rt v = false -> fallback <> VUndefined ->
      getValidNASAValue rt v fallback = fallback)
  /\ (isValidNASAValue rt v = false ->
      getValidNASAValue rt v VUndefined = VNum (lit 0)).
Proof.
  unfold getValidNASAValue. repeat split.
  - intros ->. reflexivity.
  - intros -> Hf. destruct fallback; try reflexivity. congruence.
  - intros ->. reflexivity.
Qed.

End ValidatorFacts.

(** C2: -900 is none of [undefined], [null], -999 or a number below -900,
    and [isValidNASAValue(-900)] is false. *)
Lemma isValidNASAValue_minus_900 :
  isValidNASAValue Host.runtime (VNum (lit (-900))) = false
  /\ VNum (lit (-900)) <> VUndefined
  /\ VNum (lit (-900)) <> VNull
  /\ eqb (lit (-900)) (lit (-999)) = false
  /\ ltb (lit (-900)) (lit (-900)) = false.
Proof. repeat split; try discriminate; reflexivity. Qed.

(** The default at work: without a fallback the invalid value -999 gives
    0. *)
Lemma getValidNASAValue_undefined_fallback :
  isValidNASAValue Host.runtime (VNum (lit (-999))) = false
  /\ getValidNASAValue Host.runtime (VNum (lit (-999))) VUndefined = VNum (lit 0)
  /\ getValidNASAValue Host.runtime (VNum (lit (-999))) VUndefined <> VUndefined.
Proof. repeat split; try discriminate; reflexivity. Qed.

Lemma getValidNASAValue_spec_witness :
  (isValidNASAValue Host.runtime (VNum (lit 21.5)) = true /\
   getValidNASAValue Host.runtime (VNum (lit 21.5)) (VNum (lit 30)) = VNum (lit 21.5))
  /\ (isValidNASAValue Host.runtime (VNum (lit (-999))) = false /\
      getValidNASAValue Host.runtime (VNum (lit (-999))) VNull = VNull).
Proof.
  split; (split; [ reflexivity | ]).
  - apply (getValidNASAValue_spec Host.runtime (VNum (lit 21.5)) (VNum (lit 30))).
    reflexivity.
  - apply (getValidNASAValue_spec Host.runtime (VNum (lit (-999))) VNull);
      [ reflexivity | discriminate ].
Defined.

(* ===================================================================== *)
(** ** The desert region classifier *)
(* ===================================================================== *)

(** C4: [isDesertRegion(lat, lon)] is true if and only if the point lies in
    one of the eight boxes of the table, boundaries included.  This holds for
    every finite latitude and longitude, in particular for the valid ones. *)
Theorem isDesertRegion_iff_in_table (lat lon : Q) :
  isDesertRegion (Num lat) (Num lon) = true <->
  Exists (in_box lat lon) desert_table.
Proof.
  unfold isDesertRegion, DESERT_REGIONS, desert_table.
  cbn [existsb latMin latMax lonMin lonMax].
  rewrite !Exists_cons, Exists_nil. unfold in_box.
  rewrite !orb_true_iff, !andb_true_iff, !geb_lit, !leb_lit.
  intuition discriminate.
Qed.

(** The classifier agrees with the names of the table as well. *)
Lemma DESERT_REGIONS_table :
  map (fun d => (name d, latMin d, latMax d, lonMin d, lonMax d)) DESERT_REGIONS
  = map (fun '(n, a, b, c, d) => (n, Num a, Num b, Num c, Num d)) desert_table.
Proof. reflexivity. Qed.

(* ===================================================================== *)
(** ** Coordinate validation *)
(* ===================================================================== *)

(** A power of two, as a significand times the unit in its last place. *)
Lemma two_power_shift (e k : Z) :
  (0 <= k)%Z -> 2 ^ e == inject_Z (2 ^ k) * 2 ^ (e - k).
Proof.
  intros Hk. rewrite <- two_power_Z by exact Hk.
  rewrite <- Qpower_plus by (intro H; discriminate H).
  replace (k + (e - k))%Z with e by lia. reflexivity.
Qed.

(** Why the loops never end beyond [absorbing]: there a binary64 value less
    360 is that value again. *)
Lemma binary64_absorbs (x : Q) :
  binary64 x == x -> absorbing < x -> binary64 (x - 360) == x.
Proof.
  intros Hfix Hbig.
  assert (Hx : 0 < x) by (unfold absorbing in Hbig; lra).
  assert (Hn : ~ x == 0) by lra.
  pose proof (binary64_unfold Hn) as Hu.
  rewrite (@ilog2_comp (Qabs x) x) in Hu
    by (try (apply Qabs_pos_lt; assumption); try (apply Qabs_pos; lra)).
  rewrite Hfix in Hu.
  destruct (ilog2_spec Hx) as [Hlo Hhi].
  assert (He : (62 <= ilog2 x)%Z).
  { assert (H : (62 < ilog2 x + 1)%Z).
    { apply two_power_lt_inv. rewrite <- absorbing_power. lra. }
    lia. }
  set (e := ilog2 x) in *.
  pose proof (two_power_pos (e - 52)) as Hupos.
  assert (Hu10 : 1024 <= 2 ^ (e - 52)).
  { change 1024 with (2 ^ 10). apply two_power_le. lia. }
  assert (E52 : 2 ^ e == inject_Z (2 ^ 52) * 2 ^ (e - 52))
    by (apply two_power_shift; lia).
  assert (E53 : 2 ^ (e + 1) == inject_Z (2 ^ 53) * 2 ^ (e - 52)).
  { rewrite (@two_power_shift (e + 1) 53) by lia.
    replace (e + 1 - 53)%Z with (e - 52)%Z by lia. reflexivity. }
  set (u := 2 ^ (e - 52)) in *.
  set (m := round_half_even (x / u)) in *.
  assert (Hy : ~ x - 360 == 0) by (unfold absorbing in Hbig; lra).
  assert (Hypos : 0 < x - 360) by (unfold absorbing in Hbig; lra).
  rewrite (binary64_unfold Hy).
  rewrite (@ilog2_comp (Qabs (x - 360)) (x - 360))
    by (try (apply Qabs_pos_lt; assumption); try (apply Qabs_pos; lra)).
  destruct (Qlt_le_dec (x - 360) (2 ^ e)) as [Hlow | Hsame].
  - (* [x] is the power of two itself *)
    assert (Hm : m = (2 ^ 52)%Z).
    { assert (H1 : inject_Z (2 ^ 52) <= inject_Z m).
      { apply Qmult_le_r with u; [ exact Hupos | ]. lra. }
      assert (H2 : inject_Z m < inject_Z (2 ^ 52) + 1).
      { apply Qmult_lt_r with u; [ exact Hupos | ]. nra. }
      rewrite <- Zle_Qle in H1.
      change 1 with (inject_Z 1) in H2.
      rewrite <- inject_Z_plus, <- Zlt_Qlt in H2. lia. }
    assert (Hxe : x == 2 ^ e) by (rewrite Hu, Hm, E52; reflexivity).
    assert (He63 : (63 <= e)%Z).
    { assert (H : (62 < e)%Z).
      { apply two_power_lt_inv. rewrite <- absorbing_power, <- Hxe. exact Hbig. }
      lia. }
    assert (Ehalf : 2 ^ e == 2 * 2 ^ (e - 1)).
    { rewrite <- two_power_succ. replace (e - 1 + 1)%Z with e by lia. reflexivity. }
    assert (Hbig' : absorbing <= 2 ^ (e - 1)).
    { rewrite absorbing_power. apply two_power_le. lia. }
    assert (El : ilog2 (x - 360) = (e - 1)%Z).
    { apply ilog2_unique.
      - unfold absorbing in Hbig'. lra.
      - replace (e - 1 + 1)%Z with e by lia. exact Hlow. }
    rewrite El.
    replace (e - 1 - 52)%Z with (e - 53)%Z by lia.
    pose proof (two_power_pos (e - 53)) as Hvpos.
    assert (Hv10 : 1024 <= 2 ^ (e - 53)).
    { change 1024 with (2 ^ 10). apply two_power_le. lia. }
    assert (E53' : 2 ^ e == inject_Z (2 ^ 53) * 2 ^ (e - 53))
      by (apply two_power_shift; lia).
    set (v := 2 ^ (e - 53)) in *.
    assert (Hr : round_half_even ((x - 360) / v) = (2 ^ 53)%Z).
    { apply round_half_even_unique. left.
      assert (E : (x - 360) / v == inject_Z (2 ^ 53) - 360 / v).
      { rewrite Hxe, E53'. field. lra. }
      rewrite E.
      assert (H360 : 0 < 360 / v /\ 360 / v < 1 # 2).
      { split.
        - apply Qlt_shift_div_l; [ exact Hvpos | lra ].
        - apply Qlt_shift_div_r; [ exact Hvpos | lra ]. }
      lra. }
    rewrite Hr, Hxe, E53'. reflexivity.
  - assert (El : ilog2 (x - 360) = e).
    { apply ilog2_unique; [ exact Hsame | lra ]. }
    rewrite El. fold u.
    assert (Hr : round_half_even ((x - 360) / u) = m).
    { apply round_half_even_unique. left.
      assert (E : (x - 360) / u == inject_Z m - 360 / u).
      { rewrite Hu at 1. field. lra. }
      rewrite E.
      assert (H360 : 0 < 360 / u /\ 360 / u < 1 # 2).
      { split.
        - apply Qlt_shift_div_l; [ exact Hupos | lra ].
        - apply Qlt_shift_div_r; [ exact Hupos | lra ]. }
      lra. }
    rewrite Hr. symmetry. exact Hu.
Qed.

Lemma binary64_absorbs_up (x : Q) :
  binary64 x == x -> x < - absorbing -> binary64 (x + 360) == x.
Proof.
  intros Hfix Hbig.
  assert (Hfix' : binary64 (- x) == - x) by (rewrite binary64_opp, Hfix; reflexivity).
  assert (Hbig' : absorbing < - x) by lra.
  pose proof (binary64_absorbs Hfix' Hbig') as H.
  assert (E : x + 360 == - (- x - 360)) by ring.
  rewrite (binary64_comp E), binary64_opp, H. ring.
Qed.

(** The bounds of the loops are binary64 values. *)
Lemma binary64_180 : binary64 180 = 180 /\ binary64 (-180) = -180.
Proof. split; vm_compute; reflexivity. Qed.

(** A round of either loop moves the number by 104 at least, and not past
    the other bound. *)
Lemma wrap_down_step (x : Q) :
  180 < x -> x <= absorbing ->
  binary64 (x - 360) <= x - 104 /\ -180 <= binary64 (x - 360).
Proof.
  intros H1 H2. split.
  - assert (H : Qabs (binary64 (x - 360) - (x - 360)) <= 256).
    { apply binary64_error_below. apply Qabs_case; intros; unfold absorbing in *; lra. }
    apply Qabs_Qle_condition in H. lra.
  - destruct binary64_180 as [_ E]. rewrite <- E. apply binary64_mono. lra.
Qed.

Lemma wrap_up_step (x : Q) :
  x < -180 -> - absorbing <= x ->
  x + 104 <= binary64 (x + 360) /\ binary64 (x + 360) <= 180.
Proof.
  intros H1 H2. split.
  - assert (H : Qabs (binary64 (x + 360) - (x + 360)) <= 256).
    { apply binary64_error_below. apply Qabs_case; intros; unfold absorbing in *; lra. }
    apply Qabs_Qle_condition in H. lra.
  - destruct binary64_180 as [E _]. rewrite <- E. apply binary64_mono. lra.
Qed.

Lemma wrap_down_spec (x : Q) : wrap_down_post x (wrap_down x).
Proof.
  funelim (wrap_down x).
  - unfold wrap_down_post, absorbing. repeat split; intros; lra.
  - assumption.
  - match goal with
    | Hq : 180 < normalized, Hb : normalized <= absorbing |- _ =>
        destruct (wrap_down_step Hq Hb) as [Hstep Hlow]
    end.
    destruct (wrap_down (binary64 (normalized - 360))) as [ r | ];
      unfold wrap_down_post in *.
    + destruct H as (_ & Hr & _ & Hge).
      repeat split; intros; first [ lra | apply Hge; exact Hlow ].
    + unfold absorbing in *. lra.
Qed.

Lemma wrap_up_spec (x : Q) : wrap_up_post x (wrap_up x).
Proof.
  funelim (wrap_up x).
  - unfold wrap_up_post, absorbing. repeat split; intros; lra.
  - assumption.
  - match goal with
    | Hq : normalized < -180, Hb : - absorbing <= normalized |- _ =>
        destruct (wrap_up_step Hq Hb) as [Hstep Hhigh]
    end.
    destruct (wrap_up (binary64 (normalized + 360))) as [ r | ];
      unfold wrap_up_post in *.
    + destruct H as (_ & Hr & _ & Hle).
      repeat split; intros; first [ lra | apply Hle; exact Hhigh ].
    + unfold absorbing in *. lra.
Qed.

(** One round of each loop. *)
Lemma wrap_down_round (x : Q) :
  180 < x -> x <= absorbing -> wrap_down x = wrap_down (binary64 (x - 360)).
Proof.
  intros H1 H2. funelim (wrap_down x); try (exfalso; lra).
  reflexivity.
Qed.

Lemma wrap_up_round (x : Q) :
  x < -180 -> - absorbing <= x -> wrap_up x = wrap_up (binary64 (x + 360)).
Proof.
  intros H1 H2. funelim (wrap_up x); try (exfalso; lra).
  reflexivity.
Qed.

Lemma wrap_down_stays (x : Q) : x <= 180 -> wrap_down x = Returns x.
Proof.
  intros H. funelim (wrap_down x); try (exfalso; lra). reflexivity.
Qed.

Lemma wrap_up_stays (x : Q) : -180 <= x -> wrap_up x = Returns x.
Proof.
  intros H. funelim (wrap_up x); try (exfalso; lra). reflexivity.
Qed.

(** An integer of at most 53 bits is stored as it is. *)
Lemma binary64_inject_Z (x : Q) (z : Z) :
  x == inject_Z z -> (Z.abs z <= 2 ^ 53)%Z -> binary64 x = Qred (inject_Z z).
Proof.
  intros Hx Hz.
  rewrite (binary64_comp Hx).
  pose proof (@binary64_Z z Hz) as H.
  apply Qred_complete in H.
  assert (Hred : Qred (binary64 (inject_Z z)) = binary64 (inject_Z z)).
  { unfold binary64. destruct (Qeq_bool (inject_Z z) 0); [ reflexivity | ].
    apply Qred_complete, Qred_correct. }
  rewrite Hred in H. exact H.
Qed.

(** On an integer of at most 53 bits the subtractions are exact. *)
Lemma wrap_down_Z (n : nat) :
  forall (x : Q) (z : Z),
    x == inject_Z z -> (z <= 180 + 360 * Z.of_nat n)%Z -> (z <= 2 ^ 53)%Z ->
    exists (k : Z) (r : Q),
      wrap_down x = Returns r /\ r == inject_Z (z - 360 * k) /\ (0 <= k)%Z.
Proof.
  induction n as [ | n IH ]; intros x z Hx Hn Hz.
  - exists 0%Z, x. split; [ | split; [ | lia ] ].
    + apply wrap_down_stays. rewrite Hx.
      change 180 with (inject_Z 180). rewrite <- Zle_Qle. lia.
    + rewrite Hx. replace (z - 360 * 0)%Z with z by lia. reflexivity.
  - destruct (Z_le_gt_dec z 180) as [Hle | Hgt].
    + exists 0%Z, x. split; [ | split; [ | lia ] ].
      * apply wrap_down_stays. rewrite Hx.
        change 180 with (inject_Z 180). rewrite <- Zle_Qle. lia.
      * rewrite Hx. replace (z - 360 * 0)%Z with z by lia. reflexivity.
    + assert (H1 : 180 < x).
      { rewrite Hx. change 180 with (inject_Z 180). rewrite <- Zlt_Qlt. lia. }
      assert (H2 : x <= absorbing).
      { rewrite Hx. unfold absorbing.
        change 4611686018427387904 with (inject_Z 4611686018427387904).
        rewrite <- Zle_Qle. lia. }
      assert (E : x - 360 == inject_Z (z - 360)).
      { rewrite Hx. unfold Z.sub. rewrite inject_Z_plus. reflexivity. }
      rewrite (@wrap_down_round x H1 H2), (@binary64_inject_Z (x - 360) (z - 360) E) by lia.
      destruct (IH (Qred (inject_Z (z - 360))) (z - 360)%Z) as (k & r & Hr & Er & Hk);
        [ apply Qred_correct | lia | lia | ].
      exists (k + 1)%Z, r. split; [ exact Hr | split; [ | lia ] ].
      rewrite Er. replace (z - 360 - 360 * k)%Z with (z - 360 * (k + 1))%Z by lia.
      reflexivity.
Qed.

Lemma wrap_up_Z (n : nat) :
  forall (x : Q) (z : Z),
    x == inject_Z z -> (- 180 - 360 * Z.of_nat n <= z)%Z -> (- 2 ^ 53 <= z)%Z ->
    exists (k : Z) (r : Q),
      wrap_up x = Returns r /\ r == inject_Z (z + 360 * k) /\ (0 <= k)%Z.
Proof.
  induction n as [ | n IH ]; intros x z Hx Hn Hz.
  - exists 0%Z, x. split; [ | split; [ | lia ] ].
    + apply wrap_up_stays. rewrite Hx.
      change (-180) with (inject_Z (-180)). rewrite <- Zle_Qle. lia.
    + rewrite Hx. replace (z + 360 * 0)%Z with z by lia. reflexivity.
  - destruct (Z_le_gt_dec (-180) z) as [Hle | Hgt].
    + exists 0%Z, x. split; [ | split; [ | lia ] ].
      * apply wrap_up_stays. rewrite Hx.
        change (-180) with (inject_Z (-180)). rewrite <- Zle_Qle. lia.
      * rewrite Hx. replace (z + 360 * 0)%Z with z by lia. reflexivity.
    + assert (H1 : x < -180).
      { rewrite Hx. change (-180) with (inject_Z (-180)). rewrite <- Zlt_Qlt. lia. }
      assert (H2 : - absorbing <= x).
      { rewrite Hx.
        setoid_replace (- absorbing) with (inject_Z (- 4611686018427387904))
          by reflexivity.
        rewrite <- Zle_Qle. lia. }
      assert (E : x + 360 == inject_Z (z + 360)).
      { rewrite Hx. rewrite inject_Z_plus. reflexivity. }
      rewrite (@wrap_up_round x H1 H2), (@binary64_inject_Z (x + 360) (z + 360) E) by lia.
      destruct (IH (Qred (inject_Z (z + 360))) (z + 360)%Z) as (k & r & Hr & Er & Hk);
        [ apply Qred_correct | lia | lia | ].
      exists (k + 1)%Z, r. split; [ exact Hr | split; [ | lia ] ].
      rewrite Er. replace (z + 360 + 360 * k)%Z with (z + 360 * (k + 1))%Z by lia.
      reflexivity.
Qed.

(** A latitude's validation always returns. *)
Lemma validateCoordinate_lat (coord : number) :
  validateCoordinate coord "lat"
  = Returns (if geb coord (lit (-90)) && leb coord (lit 90) then Some coord
             else None).
Proof. destruct coord as [ | q ]; reflexivity. Qed.

(** A longitude's validation returns exactly when the longitude is
    [wrappable]; what it returns lies in [-180, 180], and is the longitude
    itself when that lies there. *)
Lemma validateCoordinate_lon (q : Q) :
  match validateCoordinate (Num q) "lon" with
  | Returns v =>
      wrappable (Num q)
      /\ exists r : Q, v = Some (Num r) /\ -180 <= r /\ r <= 180
                       /\ (-180 <= q -> q <= 180 -> r = q)
  | NeverReturns => ~ wrappable (Num q)
  end.
Proof.
  unfold validateCoordinate, wrappable. simpl String.eqb.
  pose proof (wrap_down_spec q) as Hdown.
  destruct (wrap_down q) as [ r1 | ]; unfold wrap_down_post in Hdown.
  - destruct Hdown as (Hq & Hr1 & Hsame1 & Hlow1).
    pose proof (wrap_up_spec r1) as Hup.
    destruct (wrap_up r1) as [ r | ]; unfold wrap_up_post in Hup.
    + destruct Hup as (Hr1' & Hr & Hsame & Hhigh).
      split.
      * split; [ | exact Hq ].
        destruct (Qlt_le_dec 180 q) as [ H | H ];
          [ unfold absorbing; lra | rewrite <- (Hsame1 H); exact Hr1' ].
      * exists r. repeat split; try assumption.
        -- apply Hhigh. exact Hr1.
        -- intros Hlo Hhi. rewrite <- (Hsame1 Hhi). apply Hsame.
           rewrite (Hsame1 Hhi). exact Hlo.
    + intros [Hlo Hhi].
      destruct (Qlt_le_dec 180 q) as [ H | H ].
      * assert (H1 : -180 <= r1) by (apply Hlow1; lra).
        unfold absorbing in *. lra.
      * rewrite (Hsame1 H) in Hup. lra.
  - intros [Hlo Hhi]. lra.
Qed.

Lemma validateCoordinate_returns (lon : number) :
  wrappable lon ->
  exists validatedLon : option number,
    validateCoordinate lon "lon" = Returns validatedLon.
Proof.
  intros Hw. destruct lon as [ | q ]; [ exists None; reflexivity | ].
  pose proof (validateCoordinate_lon q) as H.
  destruct (validateCoordinate (Num q) "lon") as [ v | ];
    [ exists v; reflexivity | contradiction ].
Qed.

Lemma validateCoordinate_never (lon : number) :
  ~ wrappable lon -> validateCoordinate lon "lon" = NeverReturns.
Proof.
  intros Hw. destruct lon as [ | q ]; [ exfalso; apply Hw; exact I | ].
  pose proof (validateCoordinate_lon q) as H.
  destruct (validateCoordinate (Num q) "lon") as [ v | ];
    [ exfalso; apply Hw; apply H | reflexivity ].
Qed.

(** On an integer longitude of at most 53 bits the loops add or subtract 360
    exactly. *)
Lemma validateCoordinate_Z (q : Q) (z : Z) :
  q == inject_Z z -> (Z.abs z <= 2 ^ 53)%Z ->
  exists (k : Z) (r : Q),
    validateCoordinate (Num q) "lon" = Returns (Some (Num r))
    /\ r == inject_Z (z + 360 * k).
Proof.
  intros Hq Hz.
  destruct (@wrap_down_Z (Z.to_nat z) q z Hq) as (k1 & r1 & Hr1 & E1 & Hk1);
    [ lia | lia | ].
  pose proof (wrap_down_spec q) as Hdown. rewrite Hr1 in Hdown.
  destruct Hdown as (_ & _ & Hsame1 & Hlow1).
  assert (Hz1 : (- 2 ^ 53 <= z - 360 * k1)%Z).
  { destruct (Z_le_gt_dec z 180) as [ H | H ].
    - assert (Hq180 : q <= 180).
      { rewrite Hq. change 180 with (inject_Z 180). rewrite <- Zle_Qle. exact H. }
      rewrite (Hsame1 Hq180), Hq, inject_Z_injective in E1. lia.
    - assert (Hq180 : -180 <= q).
      { rewrite Hq. change (-180) with (inject_Z (-180)). rewrite <- Zle_Qle. lia. }
      apply Hlow1 in Hq180. rewrite E1 in Hq180.
      change (-180) with (inject_Z (-180)) in Hq180.
      rewrite <- Zle_Qle in Hq180. lia. }
  destruct (@wrap_up_Z (Z.to_nat (- (z - 360 * k1))) r1 (z - 360 * k1)%Z E1)
    as (k2 & r & Hr & E & Hk2); [ lia | lia | ].
  exists (k2 - k1)%Z, r. split.
  - unfold validateCoordinate. simpl String.eqb. rewrite Hr1, Hr. reflexivity.
  - rewrite E. replace (z - 360 * k1 + 360 * k2)%Z with (z + 360 * (k2 - k1))%Z by lia.
    reflexivity.
Qed.

(** C5: what [validateCoordinate] does.  A longitude of magnitude [2 ^ 62] at
    most comes back in [-180, 180]; for an integer of at most 53 bits a whole
    number of times 360 was added or subtracted (190 becomes -170 and -190
    becomes 170).  A latitude of [-90, 90] is returned unchanged, a latitude
    outside that range gives [null] (91 does), and so does [NaN].  Beyond
    [2 ^ 62] the call never returns: for the longitude [1e22], 360 less is
    [1e22] again. *)
Theorem validateCoordinate_spec :
  (forall q : Q, - absorbing <= q -> q <= absorbing ->
     exists r : Q,
       validateCoordinate (Num q) "lon" = Returns (Some (Num r))
       /\ -180 <= r /\ r <= 180)
  /\ (forall z : Z, (Z.abs z <= 2 ^ 53)%Z ->
        exists (k : Z) (r : Q),
          validateCoordinate (Num (inject_Z z)) "lon" = Returns (Some (Num r))
          /\ r == inject_Z (z + 360 * k))
  /\ validateCoordinate (lit 190) "lon" = Returns (Some (lit (-170)))
  /\ validateCoordinate (lit (-190)) "lon" = Returns (Some (lit 170))
  /\ (forall q : Q, -90 <= q -> q <= 90 ->
        validateCoordinate (Num q) "lat" = Returns (Some (Num q)))
  /\ (forall q : Q, q < -90 \/ 90 < q ->
        validateCoordinate (Num q) "lat" = Returns None)
  /\ validateCoordinate (lit 91) "lat" = Returns None
  /\ (forall type : string, validateCoordinate NaN type = Returns None)
  /\ (forall q : Q, q < - absorbing \/ absorbing < q ->
        validateCoordinate (Num q) "lon" = NeverReturns)
  /\ validateCoordinate (lit 10000000000000000000000) "lon" = NeverReturns
  /\ binary64 (10000000000000000000000 - 360) == 10000000000000000000000.
Proof.
  split.
  { intros q Hlo Hhi.
    pose proof (validateCoordinate_lon q) as H.
    destruct (validateCoordinate (Num q) "lon") as [ v | ].
    - destruct H as (_ & r & -> & Hr1 & Hr2 & _). exists r. auto.
    - exfalso. apply H. split; assumption. }
  split.
  { intros z Hz. apply validateCoordinate_Z; [ reflexivity | exact Hz ]. }
  split; [ vm_compute; reflexivity | ].
  split; [ vm_compute; reflexivity | ].
  split.
  { intros q Hlo Hhi. unfold validateCoordinate. cbn [String.eqb Ascii.eqb].
    simpl String.eqb.
    apply geb_lit in Hlo. apply leb_lit in Hhi. rewrite Hlo, Hhi. reflexivity. }
  split.
  { intros q Hout. unfold validateCoordinate. simpl String.eqb.
    destruct (geb (Num q) (lit (-90))) eqn:Hlo;
      destruct (leb (Num q) (lit 90)) eqn:Hhi; try reflexivity.
    apply geb_lit in Hlo. apply leb_lit in Hhi. lra. }
  split; [ reflexivity | ].
  split; [ reflexivity | ].
  split.
  { intros q Hout. apply validateCoordinate_never.
    unfold wrappable. intros [Hlo Hhi]. lra. }
  split; [ | vm_compute; reflexivity ].
  apply validateCoordinate_never. unfold wrappable, lit, absorbing.
  intros [_ H]. vm_compute in H. apply H. reflexivity.
Qed.

Lemma validateCoordinate_spec_witness :
  validateCoordinate (Num 45.5) "lat" = Returns (Some (Num 45.5))
  /\ validateCoordinate (Num (-120)) "lat" = Returns None.
Proof.
  destruct validateCoordinate_spec as (_ & _ & _ & _ & Hin & Hout & _).
  split.
  - apply Hin; lra.
  - apply Hout. left. lra.
Defined.

(* ===================================================================== *)
(** ** Feels-like temperature *)
(* ===================================================================== *)

(** Case analysis on the comparisons of a goal, each turned into the
    inequality it decides. *)
Ltac compare_cases :=
  repeat match goal with
  | |- context [geb (Num ?x) (lit ?c)] =>
      let E := fresh "E" in
      destruct (geb (Num x) (lit c)) eqn:E;
      [ apply geb_lit in E
      | apply not_true_iff_false in E; rewrite geb_lit in E ]
  | |- context [leb (Num ?x) (lit ?c)] =>
      let E := fresh "E" in
      destruct (leb (Num x) (lit c)) eqn:E;
      [ apply leb_lit in E
      | apply not_true_iff_false in E; rewrite leb_lit in E ]
  | |- context [gtb (Num ?x) (lit ?c)] =>
      let E := fresh "E" in
      destruct (gtb (Num x) (lit c)) eqn:E;
      [ apply gtb_lit in E
      | apply not_true_iff_false in E; rewrite gtb_lit in E ]
  | |- context [ltb (Num ?x) (lit ?c)] =>
      let E := fresh "E" in
      destruct (ltb (Num x) (lit c)) eqn:E;
      [ apply ltb_lit in E
      | apply not_true_iff_false in E; rewrite ltb_lit in E ]
  end.

(** Unfold the arithmetic of a goal [same_number a (Num q)] down to an
    equation between rationals. *)
Ltac number_arith :=
  unfold add, sub, mul, lift2, lit; cbn [same_number];
  rewrite ?Qred_correct.

Section FeelsLikeFacts.
Variable rt : Runtime.

Lemma windChill_formula (t w P : Q) :
  Math_pow rt (Num w * lit 3.6)%js (lit 0.16) = Num P ->
  same_number (windChill rt (Num t) (Num w)) (Num (wind_chill_formula t P)).
Proof.
  intros HP. unfold windChill. rewrite HP. number_arith.
  unfold wind_chill_formula. ring.
Qed.

(** C6: the branches of [calculateNASA_FeelsLike].  In a desert: the
    dry-heat value [temp + (temp - 25) * 0.1] for [temp >= 30], the wind-chill
    formula for [temp <= 15] and [windSpeed > 2].  Elsewhere: the heat index
    [temp + 0.5 * (humidity / 100) * (temp - 20)] for [temp >= 27], the same
    wind-chill formula for [temp <= 10] and [windSpeed > 1.34].  In every
    other case [temp] itself.  A desert at 35 degrees, humidity 20 and wind 1
    feels like 36. *)
Theorem calculateNASA_FeelsLike_spec (t h w : Q) :
  (30 <= t ->
     same_number (calculateNASA_FeelsLike rt (Num t) (Num h) (Num w) true)
                 (Num (t + (t - 25) * 0.1)))
  /\ (t <= 15 -> 2 < w ->
      forall P, Math_pow rt (Num w * lit 3.6)%js (lit 0.16) = Num P ->
      same_number (calculateNASA_FeelsLike rt (Num t) (Num h) (Num w) true)
                  (Num (wind_chill_formula t P)))
  /\ (~ 30 <= t -> ~ (t <= 15 /\ 2 < w) ->
      calculateNASA_FeelsLike rt (Num t) (Num h) (Num w) true = Num t)
  /\ (27 <= t ->
      same_number (calculateNASA_FeelsLike rt (Num t) (Num h) (Num w) false)
                  (Num (t + 0.5 * (h / 100) * (t - 20))))
  /\ (t <= 10 -> 1.34 < w ->
      forall P, Math_pow rt (Num w * lit 3.6)%js (lit 0.16) = Num P ->
      same_number (calculateNASA_FeelsLike rt (Num t) (Num h) (Num w) false)
                  (Num (wind_chill_formula t P)))
  /\ (~ 27 <= t -> ~ (t <= 10 /\ 1.34 < w) ->
      calculateNASA_FeelsLike rt (Num t) (Num h) (Num w) false = Num t)
  /\ calculateNASA_FeelsLike rt (lit 35) (lit 20) (lit 1) true = lit 36.
Proof.
  unfold calculateNASA_FeelsLike. repeat split.
  - intros Ht. compare_cases; try lra. number_arith. ring.
  - intros Ht Hw P HP. compare_cases; try lra.
    apply windChill_formula; assumption.
  - intros Ht Hc. compare_cases; try reflexivity; tauto.
  - intros Ht. compare_cases; try lra.
    unfold div, lit. change (Qeq_bool (Qred 100) 0) with false. cbv iota.
    number_arith. field.
  - intros Ht Hw P HP. compare_cases; try lra.
    apply windChill_formula; assumption.
  - intros Ht Hc. compare_cases; try reflexivity; tauto.
Qed.

End FeelsLikeFacts.

Lemma calculateNASA_FeelsLike_spec_witness :
  same_number (calculateNASA_FeelsLike Host.runtime (Num 40) (Num 10) (Num 3) true)
              (Num (40 + (40 - 25) * 0.1))
  /\ same_number (calculateNASA_FeelsLike Host.runtime (Num 5) (Num 80) (Num 4) false)
                 (Num (wind_chill_formula 5 1))
  /\ calculateNASA_FeelsLike Host.runtime (Num 20) (Num 50) (Num 1) false = Num 20.
Proof.
  destruct (calculateNASA_FeelsLike_spec Host.runtime 40 10 3) as (Hhot & _).
  destruct (calculateNASA_FeelsLike_spec Host.runtime 5 80 4)
    as (_ & _ & _ & _ & Hcold & _).
  destruct (calculateNASA_FeelsLike_spec Host.runtime 20 50 1)
    as (_ & _ & _ & _ & _ & Hmild & _).
  split; [ apply Hhot; lra | ].
  split; [ apply Hcold; [ lra | lra | reflexivity ] | ].
  apply Hmild; lra.
Defined.

(* ===================================================================== *)
(** ** Condition text *)
(* ===================================================================== *)

Section ConditionFacts.
Variable rt : Runtime.

(** With a valid precipitation reading the POWER variant returns, and its
    text is decided by that reading. *)
Lemma getNASA_ConditionsFromPOWER_valid (params : value) (dateStr : string)
  (isDesert : bool) (i : nat) (rawCloud : number) (p : Q) :
  rawParameter rt params "CLOUD_AMT" dateStr = Ok rawCloud ->
  rawParameter rt params "PRECTOTCORR" dateStr = Ok (Num p) ->
  -900 < p ->
  exists cloudCover j,
    getNASA_ConditionsFromPOWER rt params dateStr isDesert i
    = (Ok (power_label (Num p) cloudCover isDesert), j).
Proof.
  intros Hc Hp Hvalid.
  unfold getNASA_ConditionsFromPOWER, bindT, liftR, liftT.
  rewrite Hc, Hp.
  destruct (getRealisticCloudCover rt isDesert i) as [cloud i1].
  destruct (getRealisticPrecipitation rt isDesert i1) as [precip i2].
  assert (Hv : isValidNASAValue rt (VNum (Num p)) = true).
  { apply isValidNASAValue_iff.
    split; [ discriminate | ]. split; [ discriminate | ].
    exists p. split; [ reflexivity | assumption ]. }
  assert (Hg : getValidNASAValue rt (VNum (Num p)) (VNum precip) = VNum (Num p))
    by (unfold getValidNASAValue; rewrite Hv; reflexivity).
  rewrite Hg. cbn [ToNumber].
  eexists. exists i2. reflexivity.
Qed.

(** C9, as the code has it.  The generic, humidity-based derivation maps a
    precipitation above 12, 6, 2, 0 to Thunderstorm, Heavy Rain, Rain, Light
    Rain; without precipitation a desert point reads "Clear and Dry" exactly
    when its humidity is below 25.  The POWER, cloud-cover-based derivation
    maps a precipitation above 10, 5, 2, 0 to Heavy Rain, Rain, Light Rain,
    Drizzle. *)
Theorem condition_thresholds (p h : Q) (isDesert : bool) :
  (12 < p -> getNASA_WeatherCondition (Num p) (Num h) isDesert = "Thunderstorm")
  /\ (6 < p -> p <= 12 ->
      getNASA_WeatherCondition (Num p) (Num h) isDesert = "Heavy Rain")
  /\ (2 < p -> p <= 6 ->
      getNASA_WeatherCondition (Num p) (Num h) isDesert = "Rain")
  /\ (0 < p -> p <= 2 ->
      getNASA_WeatherCondition (Num p) (Num h) isDesert = "Light Rain")
  /\ (p <= 0 ->
      (getNASA_WeatherCondition (Num p) (Num h) true = "Clear and Dry" <-> h < 25))
  /\ (forall (params : value) (dateStr : string) (i : nat) (rawCloud : number),
        rawParameter rt params "CLOUD_AMT" dateStr = Ok rawCloud ->
        rawParameter rt params "PRECTOTCORR" dateStr = Ok (Num p) ->
        -900 < p ->
        exists label j,
          getNASA_ConditionsFromPOWER rt params dateStr isDesert i = (Ok label, j)
          /\ (10 < p -> label = "Heavy Rain")
          /\ (5 < p -> p <= 10 -> label = "Rain")
          /\ (2 < p -> p <= 5 -> label = "Light Rain")
          /\ (0 < p -> p <= 2 -> label = "Drizzle")).
Proof.
  repeat split.
  - intros Hp. unfold getNASA_WeatherCondition. compare_cases; try lra. reflexivity.
  - intros Hp Hq. unfold getNASA_WeatherCondition.
    compare_cases; try lra. reflexivity.
  - intros Hp Hq. unfold getNASA_WeatherCondition.
    compare_cases; try lra. reflexivity.
  - intros Hp Hq. unfold getNASA_WeatherCondition.
    compare_cases; try lra. reflexivity.
  - unfold getNASA_WeatherCondition.
    compare_cases; cbn [andb]; try lra; discriminate.
  - intros Hh. unfold getNASA_WeatherCondition.
    compare_cases; cbn [andb]; try lra; reflexivity.
  - intros params dateStr i rawCloud Hc Hp Hvalid.
    destruct (getNASA_ConditionsFromPOWER_valid params dateStr isDesert i
                Hc Hp Hvalid) as (cloudCover & j & Hrun).
    exists (power_label (Num p) cloudCover isDesert), j.
    split; [ exact Hrun | ].
    unfold power_label.
    repeat split; intros; compare_cases; try lra; reflexivity.
Qed.

End ConditionFacts.

(** C9: at a precipitation of 13 the POWER variant says "Heavy Rain" where
    the thresholds 12, 6, 2, 0 would give "Thunderstorm", and at 3 it says
    "Light Rain" where they would give "Rain"; the generic variant never
    reaches a fifth label: at 1 it says "Light Rain", not "Drizzle". *)
Lemma condition_variants_differ :
  fst (getNASA_ConditionsFromPOWER Host.runtime (Host.power_parameters 13 40)
         "20250701" false 0%nat)
  = Ok "Heavy Rain"
  /\ getNASA_WeatherCondition (lit 13) (lit 50) false = "Thunderstorm"
  /\ fst (getNASA_ConditionsFromPOWER Host.runtime (Host.power_parameters 3 40)
            "20250701" false 0%nat)
     = Ok "Light Rain"
  /\ getNASA_WeatherCondition (lit 3) (lit 50) false = "Rain"
  /\ getNASA_WeatherCondition (lit 1) (lit 50) false = "Light Rain".
Proof. repeat split; reflexivity. Qed.

Lemma condition_thresholds_witness :
  getNASA_WeatherCondition (Num 13) (Num 50) false = "Thunderstorm"
  /\ (getNASA_WeatherCondition (Num 0) (Num 20) true = "Clear and Dry" <-> 20 < 25)
  /\ exists label j,
       getNASA_ConditionsFromPOWER Host.runtime (Host.power_parameters 1 40)
         "20250701" false 0%nat = (Ok label, j)
       /\ label = "Drizzle".
Proof.
  destruct (condition_thresholds Host.runtime 13 50 false) as (Hstorm & _).
  destruct (condition_thresholds Host.runtime 0 20 true) as (_ & _ & _ & _ & Hdry & _).
  destruct (condition_thresholds Host.runtime 1 50 false)
    as (_ & _ & _ & _ & _ & Hpower).
  split; [ apply Hstorm; lra | ].
  split; [ apply Hdry; lra | ].
  destruct (Hpower (Host.power_parameters 1 40) "20250701" 0%nat (lit 40))
    as (label & j & Hrun & _ & _ & _ & Hdrizzle);
    [ reflexivity | reflexivity | lra | ].
  exists label, j. split; [ exact Hrun | apply Hdrizzle; lra ].
Defined.

(* ===================================================================== *)
(** ** The probability estimator *)
(* ===================================================================== *)

(** The share of the samples above the threshold lies between 0 and 1. *)
Lemma share_bounds (c n : Z) :
  (0 <= c <= n)%Z -> (0 < n)%Z ->
  0 <= inject_Z c / inject_Z n /\ inject_Z c / inject_Z n <= 1.
Proof.
  intros Hc Hn.
  assert (HN : 0 < inject_Z n).
  { change 0 with (inject_Z 0). rewrite <- Zlt_Qlt. exact Hn. }
  assert (HC : 0 <= inject_Z c).
  { change 0 with (inject_Z 0). rewrite <- Zle_Qle. lia. }
  assert (HCN : inject_Z c <= inject_Z n) by (rewrite <- Zle_Qle; lia).
  split.
  - apply Qle_shift_div_l; [ exact HN | lra ].
  - apply Qle_shift_div_r; [ exact HN | lra ].
Qed.

Lemma binary64_1_100 : binary64 1 = 1 /\ binary64 100 = 100.
Proof. split; vm_compute; reflexivity. Qed.

Lemma stored_percent_range (c n : Z) :
  (0 <= c <= n)%Z -> (0 < n)%Z ->
  0 <= stored_percent c n /\ stored_percent c n <= 100.
Proof.
  intros Hc Hn. destruct (share_bounds Hc Hn) as [Hlo Hhi].
  unfold stored_percent.
  set (q := Qred (Qred (inject_Z c) / Qred (inject_Z n))).
  assert (Eq : q == inject_Z c / inject_Z n).
  { unfold q. rewrite !Qred_correct. reflexivity. }
  assert (H0 : 0 <= binary64 q) by (apply binary64_nonneg; lra).
  assert (H1 : binary64 q <= 1).
  { destruct binary64_1_100 as [E _]. rewrite <- E. apply binary64_mono. lra. }
  set (z := Qred (binary64 q * Qred 100)).
  assert (Ez : z == binary64 q * 100).
  { unfold z. rewrite !Qred_correct. reflexivity. }
  split.
  - apply binary64_nonneg. lra.
  - destruct binary64_1_100 as [_ E]. rewrite <- E. apply binary64_mono. lra.
Qed.

Lemma stored_percent_mono (c1 c2 n : Z) :
  (c1 <= c2)%Z -> (0 < n)%Z -> stored_percent c1 n <= stored_percent c2 n.
Proof.
  intros Hc Hn. unfold stored_percent.
  apply binary64_mono. rewrite !(Qred_correct (_ * _)), !(Qred_correct 100).
  apply Qmult_le_compat_r; [ | discriminate ].
  apply binary64_mono. rewrite !Qred_correct.
  assert (HN : 0 < inject_Z n).
  { change 0 with (inject_Z 0). rewrite <- Zlt_Qlt. exact Hn. }
  apply Qmult_le_compat_r.
  - rewrite <- Zle_Qle. exact Hc.
  - apply Qlt_le_weak, Qinv_lt_0_compat, HN.
Qed.

(** The two roundings move the percentage by less than [2 ^ -45]. *)
Lemma stored_percent_error (c n : Z) :
  (0 <= c <= n)%Z -> (0 < n)%Z ->
  Qabs (stored_percent c n - 100 * (inject_Z c / inject_Z n))
  <= 201 # 9007199254740992.
Proof.
  intros Hc Hn. destruct (share_bounds Hc Hn) as [Hlo Hhi].
  unfold stored_percent.
  set (q := Qred (Qred (inject_Z c) / Qred (inject_Z n))).
  assert (Eq : q == inject_Z c / inject_Z n).
  { unfold q. rewrite !Qred_correct. reflexivity. }
  pose proof (binary64_error_rel q) as H1.
  assert (E53 : 2 ^ (-53) == 1 # 9007199254740992) by reflexivity.
  rewrite E53, (Qabs_pos q) in H1 by lra.
  set (z := Qred (binary64 q * Qred 100)).
  assert (Ez : z == binary64 q * 100).
  { unfold z. rewrite !Qred_correct. reflexivity. }
  pose proof (binary64_error_rel z) as H2.
  apply Qabs_Qle_condition in H1.
  assert (Hz : 0 <= z) by lra.
  rewrite E53, (Qabs_pos z) in H2 by exact Hz.
  apply Qabs_Qle_condition in H2.
  apply Qabs_Qle_condition.
  rewrite <- Eq. lra.
Qed.

(** So [Math.round] of it is an integer nearest to the exact percentage:
    the exact percentage is a multiple of [1 / n], and cannot lie that close
    to a tie without being one. *)
Lemma stored_percent_nearest (c n : Z) :
  (0 <= c <= n)%Z -> (0 < n < 2 ^ 32)%Z ->
  let p := Qfloor (stored_percent c n + (1 # 2)) in
  (2 * n * p - n <= 200 * c <= 2 * n * p + n)%Z.
Proof.
  intros Hc Hn p.
  assert (Hn0 : (0 < n)%Z) by lia.
  pose proof (stored_percent_error Hc Hn0) as Herr.
  apply Qabs_Qle_condition in Herr.
  pose proof (Qfloor_le (stored_percent c n + (1 # 2))) as Hlo.
  pose proof (Qlt_floor (stored_percent c n + (1 # 2))) as Hhi.
  fold p in Hlo, Hhi.
  rewrite inject_Z_plus in Hhi. change (inject_Z 1) with 1 in Hhi.
  set (y := stored_percent c n) in *.
  assert (HN : 0 < inject_Z n).
  { change 0 with (inject_Z 0). rewrite <- Zlt_Qlt. exact Hn0. }
  assert (HN32 : inject_Z n <= 4294967296).
  { change 4294967296 with (inject_Z (2 ^ 32)). rewrite <- Zle_Qle. lia. }
  assert (Ex : 100 * (inject_Z c / inject_Z n) * inject_Z n == 100 * inject_Z c)
    by (field; lra).
  set (x := 100 * (inject_Z c / inject_Z n)) in *.
  set (N := inject_Z n) in *. set (C := inject_Z c) in *. set (P := inject_Z p) in *.
  assert (H1 : 2 * N * P - N - 1 < 200 * C) by nra.
  assert (H2 : 200 * C < 2 * N * P + N + 1) by nra.
  unfold N, C, P in H1, H2.
  change 2 with (inject_Z 2) in H1, H2. change 200 with (inject_Z 200) in H1, H2.
  change 1 with (inject_Z 1) in H1, H2.
  rewrite <- !inject_Z_mult in H1, H2.
  unfold Qminus in H1. rewrite <- !inject_Z_opp, <- !inject_Z_plus in H1.
  rewrite <- !inject_Z_plus in H2.
  rewrite <- Zlt_Qlt in H1, H2. lia.
Qed.

Lemma count_gt_le_length (t : number) (series : list number) :
  (count_gt t series <= List.length series)%nat.
Proof. apply filter_length_le. Qed.

Section ProbabilityFacts.
Variable rt : Runtime.

(** The value of the common body on a series that is not empty. *)
Lemma probabilityAbove_value (dflt : number) (threshold : value)
  (series : list number) :
  series <> [] ->
  probabilityAbove rt dflt threshold (Some series)
  = Num (inject_Z
           (Qfloor
              (stored_percent
                 (Z.of_nat (count_gt (ToNumber rt threshold) series))
                 (Z.of_nat (List.length series))
               + (1 # 2)))).
Proof.
  intros Hne. unfold probabilityAbove.
  assert (Hlen : (0 < Z.of_nat (List.length series))%Z)
    by (destruct series; [ congruence | simpl List.length; lia ]).
  destruct (Nat.eqb_spec (List.length series) 0) as [ H0 | _ ]; [ lia | ].
  unfold length_number, lit, div.
  fold (count_gt (ToNumber rt threshold) series).
  set (c := Z.of_nat (count_gt (ToNumber rt threshold) series)).
  set (n := Z.of_nat (List.length series)) in *.
  assert (Hz : Qeq_bool (Qred (inject_Z n)) 0 = false).
  { apply not_true_iff_false. rewrite Qeq_bool_iff, Qred_correct.
    unfold Qeq, inject_Z. simpl. lia. }
  rewrite Hz. reflexivity.
Qed.

Lemma probabilityAbove_nearest (dflt : number) (t : Q) (series : list number) :
  series <> [] ->
  (Z.of_nat (List.length series) < 2 ^ 32)%Z ->
  exists p : Z,
    probabilityAbove rt dflt (VNum (Num t)) (Some series) = Num (inject_Z p)
    /\ nearest_percent p (count_above t series) (List.length series).
Proof.
  intros Hne Hlen. rewrite (probabilityAbove_value dflt (VNum (Num t)) Hne).
  cbn [ToNumber]. eexists. split; [ reflexivity | ].
  change (count_gt (Num t) series) with (count_above t series).
  assert (Hn : (0 < Z.of_nat (List.length series))%Z)
    by (destruct series; [ congruence | simpl List.length; lia ]).
  pose proof (count_gt_le_length (Num t) series) as Hc.
  change (count_gt (Num t) series) with (count_above t series) in Hc.
  unfold nearest_percent.
  apply (@stored_percent_nearest (Z.of_nat (count_above t series))
           (Z.of_nat (List.length series))); lia.
Qed.

(** Reading a property of a value that is not [null] or [undefined]. *)
Lemma member_get (o : value) (k : string) :
  ~ nullish o -> member o k = Ok (get o k).
Proof.
  intros Ho. destruct o; try reflexivity; exfalso; apply Ho;
    [ right | left ]; reflexivity.
Qed.

Ltac settle_dimension :=
  let Hu := fresh "Hu" in
  let t := fresh "t" in
  let Ht := fresh "Ht" in
  let Hne := fresh "Hne" in
  let Hlen := fresh "Hlen" in
  let p := fresh "p" in
  let Hp := fresh "Hp" in
  let Hnear := fresh "Hnear" in
  match goal with
  | E : is_undefined (get _ ?k) = _ |- dimension _ _ ?k _ _ =>
      split;
      [ intros Hu;
        first [ reflexivity | rewrite Hu in E; simpl in E; discriminate ]
      | intros t Ht Hne Hlen;
        first
          [ rewrite Ht in E; simpl in E; discriminate
          | cbn [assoc String.eqb Ascii.eqb Bool.eqb app];
            unfold calculateTemperatureProbability,
              calculatePrecipitationProbability, calculateWindProbability;
            rewrite Ht;
            match goal with
            | |- context [probabilityAbove rt ?dflt _ _] =>
                destruct (probabilityAbove_nearest dflt t Hne Hlen)
                  as (p & Hp & Hnear)
            end;
            exists p; rewrite Hp; split; [ reflexivity | exact Hnear ] ] ]
  end.

(** C7: [calculateProbabilities] reads the three thresholds from an object
    (reading them from [null] or [undefined] throws).  For each of the three
    dimensions, a threshold that is absent leaves no key in the result, and
    a threshold that is a number gives, for a series that is not empty, an
    integer percentage nearest to the share of the samples strictly greater
    than it.  With the series 1, 2, 3, 4, 5 and the threshold 3 the result
    is 40. *)
Theorem calculateProbabilities_spec (weatherData : WeatherData) (c : Current)
  (thresholds : value) (temperature precipitation wind : list number)
  (humidity : option (list number)) (i : nat) :
  w_current weatherData = Some c ->
  let historicalData :=
    Some {| h_temperature := Some temperature;
            h_precipitation := Some precipitation;
            h_wind := Some wind;
            h_humidity := humidity |} in
  (nullish thresholds ->
   calculateProbabilities rt weatherData thresholds historicalData i
   = (Throw "TypeError", i))
  /\ (~ nullish thresholds ->
      exists probabilities,
        calculateProbabilities rt weatherData thresholds historicalData i
        = (Ok probabilities, i)
        /\ dimension thresholds probabilities "temperature" "temperature_above"
             temperature
        /\ dimension thresholds probabilities "precipitation"
             "precipitation_above" precipitation
        /\ dimension thresholds probabilities "windSpeed" "windspeed_above" wind)
  /\ calculateTemperatureProbability rt (c_temperature c) (VNum (lit 3))
       (Some [lit 1; lit 2; lit 3; lit 4; lit 5]) = lit 40.
Proof.
  intros Hc historicalData.
  split; [ intros [ -> | -> ]; reflexivity | ].
  split; [ | vm_compute; reflexivity ].
  intros Hobj.
  unfold calculateProbabilities, bindT, liftR, liftT, historicalOrGenerated,
    currentField, ret, historicalData.
  rewrite !(member_get _ Hobj).
  rewrite Hc. cbn [h_temperature h_precipitation h_wind].
  destruct (is_undefined (get thresholds "temperature")) eqn:E1;
    destruct (is_undefined (get thresholds "precipitation")) eqn:E2;
    destruct (is_undefined (get thresholds "windSpeed")) eqn:E3;
    cbn [negb]; eexists; (split; [ reflexivity | ]);
    (split; [ settle_dimension | ]);
    (split; [ settle_dimension | settle_dimension ]).
Qed.

End ProbabilityFacts.

Lemma calculateProbabilities_spec_witness :
  exists probabilities,
    calculateProbabilities Host.runtime Host.measured
      (VObj [("temperature", VNum (lit 3))])
      (Some {| h_temperature := Some [lit 1; lit 2; lit 3; lit 4; lit 5];
               h_precipitation := Some [lit 0];
               h_wind := Some [];
               h_humidity := None |}) 0%nat
    = (Ok probabilities, 0%nat)
    /\ assoc "temperature_above" probabilities = Some (VNum (lit 40))
    /\ assoc "precipitation_above" probabilities = None.
Proof.
  destruct (@calculateProbabilities_spec Host.runtime Host.measured _
              (VObj [("temperature", VNum (lit 3))])
              [lit 1; lit 2; lit 3; lit 4; lit 5] [lit 0] [] None 0
              eq_refl)
    as (_ & Hobject & _).
  destruct Hobject as (probabilities & Hrun & Htemp & Hprecip & _).
  { intros [ H | H ]; discriminate H. }
  exists probabilities. split; [ exact Hrun | ].
  split.
  - destruct Htemp as (_ & Hpresent).
    destruct (Hpresent 3 eq_refl) as (p & Hp & Hlo & Hhi);
      [ discriminate | reflexivity | ].
    rewrite Hp.
    change (count_above 3 [lit 1; lit 2; lit 3; lit 4; lit 5]) with 2%nat in Hlo, Hhi.
    change (List.length [lit 1; lit 2; lit 3; lit 4; lit 5]) with 5%nat in Hlo, Hhi.
    assert (p = 40%Z) as -> by lia. reflexivity.
  - destruct Hprecip as (Habsent & _). apply Habsent. reflexivity.
Defined.

(** C7: where the exact percentage is halfway between two integers, the
    stored product can lie below it: 23 samples of 40 above the threshold
    give 57, and [Math.round] of 57.5 is 58. *)
Lemma calculateProbabilities_tie :
  calculateTemperatureProbability Host.runtime VUndefined (VNum (lit 0))
    (Some (repeat (lit 1) 23 ++ repeat (lit 0) 17)%list)
  = lit 57
  /\ Math_round (lit 100 * lit 23 / lit 40)%js = lit 58.
Proof. split; vm_compute; reflexivity. Qed.

(* ===================================================================== *)
(** ** The response formatter *)
(* ===================================================================== *)

Lemma Qfloor_half (n : Z) : Qfloor (inject_Z n + (1 # 2)) = n.
Proof.
  unfold Qfloor, Qplus, inject_Z. simpl.
  rewrite Z.div_add_l by lia. change (1 / 2)%Z with 0%Z. lia.
Qed.

Section FormatterFacts.
Variable rt : Runtime.

(** Rounding to one decimal is idempotent. *)
Lemma formatToOneDecimal_idempotent (v : value) :
  formatToOneDecimal rt (formatToOneDecimal rt v) = formatToOneDecimal rt v.
Proof.
  unfold formatToOneDecimal at 2 3.
  destruct (is_null v || is_undefined v) eqn:Hv.
  - unfold formatToOneDecimal. rewrite Hv. reflexivity.
  - unfold formatToOneDecimal. cbn [is_null is_undefined orb ToNumber].
    f_equal.
    destruct (mul (ToNumber rt v) (lit 10)) as [ | x ]; [ reflexivity | ].
    change (Math_round (Num x)) with (Num (inject_Z (Qfloor (x + (1 # 2))))).
    set (n := Qfloor (x + (1 # 2))).
    assert (Hd : (Num (inject_Z n) / lit 10)%js = Num (Qred (inject_Z n / 10)))
      by reflexivity.
    rewrite Hd. unfold mul, lift2, lit, Math_round.
    assert (Hf : Qfloor (Qred (Qred (inject_Z n / 10) * Qred 10) + (1 # 2)) = n).
    { transitivity (Qfloor (inject_Z n + (1 # 2))); [ | apply Qfloor_half ].
      apply Qfloor_comp. rewrite !Qred_correct. field. }
    rewrite Hf. exact Hd.
Qed.

(** The guard [if (x !== undefined)] around an optional field changes
    nothing: an [undefined] passes through the formatters anyway. *)
Lemma guarded_format (f : value -> value) (v : value) :
  f VUndefined = VUndefined ->
  (if negb (is_undefined v) then f v else v) = f v.
Proof. intros Hf. destruct v; try reflexivity. symmetry. exact Hf. Qed.

Lemma all_chars_percent (s : string) :
  all_chars numeric_char (s ++ "%") = false.
Proof.
  induction s as [ | c s IH ]; [ reflexivity | ].
  simpl. rewrite IH. apply andb_false_r.
Qed.

Lemma StringToNumber_percent (s : string) : StringToNumber rt (s ++ "%") = NaN.
Proof.
  unfold StringToNumber. rewrite all_chars_percent.
  destruct s; reflexivity.
Qed.

(** A second [formatPercentage] finds a string that is not numeric. *)
Lemma formatPercentage_again (v : value) :
  formatPercentage rt (formatPercentage rt v)
  = percent_again (formatPercentage rt v).
Proof.
  unfold percent_again, formatPercentage.
  destruct (is_null v || is_undefined v) eqn:Hv.
  - rewrite Hv. reflexivity.
  - cbn [is_null is_undefined orb ToNumber].
    rewrite StringToNumber_percent. reflexivity.
Qed.

Lemma format_current_twice (c : Current) :
  one_decimal_current (format_current rt (format_current rt c))
  = one_decimal_current (format_current rt c)
  /\ percent_current (format_current rt (format_current rt c))
     = map percent_again (percent_current (format_current rt c))
  /\ plain_current (format_current rt (format_current rt c))
     = plain_current (format_current rt c).
Proof.
  unfold one_decimal_current, percent_current, plain_current, format_current.
  cbn -[formatToOneDecimal formatPercentage is_undefined negb].
  rewrite !(guarded_format (formatToOneDecimal rt)) by reflexivity.
  rewrite !(guarded_format (formatPercentage rt)) by reflexivity.
  rewrite !formatToOneDecimal_idempotent, !formatPercentage_again.
  repeat split.
Qed.

Lemma format_day_twice (d : ForecastDay) :
  one_decimal_day (format_day rt (format_day rt d))
  = one_decimal_day (format_day rt d)
  /\ percent_day (format_day rt (format_day rt d))
     = map percent_again (percent_day (format_day rt d))
  /\ plain_day (format_day rt (format_day rt d)) = plain_day (format_day rt d).
Proof.
  unfold one_decimal_day, percent_day, plain_day, format_day.
  cbn -[formatToOneDecimal formatPercentage].
  rewrite !formatToOneDecimal_idempotent, !formatPercentage_again.
  repeat split.
Qed.

(** C8, as the code has it: applying [formatWeatherData] to a formatted
    weather object leaves every field rounded to one decimal unchanged, in
    [current] and in every forecast day, as well as the fields it does not
    format; the percentages (humidity, cloud cover) are not kept: a
    percentage string is not a number, and formatting it again gives
    ["NaN%"]. *)
Theorem formatWeatherData_twice (weatherObj : option WeatherData) :
  let once := formatWeatherData rt weatherObj in
  let twice := formatWeatherData rt once in
  option_map one_decimal_current (current_of twice)
  = option_map one_decimal_current (current_of once)
  /\ option_map (map one_decimal_day) (forecast_of twice)
     = option_map (map one_decimal_day) (forecast_of once)
  /\ option_map plain_current (current_of twice)
     = option_map plain_current (current_of once)
  /\ option_map (map plain_day) (forecast_of twice)
     = option_map (map plain_day) (forecast_of once)
  /\ option_map percent_current (current_of twice)
     = option_map (fun c => map percent_again (percent_current c))
         (current_of once)
  /\ option_map (map percent_day) (forecast_of twice)
     = option_map (map (fun d => map percent_again (percent_day d)))
         (forecast_of once).
Proof.
  destruct weatherObj as [ w | ]; [ | repeat split ].
  cbn [formatWeatherData current_of forecast_of w_current w_forecast].
  destruct (w_current w) as [ c | ]; destruct (w_forecast w) as [ days | ];
    cbn [option_map];
    try destruct (format_current_twice c) as (Hc1 & Hc2 & Hc3);
    try rewrite Hc1; try rewrite Hc2; try rewrite Hc3;
    repeat split;
    f_equal; rewrite !map_map; apply map_ext; intros d;
    apply format_day_twice.
Qed.

End FormatterFacts.

(** C8: a humidity of 65 and a cloud cover of 40 are "65%" and "40%" after
    one formatting and "NaN%" after a second one, in [current] and in the
    forecast days. *)
Lemma formatWeatherData_not_idempotent :
  let once := formatWeatherData Host.runtime (Some Host.measured) in
  let twice := formatWeatherData Host.runtime once in
  option_map percent_current (current_of once)
  = Some [VStr "65%"; VStr "40%"]
  /\ option_map percent_current (current_of twice)
     = Some [VStr "NaN%"; VStr "NaN%"]
  /\ option_map (map percent_day) (forecast_of once) = Some [[VStr "65%"]]
  /\ option_map (map percent_day) (forecast_of twice) = Some [[VStr "NaN%"]].
Proof. repeat split. Qed.

(* ===================================================================== *)
(** ** The handler of [GET /weather] *)
(* ===================================================================== *)

(** The loop pushes one element per round. *)
Lemma forLoop_length (A : Type) (body : nat -> Gen A) (count start i : nat) :
  List.length (fst (forLoop body start count i)) = count.
Proof.
  revert start i. induction count as [ | count IH ]; intros start i.
  - reflexivity.
  - cbn [forLoop]. unfold bind.
    destruct (body start i) as [x i1].
    specialize (IH (S start) i1).
    destruct (forLoop body (S start) count i1) as [rest i2].
    cbn in *. congruence.
Qed.

(** What holds of every element that the loop pushes holds of the array. *)
Lemma forLoop_Forall (A : Type) (P : A -> Prop) (body : nat -> Gen A) :
  (forall index i, P (fst (body index i))) ->
  forall count start i, Forall P (fst (forLoop body start count i)).
Proof.
  intros Hbody. induction count as [ | count IH ]; intros start i.
  - constructor.
  - cbn [forLoop]. unfold bind, ret.
    pose proof (Hbody start i) as Hx.
    destruct (body start i) as [x i1].
    specialize (IH (S start) i1).
    destruct (forLoop body (S start) count i1) as [rest i2].
    constructor; assumption.
Qed.

Section HandlerFacts.
Variable rt : Runtime.

(** The synthetic model always returns: its forecast has seven days, so
    [forecast[0]] is there. *)
Lemma generateNASA_Model_Data_ok (lat lon : number) (isDesert : bool) (i : nat) :
  exists (model : WeatherData) (j : nat) (c : Current) (days : list ForecastDay),
    generateNASA_Model_Data rt lat lon isDesert i = (Ok model, j)
    /\ w_current model = Some c
    /\ w_forecast model = Some days
    /\ List.length days = 7%nat
    /\ w_data_source model = VStr "NASA Climate Simulation"
    /\ w_nasa_mission model = VStr "Global Modeling and Assimilation Office".
Proof.
  unfold generateNASA_Model_Data, bindT, liftT, liftR, generateNASA_ClimateForecast.
  pose proof (forLoop_length (climateForecastDay rt lat lon isDesert) 7 0 i) as Hlen.
  destruct (forLoop (climateForecastDay rt lat lon isDesert) 0 7 i) as [days j].
  cbn [fst] in Hlen.
  destruct days as [ | day0 rest ]; [ discriminate | ].
  eexists. exists j. eexists. exists (day0 :: rest).
  split; [ reflexivity | ].
  repeat split. exact Hlen.
Qed.

(** Every field of a day of the synthetic forecast is there, and stays
    there when the day is formatted. *)
Lemma climateForecastDay_populated (lat lon : number) (isDesert : bool)
  (k n : nat) :
  populated_day (format_day rt (fst (climateForecastDay rt lat lon isDesert k n))).
Proof.
  unfold climateForecastDay, bind, ret, random.
  destruct (getRealisticMaxTemperature rt lat isDesert n) as [maxTemp n1].
  destruct (getRealisticMinTemperature rt lat isDesert n1) as [minTemp n2].
  destruct (getRealisticPrecipitation rt isDesert n2) as [precipitation n3].
  destruct (getRealisticHumidity rt lat isDesert n3) as [humidity n4].
  destruct (getRealisticWindSpeed rt lat isDesert n4) as [windSpeed n5].
  destruct (getRealisticPressure rt lat n5) as [pressure n6].
  reflexivity.
Qed.

(** So the data of a run of the synthetic model are [synthetic], in whatever
    weather object their formatted [current] and forecast are carried. *)
Lemma generateNASA_Model_Data_synthetic (lat lon : number) (i j : nat)
  (model data : WeatherData) :
  generateNASA_Model_Data rt lat lon (isDesertRegion lat lon) i = (Ok model, j) ->
  w_current data = option_map (format_current rt) (w_current model) ->
  w_forecast data = option_map (map (format_day rt)) (w_forecast model) ->
  synthetic rt lat lon data.
Proof.
  intros Hrun Hcurrent Hforecast.
  pose proof Hrun as Hrun'.
  unfold generateNASA_Model_Data, bindT, liftT, liftR,
    generateNASA_ClimateForecast in Hrun'.
  pose proof (forLoop_length
                (climateForecastDay rt lat lon (isDesertRegion lat lon)) 7 0 i)
    as Hlen.
  pose proof (@forLoop_Forall _
                (fun day => populated_day (format_day rt day))
                (climateForecastDay rt lat lon (isDesertRegion lat lon))
                (climateForecastDay_populated lat lon (isDesertRegion lat lon))
                7 0 i)%nat
    as Hall.
  destruct (forLoop (climateForecastDay rt lat lon (isDesertRegion lat lon)) 0 7 i)
    as [days k].
  cbn [fst] in Hlen, Hall.
  destruct days as [ | day0 rest ]; [ discriminate | ].
  assert (Hok : forall (a b : WeatherData) (n m : nat),
            (Ok a, n) = (Ok b, m) -> a = b) by (intros; congruence).
  apply Hok in Hrun'. subst model.
  cbn [w_current w_forecast option_map] in Hcurrent, Hforecast.
  exists i, j. eexists. eexists. exists (day0 :: rest).
  split; [ exact Hrun | ].
  split; [ reflexivity | ].
  split; [ reflexivity | ].
  split; [ exact Hlen | ].
  split; [ reflexivity | ].
  split; [ exact Hcurrent | ].
  split; [ exact Hforecast | ].
  split; [ | exact Hall ].
  apply Forall_inv in Hall.
  unfold populated_day, populated_current in *.
  cbn [format_day format_current d_date d_temperature d_max_temp d_min_temp
       d_precipitation d_wind_speed d_humidity d_pressure d_weather_code
       d_conditions d_feels_like c_temperature c_feels_like c_humidity
       c_wind_speed c_pressure c_conditions c_weather_code c_data_quality
       forallb] in *.
  repeat (apply andb_prop in Hall; destruct Hall as [? Hall]).
  repeat (apply andb_true_intro; split); try assumption; reflexivity.
Qed.

(** The [catch] block always answers, with HTTP 200 and synthetic data for
    the coordinates as [parseFloat] read them. *)
Lemma catchBlock_ok (req : Request) (i : nat) :
  exists (model : WeatherData) (j : nat),
    generateNASA_Model_Data rt (parseFloat rt (query_lat req))
      (parseFloat rt (query_lon req))
      (isDesertRegion (parseFloat rt (query_lat req)) (parseFloat rt (query_lon req)))
      i = (Ok model, j)
    /\ catchBlock rt req i
       = (Ok {| status := VNum (lit 200);
                body := WeatherBody (formatWeatherData rt (Some model)) None |}, j)
    /\ served_synthetic rt (parseFloat rt (query_lat req))
         (parseFloat rt (query_lon req))
         {| status := VNum (lit 200);
            body := WeatherBody (formatWeatherData rt (Some model)) None |}.
Proof.
  destruct (generateNASA_Model_Data_ok (parseFloat rt (query_lat req))
              (parseFloat rt (query_lon req))
              (isDesertRegion (parseFloat rt (query_lat req))
                 (parseFloat rt (query_lon req))) i)
    as (model & j & c & days & Hrun & Hc & Hd & Hlen & Hsrc & _).
  exists model, j. split; [ exact Hrun | ].
  split.
  - unfold catchBlock, bindT. rewrite Hrun. reflexivity.
  - split; [ reflexivity | ].
    eexists. eexists. split; [ reflexivity | ].
    split; [ exact Hsrc | ].
    eapply generateNASA_Model_Data_synthetic; [ exact Hrun | reflexivity | reflexivity ].
Qed.

(** The [try] block once the longitude is validated: the latitude's
    validation always returns. *)
Lemma tryBlock_validates (sv : Services) (req : Request) (i : nat)
  (validatedLon : option number) :
  validateCoordinate (parseFloat rt (query_lon req)) "lon" = Returns validatedLon ->
  exists validatedLat : option number,
    validateCoordinate (parseFloat rt (query_lat req)) "lat" = Returns validatedLat
    /\ tryBlock rt sv req i
       = Returns
           (match validatedLat, validatedLon with
            | Some validatedLat, Some validatedLon =>
                if negb (truthy (VNum validatedLat))
                   || negb (truthy (VNum validatedLon))
                then throw "Invalid coordinates provided" i
                else fetchAndRespond rt sv validatedLat validatedLon
                       (query_thresholds req) i
            | _, _ => throw "Invalid coordinates provided" i
            end).
Proof.
  intros Hlon. unfold tryBlock. rewrite validateCoordinate_lat, Hlon.
  eexists. split; reflexivity.
Qed.

(** Without a validated longitude there is no response. *)
Lemma handler_never (sv : Services) (req : Request) (i : nat) :
  truthy (query_lat req) = true ->
  truthy (query_lon req) = true ->
  ~ wrappable (parseFloat rt (query_lon req)) ->
  handler rt sv req i = NeverReturns.
Proof.
  intros Hlat Hlon Hw. unfold handler, tryBlock.
  rewrite Hlat, Hlon, validateCoordinate_lat, (@validateCoordinate_never _ Hw).
  reflexivity.
Qed.

(** C1: a request whose [lat] and [lon] are present and whose longitude
    reads beyond [2 ^ 62] in magnitude gets no response at all, whatever the
    adapters do: the handler validates the longitude first, and that call
    never returns. *)
Theorem handler_unwrappable_longitude (sv : Services) (req : Request) (i : nat) :
  truthy (query_lat req) = true ->
  truthy (query_lon req) = true ->
  ~ wrappable (parseFloat rt (query_lon req)) ->
  validateCoordinate (parseFloat rt (query_lon req)) "lon" = NeverReturns
  /\ handler rt sv req i = NeverReturns.
Proof.
  intros Hlat Hlon Hw.
  split; [ apply validateCoordinate_never; exact Hw | ].
  apply handler_never; assumption.
Qed.

Section ProvidersDown.
Variable sv : Services.
(** All three adapters resolve to [null], whatever they are asked. *)
Hypothesis POWER_down : forall a b d j, fst (tryNASA_POWER sv a b d j) = None.
Hypothesis GMAO_down : forall a b d j, fst (tryNASA_GMAO sv a b d j) = None.
Hypothesis Worldview_down : forall a b d j, fst (tryNASA_Worldview sv a b d j) = None.

Lemma fetchAndRespond_synthetic (validatedLat validatedLon : number)
  (thresholds : value) (i j : nat) (response : Response) :
  fetchAndRespond rt sv validatedLat validatedLon thresholds i = (Ok response, j) ->
  served_synthetic rt validatedLat validatedLon response.
Proof.
  unfold fetchAndRespond, bindT, liftT, liftR.
  set (isDesert := isDesertRegion validatedLat validatedLon).
  pose proof (POWER_down validatedLat validatedLon isDesert i) as H1.
  destruct (tryNASA_POWER sv validatedLat validatedLon isDesert i) as [w1 i1].
  cbn [fst] in H1. subst w1.
  pose proof (GMAO_down validatedLat validatedLon isDesert i1) as H2.
  destruct (tryNASA_GMAO sv validatedLat validatedLon isDesert i1) as [w2 i2].
  cbn [fst] in H2. subst w2.
  pose proof (Worldview_down validatedLat validatedLon isDesert i2) as H3.
  destruct (tryNASA_Worldview sv validatedLat validatedLon isDesert i2) as [w3 i3].
  cbn [fst] in H3. subst w3.
  destruct (generateNASA_Model_Data_ok validatedLat validatedLon isDesert i3)
    as (model & i4 & c & days & Hrun & Hc & Hd & Hlen & Hsrc & Hmission).
  rewrite Hrun.
  destruct (generateHistoricalData rt validatedLat validatedLon isDesert
              "temperature" 365 i4) as [hT i5].
  destruct (generateHistoricalData rt validatedLat validatedLon isDesert
              "precipitation" 365 i5) as [hP i6].
  destruct (generateHistoricalData rt validatedLat validatedLon isDesert
              "wind" 365 i6) as [hW i7].
  destruct (generateHistoricalData rt validatedLat validatedLon isDesert
              "humidity" 365 i7) as [hH i8].
  cbn [formatWeatherData w_current w_forecast w_location w_data_source
       w_nasa_mission w_climate_note w_disclaimer w_historicalData w_lat w_lon
       w_isDesert w_probabilities].
  set (userThresholds := if truthy thresholds then _ else _).
  assert (Hgood : forall probabilities metadata location climate,
    served_synthetic rt validatedLat validatedLon
      {| status := VNum (lit 200);
         body := WeatherBody
           (Some {| w_current := option_map (format_current rt) (w_current model);
                    w_forecast := option_map (map (format_day rt)) (w_forecast model);
                    w_location := location;
                    w_data_source :=
                      or_else (w_data_source model) (VStr "NASA Climate Simulation");
                    w_nasa_mission :=
                      or_else (w_nasa_mission model)
                        (VStr "Global Modeling and Assimilation Office");
                    w_climate_note := climate;
                    w_disclaimer := w_disclaimer model;
                    w_historicalData :=
                      Some {| h_temperature := Some hT;
                              h_precipitation := Some hP;
                              h_wind := Some hW;
                              h_humidity := Some hH |};
                    w_lat := VNum validatedLat;
                    w_lon := VNum validatedLon;
                    w_isDesert := VBool isDesert;
                    w_probabilities := probabilities |}) metadata |}).
  { intros probabilities metadata location climate.
    split; [ reflexivity | ].
    eexists. eexists. split; [ reflexivity | ].
    split; [ cbn [w_data_source]; rewrite Hsrc; reflexivity | ].
    eapply generateNASA_Model_Data_synthetic;
      [ exact Hrun | reflexivity | reflexivity ]. }
  destruct (Object_keys_length userThresholds) as [ keys | m ];
    [ | discriminate ].
  destruct (0 <? keys)%nat.
  - match goal with
    | |- context [calculateProbabilities ?a ?b ?c ?d ?e] =>
        destruct (calculateProbabilities a b c d e) as [[computed | m] i9]
    end; [ | discriminate ].
    intros H. injection H as <- <-. apply Hgood.
  - intros H. injection H as <- <-. apply Hgood.
Qed.

(** A response of the [try] block carries the synthetic data for the
    validated coordinates. *)
Lemma tryBlock_synthetic (req : Request) (i j : nat) (response : Response) :
  tryBlock rt sv req i = Returns (Ok response, j) ->
  exists validatedLat validatedLon : number,
    validateCoordinate (parseFloat rt (query_lat req)) "lat"
    = Returns (Some validatedLat)
    /\ validateCoordinate (parseFloat rt (query_lon req)) "lon"
       = Returns (Some validatedLon)
    /\ served_synthetic rt validatedLat validatedLon response.
Proof.
  unfold tryBlock.
  destruct (validateCoordinate (parseFloat rt (query_lat req)) "lat")
    as [ [ validatedLat | ] | ];
    destruct (validateCoordinate (parseFloat rt (query_lon req)) "lon")
      as [ [ validatedLon | ] | ]; try discriminate.
  destruct (negb (truthy (VNum validatedLat)) || negb (truthy (VNum validatedLon)));
    [ discriminate | ].
  intros H. exists validatedLat, validatedLon.
  split; [ reflexivity | ]. split; [ reflexivity | ].
  assert (Hrun : fetchAndRespond rt sv validatedLat validatedLon
                   (query_thresholds req) i = (Ok response, j)) by congruence.
  eapply fetchAndRespond_synthetic. exact Hrun.
Qed.

(** With the three adapters down every answer is synthetic. *)
Lemma handler_synthetic (req : Request) (i : nat) :
  truthy (query_lat req) = true ->
  truthy (query_lon req) = true ->
  wrappable (parseFloat rt (query_lon req)) ->
  exists (response : Response) (j : nat) (lat lon : number),
    handler rt sv req i = Returns (Ok response, j)
    /\ served_synthetic rt lat lon response
    /\ fallback_point rt req lat lon.
Proof.
  intros Hlat Hlon Hw. unfold handler. rewrite Hlat, Hlon. cbn [negb orb].
  destruct (@validateCoordinate_returns _ Hw) as (validatedLon & Hvlon).
  destruct (@tryBlock_validates sv req i _ Hvlon) as (validatedLat & Hvlat & Htry).
  destruct (tryBlock rt sv req i) as [ [[response | m] j] | ] eqn:Hrun;
    [ | | discriminate ].
  - destruct (@tryBlock_synthetic req i j response Hrun)
      as (vlat & vlon & H1 & H2 & Hserved).
    exists response, j, vlat, vlon.
    split; [ reflexivity | ]. split; [ exact Hserved | ].
    left. split; [ exact H1 | ]. split; [ exact H2 | ].
    rewrite Hvlat in H1. rewrite Hvlon in H2.
    assert (E1 : validatedLat = Some vlat) by congruence.
    assert (E2 : validatedLon = Some vlon) by congruence.
    subst validatedLat validatedLon.
    destruct (truthy (VNum vlat)); destruct (truthy (VNum vlon));
      cbn [negb orb] in Htry; try (split; reflexivity);
      unfold throw in Htry; discriminate.
  - destruct (catchBlock_ok req j) as (model & k & _ & Hcatch & Hserved).
    eexists. exists k, (parseFloat rt (query_lat req)),
      (parseFloat rt (query_lon req)).
    split; [ rewrite Hcatch; reflexivity | ].
    split; [ exact Hserved | ].
    right. split; reflexivity.
Qed.

(** X31: when the three provider adapters return [null], a request with
    [lat] and [lon] present whose longitude can be wrapped is answered with
    HTTP 200, and no exception leaves the handler.  The body carries the
    formatted [current] record and the seven forecast days of one run of the
    synthetic climate model, with every field of each day there, and
    "NASA Climate Simulation" as [data_source]: for the validated
    coordinates when the [try] block answers, for the coordinates as
    [parseFloat] read them when the [catch] block does. *)
Theorem handler_synthetic_fallback (req : Request) (i : nat) :
  truthy (query_lat req) = true ->
  truthy (query_lon req) = true ->
  wrappable (parseFloat rt (query_lon req)) ->
  exists (response : Response) (j : nat) (lat lon : number),
    handler rt sv req i = Returns (Ok response, j)
    /\ served_synthetic rt lat lon response
    /\ fallback_point rt req lat lon.
Proof. apply handler_synthetic. Qed.

End ProvidersDown.

(** Zero passes the validation of either coordinate, and is falsy. *)
Lemma validateCoordinate_zero (q : Q) :
  q == 0 ->
  validateCoordinate (Num q) "lat" = Returns (Some (Num q))
  /\ validateCoordinate (Num q) "lon" = Returns (Some (Num q))
  /\ truthy (VNum (Num q)) = false.
Proof.
  intros H0. unfold validateCoordinate. simpl String.eqb.
  assert (Hlo : geb (Num q) (lit (-90)) = true) by (apply geb_lit; lra).
  assert (Hhi : leb (Num q) (lit 90) = true) by (apply leb_lit; lra).
  rewrite Hlo, Hhi, wrap_down_stays, wrap_up_stays by lra.
  repeat split. cbn [truthy].
  apply Qeq_bool_iff in H0. rewrite H0. reflexivity.
Qed.

(** With a zero latitude or longitude the [try] block throws before any
    adapter is called, once the longitude is validated. *)
Lemma tryBlock_zero (sv : Services) (req : Request) (i : nat) :
  (exists q, parseFloat rt (query_lat req) = Num q /\ q == 0)
  \/ (exists q, parseFloat rt (query_lon req) = Num q /\ q == 0) ->
  wrappable (parseFloat rt (query_lon req)) ->
  tryBlock rt sv req i = Returns (Throw "Invalid coordinates provided", i).
Proof.
  intros Hzero Hw.
  destruct (@validateCoordinate_returns _ Hw) as (validatedLon & Hvlon).
  destruct (@tryBlock_validates sv req i _ Hvlon) as (validatedLat & Hvlat & ->).
  destruct Hzero as [ (q & Hq & H0) | (q & Hq & H0) ];
    destruct (@validateCoordinate_zero q H0) as (Hlat & Hlon & Hfalsy).
  - rewrite Hq, Hlat in Hvlat. injection Hvlat as <-.
    destruct validatedLon; [ rewrite Hfalsy | ]; reflexivity.
  - rewrite Hq, Hlon in Hvlon. injection Hvlon as <-.
    destruct validatedLat; [ rewrite Hfalsy, orb_true_r | ]; reflexivity.
Qed.

(** C10: zero is a coordinate that [validateCoordinate] accepts and returns,
    and it is falsy.  So for a request whose latitude or longitude reads as
    0, and whose longitude can be wrapped, the [try] block throws
    "Invalid coordinates provided", and the [catch] block serves the
    request: HTTP 200 with the synthetic model's data for the coordinates as
    read.  The provider adapters play no part in the response. *)
Theorem handler_zero_coordinate (sv : Services) (req : Request) (i : nat) :
  truthy (query_lat req) = true ->
  truthy (query_lon req) = true ->
  (exists q, parseFloat rt (query_lat req) = Num q /\ q == 0)
  \/ (exists q, parseFloat rt (query_lon req) = Num q /\ q == 0) ->
  wrappable (parseFloat rt (query_lon req)) ->
  (forall q : Q, q == 0 ->
     validateCoordinate (Num q) "lat" = Returns (Some (Num q))
     /\ validateCoordinate (Num q) "lon" = Returns (Some (Num q))
     /\ truthy (VNum (Num q)) = false)
  /\ tryBlock rt sv req i = Returns (Throw "Invalid coordinates provided", i)
  /\ (exists (model : WeatherData) (j : nat),
        generateNASA_Model_Data rt (parseFloat rt (query_lat req))
          (parseFloat rt (query_lon req))
          (isDesertRegion (parseFloat rt (query_lat req))
             (parseFloat rt (query_lon req))) i
        = (Ok model, j)
        /\ handler rt sv req i
           = Returns
               (Ok {| status := VNum (lit 200);
                      body := WeatherBody (formatWeatherData rt (Some model))
                                None |},
                j)
        /\ served_synthetic rt (parseFloat rt (query_lat req))
             (parseFloat rt (query_lon req))
             {| status := VNum (lit 200);
                body := WeatherBody (formatWeatherData rt (Some model)) None |})
  /\ (forall sv' : Services, handler rt sv' req i = handler rt sv req i).
Proof.
  intros Hlat Hlon Hzero Hw.
  split; [ exact validateCoordinate_zero | ].
  split; [ apply tryBlock_zero; assumption | ].
  assert (Hcatch : forall s : Services,
            handler rt s req i = Returns (catchBlock rt req i)).
  { intros s. unfold handler. rewrite Hlat, Hlon. cbn [negb orb].
    rewrite (@tryBlock_zero s req i Hzero Hw). reflexivity. }
  split.
  - destruct (catchBlock_ok req i) as (model & j & Hrun & Hc & Hserved).
    exists model, j. rewrite Hcatch.
    split; [ exact Hrun | ]. split; [ rewrite Hc; reflexivity | exact Hserved ].
  - intros sv'. rewrite !Hcatch. reflexivity.
Qed.

End HandlerFacts.

Lemma handler_unwrappable_longitude_witness :
  handler Host.runtime Host.offline
    (Host.request "10" "10000000000000000000000") 0%nat
  = NeverReturns.
Proof.
  apply (@handler_unwrappable_longitude Host.runtime Host.offline
           (Host.request "10" "10000000000000000000000") 0%nat eq_refl eq_refl).
  vm_compute. intros [_ H]. apply H. reflexivity.
Defined.

Lemma handler_synthetic_fallback_witness :
  exists (response : Response) (j : nat) (lat lon : number),
    handler Host.runtime Host.offline (Host.request "48.85" "2.35") 0%nat
    = Returns (Ok response, j)
    /\ served_synthetic Host.runtime lat lon response
    /\ fallback_point Host.runtime (Host.request "48.85" "2.35") lat lon.
Proof.
  apply (@handler_synthetic_fallback Host.runtime Host.offline);
    try (intros; reflexivity).
  vm_compute. split; discriminate.
Defined.

Lemma handler_zero_coordinate_witness :
  tryBlock Host.runtime Host.online (Host.request "0" "-78.5") 0%nat
  = Returns (Throw "Invalid coordinates provided", 0%nat)
  /\ exists (response : Response) (j : nat),
       handler Host.runtime Host.online (Host.request "0" "-78.5") 0%nat
       = Returns (Ok response, j)
       /\ served_synthetic Host.runtime (lit 0) (lit (-78.5)) response.
Proof.
  destruct (@handler_zero_coordinate Host.runtime Host.online
              (Host.request "0" "-78.5") 0%nat eq_refl eq_refl)
    as (_ & Hthrow & (model & j & _ & Hrun & Hserved) & _).
  - left. exists 0. split; reflexivity.
  - vm_compute. split; discriminate.
  - split; [ exact Hthrow | ].
    eexists. exists j. split; [ exact Hrun | exact Hserved ].
Defined.

(** Away from the equator and the prime meridian the same request is served
    from the POWER adapter's answer. *)
Example handler_provider_data :
  match handler Host.runtime Host.online (Host.request "-0.5" "-78.5") 0%nat with
  | Returns (Ok response, _) =>
      match body response with
      | WeatherBody (Some data) _ =>
          option_map c_temperature (w_current data)
      | _ => None
      end
  | _ => None
  end = Some (VNum (lit 21.4)).
Proof. vm_compute. reflexivity. Qed.

(* ===================================================================== *)
(** ** More on the response formatter and the CSV export *)
(* ===================================================================== *)

Lemma Qred_inject_Z (n : Z) : Qred (inject_Z n) = inject_Z n.
Proof.
  unfold Qred, inject_Z.
  pose proof (Z.ggcd_gcd n 1) as Hg.
  pose proof (Z.ggcd_correct_divisors n 1) as Hd.
  destruct (Z.ggcd n 1) as [g [a b]]. simpl in *.
  rewrite Z.gcd_1_r in Hg. destruct Hd as [Ha Hb].
  replace a with n by lia. replace b with 1%Z by lia. reflexivity.
Qed.

(** The nearest integer, a tie going up. *)
Lemma Math_round_nearest (x : Q) :
  exists n : Z,
    Math_round (Num x) = Num (inject_Z n)
    /\ inject_Z n - (1 # 2) <= x /\ x < inject_Z n + (1 # 2).
Proof.
  exists (Qfloor (x + (1 # 2))). split; [ reflexivity | ].
  pose proof (Qfloor_le (x + (1 # 2))) as Hlo.
  pose proof (Qlt_floor (x + (1 # 2))) as Hhi.
  rewrite inject_Z_plus in Hhi. change (inject_Z 1) with 1 in Hhi.
  split; lra.
Qed.

(** The integer nearest to a number of magnitude [2 ^ 53 - 1] at most has at
    most 53 bits. *)
Lemma nearest_safe (x : Q) (n : Z) :
  Qabs x <= 9007199254740991 ->
  inject_Z n - (1 # 2) <= x -> x < inject_Z n + (1 # 2) ->
  (Z.abs n <=? 2 ^ 53)%Z = true.
Proof.
  intros Hx Hlo Hhi. apply Qabs_Qle_condition in Hx.
  assert (H1 : inject_Z n < inject_Z 9007199254740992).
  { change (inject_Z 9007199254740992) with 9007199254740992. lra. }
  assert (H2 : inject_Z (- 9007199254740992) < inject_Z n).
  { change (inject_Z (- 9007199254740992)) with (- 9007199254740992). lra. }
  rewrite <- Zlt_Qlt in H1, H2. apply Z.leb_le.
  change (2 ^ 53)%Z with 9007199254740992%Z. lia.
Qed.

(** [ToString] of such an integer. *)
Lemma NumberToString_safe (rt : Runtime) (n : Z) :
  (Z.abs n <=? 2 ^ 53)%Z = true ->
  NumberToString rt (Num (inject_Z n)) = IntegerToString n.
Proof.
  intros Hn. unfold NumberToString. rewrite Qred_inject_Z.
  cbn [Qden Qnum inject_Z]. rewrite Hn. reflexivity.
Qed.

Section FormatterMore.
Variable rt : Runtime.


(** X2: [formatPercentage] maps a finite number [x] of magnitude
    [2 ^ 53 - 1] at most to the decimal digits of the integer nearest to
    [x], a tie going up, followed by a percent sign. *)
Theorem formatPercentage_nearest_integer (x : Q) :
  Qabs x <= 9007199254740991 ->
  exists n : Z,
    formatPercentage rt (VNum (Num x)) = VStr (IntegerToString n ++ "%")
    /\ inject_Z n - (1 # 2) <= x /\ x < inject_Z n + (1 # 2).
Proof.
  intros Hx.
  unfold formatPercentage. cbn [is_null is_undefined orb ToNumber].
  destruct (Math_round_nearest x) as (n & Hn & Hlo & Hhi).
  rewrite Hn. exists n. split; [ | split; assumption ].
  rewrite (@NumberToString_safe rt n (nearest_safe Hx Hlo Hhi)). reflexivity.
Qed.
End FormatterMore.

Lemma formatPercentage_nearest_integer_witness :
  exists n : Z,
    formatPercentage Host.runtime (VNum (Num 64.5))
    = VStr (IntegerToString n ++ "%")
    /\ inject_Z n - (1 # 2) <= 64.5 /\ 64.5 < inject_Z n + (1 # 2).
Proof.
  apply (@formatPercentage_nearest_integer Host.runtime 64.5).
  apply Qabs_Qle_condition. split; discriminate.
Defined.

Lemma append_empty_r (s : string) : s ++ "" = s.
Proof. induction s; simpl; congruence. Qed.

(** Decimal digits hold no percent sign. *)
Lemma removeFirst_digits (d : Decimal.uint) (s : string) :
  removeFirst "%" (NilEmpty.string_of_uint d ++ s)
  = NilEmpty.string_of_uint d ++ removeFirst "%" s.
Proof. induction d; simpl; congruence. Qed.

Lemma removeFirst_IntegerToString (n : Z) :
  removeFirst "%" (IntegerToString n ++ "%") = IntegerToString n.
Proof.
  assert (Hu : forall d, removeFirst "%" (NilZero.string_of_uint d ++ "%")
                         = NilZero.string_of_uint d).
  { intros d.
    assert (Hd : removeFirst "%" (NilEmpty.string_of_uint d ++ "%")
                 = NilEmpty.string_of_uint d).
    { rewrite removeFirst_digits. simpl removeFirst. apply append_empty_r. }
    destruct d; try exact Hd. reflexivity. }
  unfold IntegerToString, NilZero.string_of_int.
  destruct (Z.to_int n) as [ d | d ]; [ apply Hu | ].
  simpl. f_equal. apply Hu.
Qed.

Section ExportFacts.
Variable rt : Runtime.
Variable ObjectToString : value -> string.

(** X4: a CSV line has nine cells, and in every column but the date a
    falsy value of the day (the number 0, NaN, the empty string, [null],
    [undefined]) is written as an empty cell: a day without precipitation is
    exported with an empty precipitation cell, not with 0. *)
Theorem csvRow_falsy_cells (day : ForecastDay) :
  List.length (csvCells rt ObjectToString day) = 9%nat
  /\ Forall (fun column : nat * (ForecastDay -> value) =>
               truthy (snd column day) = false ->
               nth (fst column) (csvCells rt ObjectToString day) "-" = "")
       csv_columns.
Proof.
  split; [ reflexivity | ].
  unfold csv_columns, csvCells, csvRow, or_else.
  repeat (apply Forall_cons || apply Forall_nil);
    cbn [fst snd map nth]; intros H; try (rewrite H; reflexivity).
  destruct (d_humidity day) as [ | | b | n | s | l | l ];
    try (rewrite H; reflexivity).
  simpl in H. apply negb_false_iff, String.eqb_eq in H. subst s. reflexivity.
Qed.

(** X5: formatting turns a finite humidity [x] of magnitude [2 ^ 53 - 1]
    at most into the digits of the nearest integer followed by a percent
    sign, and the CSV line of the formatted day holds these digits without
    the sign. *)
Theorem csv_humidity_of_formatted (day : ForecastDay) (x : Q) :
  d_humidity day = VNum (Num x) ->
  Qabs x <= 9007199254740991 ->
  exists n : Z,
    inject_Z n - (1 # 2) <= x /\ x < inject_Z n + (1 # 2)
    /\ d_humidity (format_day rt day) = VStr (IntegerToString n ++ "%")
    /\ nth 6 (csvCells rt ObjectToString (format_day rt day)) "-"
       = IntegerToString n.
Proof.
  intros Hh Hx.
  destruct (Math_round_nearest x) as (n & Hn & Hlo & Hhi).
  exists n. split; [ exact Hlo | ]. split; [ exact Hhi | ].
  assert (Hf : d_humidity (format_day rt day) = VStr (IntegerToString n ++ "%")).
  { unfold format_day. cbn [d_humidity]. rewrite Hh.
    unfold formatPercentage. cbn [is_null is_undefined orb ToNumber].
    rewrite Hn, (@NumberToString_safe rt n (nearest_safe Hx Hlo Hhi)).
    reflexivity. }
  split; [ exact Hf | ].
  unfold csvCells, csvRow. cbn [map nth]. rewrite Hf.
  cbn [joinElement ToString]. apply removeFirst_IntegerToString.
Qed.

End ExportFacts.

Lemma csv_humidity_of_formatted_witness :
  exists n : Z,
    inject_Z n - (1 # 2) <= Qred 64.6 /\ Qred 64.6 < inject_Z n + (1 # 2)
    /\ d_humidity (format_day Host.runtime Host.dry_day)
       = VStr (IntegerToString n ++ "%")
    /\ nth 6 (csvCells Host.runtime Host.ObjectToString
                (format_day Host.runtime Host.dry_day)) "-"
       = IntegerToString n.
Proof.
  apply (@csv_humidity_of_formatted Host.runtime Host.ObjectToString
           Host.dry_day (Qred 64.6)).
  - reflexivity.
  - apply Qabs_Qle_condition. split; discriminate.
Defined.

(* ===================================================================== *)
(** ** More on the probability estimator *)
(* ===================================================================== *)

Lemma count_gt_antitone (t1 t2 : Q) (series : list number) :
  t1 <= t2 -> (count_gt (Num t2) series <= count_gt (Num t1) series)%nat.
Proof.
  intros Hle. unfold count_gt.
  induction series as [ | x series IH ]; [ reflexivity | ].
  cbn [filter].
  destruct (gtb x (Num t2)) eqn:H2.
  - assert (H1 : gtb x (Num t1) = true).
    { destruct x as [ | q ]; [ discriminate | ].
      unfold gtb, cmp in *. apply Qgt_bool_iff in H2. apply Qgt_bool_iff. lra. }
    rewrite H1. simpl. lia.
  - destruct (gtb x (Num t1)); simpl; lia.
Qed.

Section ProbabilityMore.
Variable rt : Runtime.

Lemma probabilityAbove_percentage (dflt : number) (threshold : value)
  (series : option (list number)) :
  percentage dflt -> percentage (probabilityAbove rt dflt threshold series).
Proof.
  intros Hd. destruct series as [ [ | x series ] | ]; try exact Hd.
  rewrite (@probabilityAbove_value rt dflt threshold (x :: series))
    by discriminate.
  pose proof (count_gt_le_length (ToNumber rt threshold) (x :: series)) as Hc.
  set (c := Z.of_nat (count_gt (ToNumber rt threshold) (x :: series))) in *.
  set (n := Z.of_nat (List.length (x :: series))) in *.
  assert (Hn : (0 < n)%Z) by (unfold n; simpl List.length; lia).
  assert (Hcn : (0 <= c <= n)%Z) by (unfold c, n; lia).
  destruct (stored_percent_range Hcn Hn) as [Hlo Hhi].
  eexists. split; [ reflexivity | ].
  split.
  - change 0%Z with (Qfloor 0). apply Qfloor_resp_le. lra.
  - change 100%Z with (Qfloor (100 + (1 # 2))). apply Qfloor_resp_le. lra.
Qed.

(** X6: each of the three probability functions returns an integer from 0
    to 100, whatever the current value, the threshold and the series are;
    without a series, or with an empty one, they return 50, 20 and 30. *)
Theorem probabilities_are_percentages (value threshold : JS.value)
  (historicalData : option (list number)) :
  percentage (calculateTemperatureProbability rt value threshold historicalData)
  /\ percentage (calculatePrecipitationProbability rt value threshold historicalData)
  /\ percentage (calculateWindProbability rt value threshold historicalData)
  /\ (historicalData = None \/ historicalData = Some [] ->
      calculateTemperatureProbability rt value threshold historicalData = lit 50
      /\ calculatePrecipitationProbability rt value threshold historicalData = lit 20
      /\ calculateWindProbability rt value threshold historicalData = lit 30).
Proof.
  repeat split;
    try (apply probabilityAbove_percentage; eexists; split;
         [ reflexivity | lia ]);
    destruct H as [ -> | -> ]; reflexivity.
Qed.

(** X7: on a series that is not empty each of the three probability
    functions returns an integer, and raising the threshold never raises it;
    the first argument, the current value, plays no part. *)
Theorem probability_antitone (value value' : JS.value) (t1 t2 : Q)
  (series : list number) :
  t1 <= t2 ->
  series <> [] ->
  exists p1 p2 q1 q2 r1 r2 : Z,
    calculateTemperatureProbability rt value (VNum (Num t1)) (Some series)
    = Num (inject_Z p1)
    /\ calculateTemperatureProbability rt value' (VNum (Num t2)) (Some series)
       = Num (inject_Z p2)
    /\ calculatePrecipitationProbability rt value (VNum (Num t1)) (Some series)
       = Num (inject_Z q1)
    /\ calculatePrecipitationProbability rt value' (VNum (Num t2)) (Some series)
       = Num (inject_Z q2)
    /\ calculateWindProbability rt value (VNum (Num t1)) (Some series)
       = Num (inject_Z r1)
    /\ calculateWindProbability rt value' (VNum (Num t2)) (Some series)
       = Num (inject_Z r2)
    /\ (p2 <= p1)%Z /\ (q2 <= q1)%Z /\ (r2 <= r1)%Z.
Proof.
  intros Hle Hne.
  unfold calculateTemperatureProbability, calculatePrecipitationProbability,
    calculateWindProbability.
  rewrite !(fun d th => @probabilityAbove_value rt d th series Hne).
  cbn [ToNumber].
  pose proof (count_gt_antitone series Hle) as Hc.
  assert (Hn : (0 < Z.of_nat (List.length series))%Z)
    by (destruct series; [ congruence | simpl List.length; lia ]).
  assert (Hround :
    (Qfloor (stored_percent (Z.of_nat (count_gt (Num t2) series))
               (Z.of_nat (List.length series)) + (1 # 2))
     <= Qfloor (stored_percent (Z.of_nat (count_gt (Num t1) series))
                  (Z.of_nat (List.length series)) + (1 # 2)))%Z).
  { apply Qfloor_resp_le.
    assert (H : stored_percent (Z.of_nat (count_gt (Num t2) series))
                  (Z.of_nat (List.length series))
                <= stored_percent (Z.of_nat (count_gt (Num t1) series))
                     (Z.of_nat (List.length series)))
      by (apply stored_percent_mono; lia).
    lra. }
  do 6 eexists. repeat split; exact Hround.
Qed.

(** X8: when [calculateProbabilities] returns, every key of its result is
    one of temperature_above, precipitation_above and windspeed_above, and
    every value is an integer from 0 to 100. *)
Theorem calculateProbabilities_percentages (weatherData : WeatherData)
  (thresholds : value) (historicalData : option Historical) (i j : nat)
  (probabilities : list (string * value)) :
  calculateProbabilities rt weatherData thresholds historicalData i
  = (Ok probabilities, j) ->
  Forall (fun entry =>
            In (fst entry)
               ["temperature_above"; "precipitation_above"; "windspeed_above"]
            /\ exists r, snd entry = VNum r /\ percentage r)
         probabilities.
Proof.
  unfold calculateProbabilities, bindT, liftR, liftT, currentField.
  assert (Hp : forall d th s, percentage d ->
                 exists r, VNum (probabilityAbove rt d th s) = VNum r /\ percentage r).
  { intros d th s Hd. eexists. split; [ reflexivity | ].
    apply probabilityAbove_percentage. exact Hd. }
  assert (Hok : forall (a b : list (string * value)) (n m : nat),
                  (Ok a, n) = (Ok b, m) -> a = b) by (intros; congruence).
  assert (H50 : percentage (lit 50)) by (eexists; split; [ reflexivity | lia ]).
  assert (H20 : percentage (lit 20)) by (eexists; split; [ reflexivity | lia ]).
  assert (H30 : percentage (lit 30)) by (eexists; split; [ reflexivity | lia ]).
  destruct (member thresholds "temperature") as [ t1 | ? ];
    [ | discriminate ].
  destruct (member thresholds "precipitation") as [ t2 | ? ];
    [ | destruct (is_undefined t1); destruct (w_current weatherData);
        cbn [negb];
        repeat (match goal with
                | |- context [historicalOrGenerated ?a ?b ?c ?d ?e] =>
                    destruct (historicalOrGenerated a b c d e)
                end; cbv beta iota);
        discriminate ].
  destruct (member thresholds "windSpeed") as [ t3 | ? ];
    [ | destruct (is_undefined t1); destruct (is_undefined t2);
        destruct (w_current weatherData); cbn [negb];
        repeat (match goal with
                | |- context [historicalOrGenerated ?a ?b ?c ?d ?e] =>
                    destruct (historicalOrGenerated a b c d e)
                end; cbv beta iota);
        discriminate ].
  destruct (is_undefined t1);
    destruct (is_undefined t2);
    destruct (is_undefined t3);
    destruct (w_current weatherData);
    cbn [negb];
    repeat (match goal with
            | |- context [historicalOrGenerated ?a ?b ?c ?d ?e] =>
                destruct (historicalOrGenerated a b c d e)
            end; cbv beta iota);
    try discriminate;
    intros H; apply Hok in H; rewrite <- H;
    unfold calculateTemperatureProbability, calculatePrecipitationProbability,
      calculateWindProbability;
    repeat (rewrite <- app_comm_cons || rewrite app_nil_l);
    repeat (apply Forall_cons || apply Forall_nil);
    (split; [ cbn [fst In]; tauto | cbn [snd]; apply Hp; assumption ]).
Qed.

End ProbabilityMore.

Lemma probability_antitone_witness :
  exists p1 p2 : Z,
    calculateTemperatureProbability Host.runtime (VNum (lit 21)) (VNum (Num 20))
      (Some [lit 25; lit 35; lit 18])
    = Num (inject_Z p1)
    /\ calculateTemperatureProbability Host.runtime (VNum (lit 21)) (VNum (Num 30))
         (Some [lit 25; lit 35; lit 18])
       = Num (inject_Z p2)
    /\ (p2 <= p1)%Z.
Proof.
  destruct (@probability_antitone Host.runtime (VNum (lit 21)) (VNum (lit 21))
              20 30 [lit 25; lit 35; lit 18])
    as (p1 & p2 & _ & _ & _ & _ & H1 & H2 & _ & _ & _ & _ & Hle & _).
  - lra.
  - discriminate.
  - exists p1, p2. split; [ exact H1 | ]. split; [ exact H2 | exact Hle ].
Defined.

Lemma calculateProbabilities_percentages_witness :
  Forall (fun entry : string * value =>
            In (fst entry)
               ["temperature_above"; "precipitation_above"; "windspeed_above"]
            /\ exists r, snd entry = VNum r /\ percentage r)
         [("temperature_above", VNum (lit 67))].
Proof.
  apply (@calculateProbabilities_percentages Host.runtime Host.measured
           (VObj [("temperature", VNum (lit 20))])
           (Some {| h_temperature := Some [lit 25; lit 35; lit 18];
                    h_precipitation := None; h_wind := None;
                    h_humidity := None |})
           0%nat 0%nat).
  reflexivity.
Defined.

(* ===================================================================== *)
(** ** The synthetic climate model and the historical series *)
(* ===================================================================== *)

Section ClimateFacts.
Variable rt : Runtime.
Hypothesis random_range : unit_random rt.

Lemma random_draw (i : nat) :
  exists r : Q, random rt i = (Num r, S i) /\ 0 <= r /\ r < 1.
Proof.
  destruct (random_range i) as (r & Hr & Hlo & Hhi).
  exists r. unfold random. rewrite Hr. repeat split; assumption.
Qed.

(** Rewrites the next draw of the goal to a number [r] in range. *)
Ltac draw r :=
  match goal with
  | |- context [random rt ?i] =>
      let Hr := fresh "Hr" in
      let Hlo := fresh "Hlo" in
      let Hhi := fresh "Hhi" in
      destruct (random_draw i) as (r & Hr & Hlo & Hhi); rewrite Hr; clear Hr
  end.

Lemma getRealisticHumidity_range (lat : number) (isDesert : bool) (i : nat) :
  exists (q : Q) (j : nat),
    getRealisticHumidity rt lat isDesert i = (Num q, j)
    /\ if isDesert then 20 <= q /\ q < 45 else 60 <= q /\ q < 85.
Proof.
  unfold getRealisticHumidity, bind, ret.
  destruct isDesert;
    [ | destruct (Math_abs lat <? lit 15)%js;
        [ | destruct (Math_abs lat <? lit 35)%js ] ];
    draw r; unfold add, mul, lift2, lit; eexists; eexists;
    (split; [ reflexivity | rewrite ?Qred_correct; split; lra ]).
Qed.

Lemma getRealisticWindSpeed_range (lat : number) (isDesert : bool) (i : nat) :
  exists (q : Q) (j : nat),
    getRealisticWindSpeed rt lat isDesert i = (Num q, j)
    /\ if isDesert then 3.5 <= q /\ q < 6.5 else 2 <= q /\ q < 5.
Proof.
  unfold getRealisticWindSpeed, bind, ret.
  destruct isDesert;
    [ | destruct (Math_abs lat <? lit 15)%js;
        [ | destruct (Math_abs lat <? lit 35)%js ] ];
    draw r; unfold add, mul, lift2, lit; eexists; eexists;
    (split; [ reflexivity | rewrite ?Qred_correct; split; lra ]).
Qed.

Lemma getRealisticPressure_range (lat : number) (i : nat) :
  exists (q : Q) (j : nat),
    getRealisticPressure rt lat i = (Num q, j) /\ 1010 <= q /\ q < 1020.
Proof.
  unfold getRealisticPressure, bind, ret.
  destruct (Math_abs lat <? lit 15)%js;
    [ | destruct (Math_abs lat <? lit 35)%js ];
    draw r; unfold add, mul, lift2, lit; eexists; eexists;
    (split; [ reflexivity | rewrite ?Qred_correct; split; lra ]).
Qed.

Lemma getRealisticPrecipitation_range (isDesert : bool) (i : nat) :
  exists (q : Q) (j : nat),
    getRealisticPrecipitation rt isDesert i = (Num q, j)
    /\ if isDesert then 0 <= q /\ q < 1 else 0 <= q /\ q < 8.
Proof.
  unfold getRealisticPrecipitation, bind, ret.
  destruct isDesert; draw r;
    match goal with |- context [if ?b then _ else _] => destruct b end;
    try draw r'; unfold mul, lift2, lit; eexists; eexists;
    (split; [ reflexivity | rewrite ?Qred_correct; split; lra ]).
Qed.

Lemma getRealisticMaxTemperature_range (lat : number) (isDesert : bool)
  (t : Q) (i : nat) :
  getRealisticTemperature rt lat isDesert = Num t ->
  exists (q : Q) (j : nat),
    getRealisticMaxTemperature rt lat isDesert i = (Num q, j)
    /\ if isDesert then t + 12 <= q /\ q < t + 17 else t + 5 <= q /\ q < t + 8.
Proof.
  intros Ht. unfold getRealisticMaxTemperature, bind, ret. rewrite Ht.
  destruct isDesert; draw r; unfold add, mul, lift2, lit; eexists; eexists;
    (split; [ reflexivity | rewrite ?Qred_correct; split; lra ]).
Qed.

Lemma getRealisticMinTemperature_range (lat : number) (isDesert : bool)
  (t : Q) (i : nat) :
  getRealisticTemperature rt lat isDesert = Num t ->
  exists (q : Q) (j : nat),
    getRealisticMinTemperature rt lat isDesert i = (Num q, j)
    /\ if isDesert then t - 20 < q /\ q <= t - 15 else t - 5 < q /\ q <= t - 3.
Proof.
  intros Ht. unfold getRealisticMinTemperature, bind, ret. rewrite Ht.
  destruct isDesert; draw r; unfold sub, mul, lift2, lit; eexists; eexists;
    (split; [ reflexivity | rewrite ?Qred_correct; split; lra ]).
Qed.

Lemma climateForecastDay_bands (lat lon : number) (isDesert : bool) (t : Q)
  (index i : nat) :
  getRealisticTemperature rt lat isDesert = Num t ->
  day_in_bands isDesert t (fst (climateForecastDay rt lat lon isDesert index i)).
Proof.
  intros Ht. unfold climateForecastDay, bind, ret.
  destruct (@getRealisticMaxTemperature_range lat isDesert t i Ht) as (M & i1 & -> & HM).
  destruct (@getRealisticMinTemperature_range lat isDesert t i1 Ht) as (m & i2 & -> & Hm).
  destruct (getRealisticPrecipitation_range isDesert i2) as (p & i3 & -> & Hp).
  destruct (getRealisticHumidity_range lat isDesert i3) as (h & i4 & -> & Hh).
  destruct (getRealisticWindSpeed_range lat isDesert i4) as (w & i5 & -> & Hw).
  destruct (getRealisticPressure_range lat i5) as (P & i6 & -> & HP).
  destruct (random rt i6) as [c i7].
  unfold day_in_bands, within, within_left_open.
  cbn [fst d_temperature d_max_temp d_min_temp d_precipitation d_humidity
       d_wind_speed d_pressure].
  rewrite Ht.
  split; [ reflexivity | ].
  destruct isDesert; repeat split; eexists; (split; [ reflexivity | assumption ]).
Qed.

(** X9: with [Math.random] in [[0, 1)] and a finite base temperature [t],
    the synthetic forecast has seven days and each day has the temperature
    [t], a [max_temp] in [[t + 5, t + 8)], a [min_temp] in [(t - 5, t - 3]],
    a precipitation in [[0, 8)], a humidity in [[60, 85)], a wind speed in
    [[2, 5)] and a pressure in [[1010, 1020)]; in a desert the ranges are
    [[t + 12, t + 17)], [(t - 20, t - 15]], [[0, 1)], [[20, 45)] and
    [[3.5, 6.5)].  So [min_temp < temperature < max_temp] on every day. *)
Theorem generateNASA_ClimateForecast_bands (lat lon : number) (isDesert : bool)
  (t : Q) (i : nat) :
  getRealisticTemperature rt lat isDesert = Num t ->
  List.length (fst (generateNASA_ClimateForecast rt lat lon isDesert i)) = 7%nat
  /\ Forall (day_in_bands isDesert t)
            (fst (generateNASA_ClimateForecast rt lat lon isDesert i)).
Proof.
  intros Ht. unfold generateNASA_ClimateForecast. split.
  - apply forLoop_length.
  - apply forLoop_Forall. intros index j. apply climateForecastDay_bands. exact Ht.
Qed.

(** A day of the synthetic forecast: its precipitation and humidity are in
    range, and its condition text and weather code are derived from them. *)
Lemma climateForecastDay_derived (lat lon : number) (isDesert : bool)
  (index i : nat) :
  exists p h : Q,
    0 <= p /\ p < (if isDesert then 1 else 8)
    /\ 20 <= h /\ h < 85
    /\ d_conditions (fst (climateForecastDay rt lat lon isDesert index i))
       = VStr (getNASA_WeatherCondition (Num p) (Num h) isDesert)
    /\ d_weather_code (fst (climateForecastDay rt lat lon isDesert index i))
       = VStr (getNASA_WeatherCode (Num p) (Num h)).
Proof.
  unfold climateForecastDay, bind, ret.
  destruct (getRealisticMaxTemperature rt lat isDesert i) as [M i1].
  destruct (getRealisticMinTemperature rt lat isDesert i1) as [m i2].
  destruct (getRealisticPrecipitation_range isDesert i2) as (p & i3 & -> & Hp).
  destruct (getRealisticHumidity_range lat isDesert i3) as (h & i4 & -> & Hh).
  destruct (getRealisticWindSpeed rt lat isDesert i4) as [w i5].
  destruct (getRealisticPressure rt lat i5) as [P i6].
  destruct (random rt i6) as [c i7].
  exists p, h. cbn [fst d_conditions d_weather_code].
  destruct isDesert; repeat split; lra.
Qed.

(** X10: with [Math.random] in [[0, 1)], the weather code of every day of
    the synthetic forecast is the code of the day's condition text, and the
    text is never "Thunderstorm" nor "Overcast"; in a desert it is never
    "Heavy Rain" nor "Rain" either. *)
Theorem synthetic_forecast_conditions (lat lon : number) (isDesert : bool)
  (i : nat) :
  Forall (fun day =>
            exists conditions : string,
              d_conditions day = VStr conditions
              /\ d_weather_code day = VStr (code_of_condition conditions)
              /\ conditions <> "Thunderstorm"
              /\ conditions <> "Overcast"
              /\ (isDesert = true ->
                  conditions <> "Heavy Rain" /\ conditions <> "Rain"))
         (fst (generateNASA_ClimateForecast rt lat lon isDesert i)).
Proof.
  unfold generateNASA_ClimateForecast. apply forLoop_Forall. intros index j.
  destruct (climateForecastDay_derived lat lon isDesert index j)
    as (p & h & Hp0 & Hp1 & Hh0 & Hh1 & -> & ->).
  eexists. split; [ reflexivity | ].
  unfold getNASA_WeatherCondition, getNASA_WeatherCode.
  destruct isDesert; compare_cases; cbn [andb]; try lra;
    (split; [ reflexivity | ]);
    repeat split; try discriminate; intros; discriminate.
Qed.

(** The loop of [generateHistoricalData] pushes one sample per round for a
    kind that the [switch] lists, and none for another. *)
Lemma historicalLoop_length (dataType : string) (T P W H : number)
  (days i : nat) :
  List.length (fst (historicalLoop rt days dataType T P W H i))
  = if known_kind dataType then days else 0%nat.
Proof.
  revert i. induction days as [ | days IH ]; intros i.
  - destruct (known_kind dataType); reflexivity.
  - cbn [historicalLoop]. unfold bind, ret.
    destruct (random rt i) as [r i1].
    specialize (IH i1).
    destruct (historicalLoop rt days dataType T P W H i1) as [rest i2].
    cbn [fst] in *. rewrite length_app, IH.
    unfold known_kind. cbn [existsb].
    destruct (String.eqb dataType "temperature"); [ reflexivity | ].
    destruct (String.eqb dataType "precipitation"); [ reflexivity | ].
    destruct (String.eqb dataType "wind"); [ reflexivity | ].
    destruct (String.eqb dataType "humidity"); reflexivity.
Qed.

(** What holds of every sample that a round can push holds of the series. *)
Lemma historicalLoop_Forall (holds : number -> Prop) (dataType : string)
  (T P W H : number) :
  (forall r : Q, 0 <= r -> r < 1 ->
     Forall holds
       (let variation := ((Num r - lit 0.5) * lit 2)%js in
        if String.eqb dataType "temperature" then
          [(T + variation * lit 8)%js]
        else if String.eqb dataType "precipitation" then
          [Math_max (lit 0) (P + variation * lit 3)%js]
        else if String.eqb dataType "wind" then
          [Math_max (lit 0) (W + variation * lit 2)%js]
        else if String.eqb dataType "humidity" then
          [Math_max (lit 10) (Math_min (lit 100) (H + variation * lit 15)%js)]
        else [])) ->
  forall days i, Forall holds (fst (historicalLoop rt days dataType T P W H i)).
Proof.
  intros Hround. induction days as [ | days IH ]; intros i.
  - constructor.
  - cbn [historicalLoop]. unfold bind, ret.
    destruct (random_draw i) as (r & -> & Hlo & Hhi).
    specialize (IH (S i)).
    destruct (historicalLoop rt days dataType T P W H (S i)) as [rest i2].
    cbn [fst] in *. apply Forall_app. split; [ | exact IH ].
    apply (Hround r Hlo Hhi).
Qed.

(** X11: [generateHistoricalData] returns exactly [days] samples for the
    kinds temperature, precipitation, wind and humidity, and an empty series
    for any other kind. *)
Theorem generateHistoricalData_length (lat lon : number) (isDesert : bool)
  (dataType : string) (days i : nat) :
  List.length (fst (generateHistoricalData rt lat lon isDesert dataType days i))
  = if known_kind dataType then days else 0%nat.
Proof.
  unfold generateHistoricalData, bind.
  destruct (getRealisticPrecipitation rt isDesert i) as [P i1].
  destruct (getRealisticWindSpeed rt lat isDesert i1) as [W i2].
  destruct (getRealisticHumidity rt lat isDesert i2) as [H i3].
  apply historicalLoop_length.
Qed.

Lemma Math_max_from (lo x : Q) : finite_from lo (Math_max (lit lo) (Num x)).
Proof.
  unfold Math_max, lit, finite_from.
  destruct (Qle_bool (Qred lo) x) eqn:E.
  - apply Qle_bool_iff in E. rewrite Qred_correct in E.
    exists x. split; [ reflexivity | exact E ].
  - exists (Qred lo). split; [ reflexivity | ]. rewrite Qred_correct. lra.
Qed.

Lemma Math_max_min_in (lo hi x : Q) :
  lo <= hi -> finite_in lo hi (Math_max (lit lo) (Math_min (lit hi) (Num x))).
Proof.
  intros Hle. unfold Math_max, Math_min, lit, finite_in.
  destruct (Qle_bool (Qred hi) x) eqn:E1.
  - destruct (Qle_bool (Qred lo) (Qred hi)) eqn:E2.
    + eexists. split; [ reflexivity | ]. rewrite Qred_correct. lra.
    + eexists. split; [ reflexivity | ]. rewrite Qred_correct. lra.
  - apply not_true_iff_false in E1. rewrite Qle_bool_iff, Qred_correct in E1.
    destruct (Qle_bool (Qred lo) x) eqn:E2.
    + apply Qle_bool_iff in E2. rewrite Qred_correct in E2.
      eexists. split; [ reflexivity | ]. lra.
    + eexists. split; [ reflexivity | ]. rewrite Qred_correct. lra.
Qed.

(** X12: with [Math.random] in [[0, 1)], the precipitation and wind samples
    of [generateHistoricalData] are finite and not negative, its humidity
    samples lie in [[10, 100]], and its temperature samples lie within 8 of
    the base temperature when that is finite. *)
Theorem generateHistoricalData_samples (lat lon : number) (isDesert : bool)
  (days i : nat) :
  (forall t : Q,
     getRealisticTemperature rt lat isDesert = Num t ->
     Forall (finite_in (t - 8) (t + 8))
       (fst (generateHistoricalData rt lat lon isDesert "temperature" days i)))
  /\ Forall (finite_from 0)
       (fst (generateHistoricalData rt lat lon isDesert "precipitation" days i))
  /\ Forall (finite_from 0)
       (fst (generateHistoricalData rt lat lon isDesert "wind" days i))
  /\ Forall (finite_in 10 100)
       (fst (generateHistoricalData rt lat lon isDesert "humidity" days i)).
Proof.
  unfold generateHistoricalData, bind.
  destruct (getRealisticPrecipitation_range isDesert i) as (p & i1 & -> & _).
  destruct (getRealisticWindSpeed_range lat isDesert i1) as (w & i2 & -> & _).
  destruct (getRealisticHumidity_range lat isDesert i2) as (h & i3 & -> & _).
  split; [ intros t -> | split; [ | split ] ];
    apply historicalLoop_Forall; intros r Hlo Hhi;
    cbv zeta; simpl String.eqb; cbv iota;
    constructor; try constructor.
  - unfold add, sub, mul, lift2, lit, finite_in.
    eexists. split; [ reflexivity | rewrite !Qred_correct; split; lra ].
  - apply Math_max_from.
  - apply Math_max_from.
  - apply Math_max_min_in. lra.
Qed.

End ClimateFacts.

(** The random stream of the concrete host stays in range. *)
Lemma Host_unit_random : unit_random Host.runtime.
Proof.
  intros i. cbn [Math_random Host.runtime]. unfold lit.
  eexists. split; [ reflexivity | ].
  rewrite Qred_correct.
  pose proof (Nat.mod_upper_bound i 10) as Hi.
  assert (H0 : inject_Z 0 <= inject_Z (Z.of_nat (i mod 10)))
    by (rewrite <- Zle_Qle; lia).
  assert (H1 : inject_Z (Z.of_nat (i mod 10)) < inject_Z 10)
    by (rewrite <- Zlt_Qlt; lia).
  change (inject_Z 0) with 0 in H0. change (inject_Z 10) with 10 in H1.
  unfold Qdiv. change (/ 10) with (1 # 10). split; lra.
Qed.

Lemma generateNASA_ClimateForecast_bands_witness :
  List.length (fst (generateNASA_ClimateForecast Host.runtime (lit 48) (lit 2)
                      false 0%nat)) = 7%nat
  /\ Forall (day_in_bands false 15)
       (fst (generateNASA_ClimateForecast Host.runtime (lit 48) (lit 2)
               false 0%nat)).
Proof.
  apply (@generateNASA_ClimateForecast_bands Host.runtime Host_unit_random
           (lit 48) (lit 2) false 15 0%nat).
  reflexivity.
Defined.

Lemma synthetic_forecast_conditions_witness :
  Forall (fun day =>
            exists conditions : string,
              d_conditions day = VStr conditions
              /\ d_weather_code day = VStr (code_of_condition conditions)
              /\ conditions <> "Thunderstorm"
              /\ conditions <> "Overcast"
              /\ (true = true ->
                  conditions <> "Heavy Rain" /\ conditions <> "Rain"))
         (fst (generateNASA_ClimateForecast Host.runtime (lit 23) (lit 10)
                 true 0%nat)).
Proof.
  apply (@synthetic_forecast_conditions Host.runtime Host_unit_random).
Defined.

Lemma generateHistoricalData_samples_witness :
  Forall (finite_from 0)
    (fst (generateHistoricalData Host.runtime (lit 48) (lit 2) false
            "precipitation" 365 0%nat))
  /\ Forall (finite_in 10 100)
       (fst (generateHistoricalData Host.runtime (lit 48) (lit 2) false
               "humidity" 365 0%nat)).
Proof.
  destruct (@generateHistoricalData_samples Host.runtime Host_unit_random
              (lit 48) (lit 2) false 365%nat 0%nat)
    as (_ & Hp & _ & Hh).
  split; [ exact Hp | exact Hh ].
Defined.

(* ===================================================================== *)
(** ** Weather codes and condition texts *)
(* ===================================================================== *)

(** X13: for all arguments, [NaN] included, [getNASA_WeatherCode] returns
    the code that goes with the text that [getNASA_WeatherCondition] returns
    for them: 11 for Thunderstorm, 10 for Heavy Rain, 09 for Rain and Light
    Rain, 04 for Overcast, 03 for Mostly Cloudy, 02 for Partly Cloudy, 01
    for the others. *)
Theorem getNASA_WeatherCode_of_condition (precipitation humidity : number)
  (isDesert : bool) :
  getNASA_WeatherCode precipitation humidity
  = code_of_condition (getNASA_WeatherCondition precipitation humidity isDesert).
Proof.
  unfold getNASA_WeatherCode, getNASA_WeatherCondition.
  destruct (precipitation >? lit 12)%js; [ reflexivity | ].
  destruct (precipitation >? lit 6)%js; [ reflexivity | ].
  destruct (precipitation >? lit 2)%js; [ reflexivity | ].
  destruct (precipitation >? lit 0)%js; [ reflexivity | ].
  destruct (humidity >? lit 85)%js; [ reflexivity | ].
  destruct (humidity >? lit 70)%js; [ reflexivity | ].
  destruct (humidity >? lit 60)%js; [ reflexivity | ].
  destruct isDesert, (humidity <? lit 25)%js, (humidity <? lit 35)%js; reflexivity.
Qed.

Section PowerCodeFacts.
Variable rt : Runtime.

Lemma getValidNASAValue_valid (q : Q) (fallback : value) :
  -900 < q -> getValidNASAValue rt (VNum (Num q)) fallback = VNum (Num q).
Proof.
  intros Hq. unfold getValidNASAValue.
  assert (Hv : isValidNASAValue rt (VNum (Num q)) = true).
  { apply isValidNASAValue_iff.
    split; [ discriminate | ]. split; [ discriminate | ].
    exists q. split; [ reflexivity | assumption ]. }
  rewrite Hv. reflexivity.
Qed.

Lemma getValidNASAValue_invalid (q : Q) (fallback : number) :
  q <= -900 -> getValidNASAValue rt (VNum (Num q)) (VNum fallback) = VNum fallback.
Proof.
  intros Hq. unfold getValidNASAValue.
  destruct (isValidNASAValue rt (VNum (Num q))) eqn:Hv; [ | reflexivity ].
  apply isValidNASAValue_iff in Hv. destruct Hv as (_ & _ & x & Hx & Hgt).
  cbn [ToNumber] in Hx. injection Hx as <-. lra.
Qed.

(** X14: when both POWER readings are valid, [getNASA_WeatherCodeFromPOWER]
    returns the code that goes with the text of
    [getNASA_ConditionsFromPOWER]: 11 for Heavy Rain, 10 for Rain, 09 for
    Light Rain and Drizzle, 04 for Overcast, 03 for Partly Cloudy, 02 for
    Mostly Clear, 01 for the others. *)
Theorem power_code_matches_conditions (params : value) (dateStr : string)
  (isDesert : bool) (i : nat) (p c : Q) :
  rawParameter rt params "PRECTOTCORR" dateStr = Ok (Num p) ->
  rawParameter rt params "CLOUD_AMT" dateStr = Ok (Num c) ->
  -900 < p -> -900 < c ->
  exists (conditions : string) (j : nat),
    getNASA_ConditionsFromPOWER rt params dateStr isDesert i = (Ok conditions, j)
    /\ getNASA_WeatherCodeFromPOWER rt params dateStr
       = Ok (code_of_power_condition conditions).
Proof.
  intros Hp Hc Hpv Hcv.
  unfold getNASA_ConditionsFromPOWER, getNASA_WeatherCodeFromPOWER,
    bindT, liftR, liftT.
  rewrite Hp, Hc.
  destruct (getRealisticCloudCover rt isDesert i) as [cloud i1].
  destruct (getRealisticPrecipitation rt isDesert i1) as [precip i2].
  rewrite !getValidNASAValue_valid by assumption. cbn [ToNumber].
  eexists. exists i2. split; [ reflexivity | ].
  destruct (Num p >? lit 10)%js; [ reflexivity | ].
  destruct (Num p >? lit 5)%js; [ reflexivity | ].
  destruct (Num p >? lit 2)%js; [ reflexivity | ].
  destruct (Num p >? lit 0)%js; [ reflexivity | ].
  destruct (Num c >? lit 80)%js; [ reflexivity | ].
  destruct (Num c >? lit 50)%js; [ reflexivity | ].
  destruct (Num c >? lit 20)%js; [ reflexivity | ].
  destruct isDesert; reflexivity.
Qed.

(** A reading that is absent, or falsy as the number 0 is, counts as the
    sentinel. *)
Lemma rawParameter_falsy (params column : value) (P dateStr : string) :
  member params P = Ok column ->
  column <> VUndefined -> column <> VNull ->
  truthy (get column dateStr) = false ->
  rawParameter rt params P dateStr = Ok (lit (-999)).
Proof.
  intros Hm Hu Hn Hf. unfold rawParameter. rewrite Hm.
  destruct column; try congruence; cbn [member]; rewrite Hf; reflexivity.
Qed.

(** X15: when the precipitation reading is at or below -900 (as the
    sentinel -999 is, which also stands for a reading that is missing or 0),
    [getNASA_WeatherCodeFromPOWER] computes the code from a precipitation of
    0, so the code is one of 04, 03, 02, 01, while
    [getNASA_ConditionsFromPOWER] computes the text from a draw of the
    synthetic precipitation. *)
Theorem power_code_without_precipitation (params : value) (dateStr : string)
  (isDesert : bool) (i : nat) (p : Q) (rawCloud : number) :
  rawParameter rt params "PRECTOTCORR" dateStr = Ok (Num p) ->
  rawParameter rt params "CLOUD_AMT" dateStr = Ok rawCloud ->
  p <= -900 ->
  (exists code : string,
     getNASA_WeatherCodeFromPOWER rt params dateStr = Ok code
     /\ In code ["04"; "03"; "02"; "01"])
  /\ exists (cloudCover : number) (k j : nat),
       getNASA_ConditionsFromPOWER rt params dateStr isDesert i
       = (Ok (power_label (fst (getRealisticPrecipitation rt isDesert k))
                cloudCover isDesert), j).
Proof.
  intros Hp Hc Hpv.
  unfold getNASA_ConditionsFromPOWER, getNASA_WeatherCodeFromPOWER,
    bindT, liftR, liftT.
  rewrite Hp, Hc.
  rewrite !(getValidNASAValue_invalid _ Hpv). cbn [ToNumber].
  split.
  - eexists. split; [ reflexivity | ].
    change (lit 0 >? lit 10)%js with false.
    change (lit 0 >? lit 5)%js with false.
    change (lit 0 >? lit 2)%js with false.
    change (lit 0 >? lit 0)%js with false. cbv iota.
    repeat match goal with
           | |- context [if ?b then _ else _] => destruct b
           end; simpl; tauto.
  - destruct (getRealisticCloudCover rt isDesert i) as [cloud i1].
    destruct (getRealisticPrecipitation rt isDesert i1) as [precip i2] eqn:E.
    rewrite !(getValidNASAValue_invalid _ Hpv). cbn [ToNumber].
    eexists. exists i1, i2. rewrite E. reflexivity.
Qed.

End PowerCodeFacts.

(* ===================================================================== *)
(** ** Coordinates *)
(* ===================================================================== *)

(** X16: [validateCoordinate] is idempotent: a coordinate that it returns,
    it returns unchanged. *)
Theorem validateCoordinate_idempotent (coord validated : number) (type : string) :
  validateCoordinate coord type = Returns (Some validated) ->
  validateCoordinate validated type = Returns (Some validated).
Proof.
  destruct coord as [ | q ]; [ discriminate | ].
  destruct (String.eqb type "lat") eqn:Elat.
  - unfold validateCoordinate at 1. rewrite Elat.
    destruct (geb (Num q) (lit (-90)) && leb (Num q) (lit 90)) eqn:E;
      [ | discriminate ].
    intros H. injection H as <-.
    unfold validateCoordinate. rewrite Elat, E. reflexivity.
  - destruct (String.eqb type "lon") eqn:Elon.
    + apply String.eqb_eq in Elon. subst type.
      pose proof (validateCoordinate_lon q) as Hq.
      destruct (validateCoordinate (Num q) "lon") as [ v | ]; [ | discriminate ].
      destruct Hq as (_ & r & -> & Hlo & Hhi & _).
      intros H. injection H as <-.
      unfold validateCoordinate. simpl String.eqb.
      rewrite (@wrap_down_stays r Hhi), (@wrap_up_stays r Hlo). reflexivity.
    + unfold validateCoordinate. rewrite Elat, Elon. discriminate.
Qed.

Lemma power_code_matches_conditions_witness :
  exists (conditions : string) (j : nat),
    getNASA_ConditionsFromPOWER Host.runtime (Host.power_parameters 13 40)
      "20250701" false 0%nat = (Ok conditions, j)
    /\ getNASA_WeatherCodeFromPOWER Host.runtime (Host.power_parameters 13 40)
         "20250701"
       = Ok (code_of_power_condition conditions).
Proof.
  apply (@power_code_matches_conditions Host.runtime (Host.power_parameters 13 40)
           "20250701" false 0%nat 13 40).
  - reflexivity.
  - reflexivity.
  - lra.
  - lra.
Defined.

Lemma power_code_without_precipitation_witness :
  (exists code : string,
     getNASA_WeatherCodeFromPOWER Host.runtime (Host.power_parameters 0 10)
       "20250701" = Ok code
     /\ In code ["04"; "03"; "02"; "01"])
  /\ exists (cloudCover : number) (k j : nat),
       getNASA_ConditionsFromPOWER Host.runtime (Host.power_parameters 0 10)
         "20250701" false 0%nat
       = (Ok (power_label
                (fst (getRealisticPrecipitation Host.runtime false k))
                cloudCover false), j).
Proof.
  apply (@power_code_without_precipitation Host.runtime
           (Host.power_parameters 0 10) "20250701" false 0%nat (-999) (lit 10)).
  - reflexivity.
  - reflexivity.
  - lra.
Defined.

Lemma validateCoordinate_idempotent_witness :
  validateCoordinate (lit (-170)) "lon" = Returns (Some (lit (-170))).
Proof.
  apply (@validateCoordinate_idempotent (lit 190) (lit (-170)) "lon").
  vm_compute. reflexivity.
Defined.

(* ===================================================================== *)
(** ** The handler of [GET /weather], whatever the adapters do *)
(* ===================================================================== *)

Section HandlerMore.
Variable rt : Runtime.

(** The end of the [try] block, once the weather object is there and the
    thresholds are absent. *)
Ltac respond_without_thresholds Hfalsy :=
  repeat match goal with
         | |- context [generateHistoricalData ?r ?a ?b ?c ?d ?e ?f] =>
             destruct (generateHistoricalData r a b c d e f) as [? ?]
         end;
  cbn [formatWeatherData w_current w_forecast w_location w_data_source
       w_nasa_mission w_climate_note w_disclaimer w_historicalData w_lat w_lon
       w_isDesert w_probabilities];
  rewrite Hfalsy; cbn [Object_keys_length List.length Nat.ltb Nat.leb];
  eexists; eexists; split; [ reflexivity | ];
  split; [ reflexivity | ];
  eexists; eexists; repeat split.

Lemma fetchAndRespond_first_answer (sv : Services)
  (validatedLat validatedLon : number) (thresholds : value) (i : nat)
  (w : WeatherData) :
  first_answer sv validatedLat validatedLon
    (isDesertRegion validatedLat validatedLon) i w ->
  truthy thresholds = false ->
  exists (response : Response) (j : nat),
    fetchAndRespond rt sv validatedLat validatedLon thresholds i = (Ok response, j)
    /\ serves rt w response.
Proof.
  intros Hfirst Hfalsy. unfold fetchAndRespond, bindT, liftT, liftR, serves.
  destruct Hfirst as [ (j & H1) | [ (i1 & j & H1 & H2) | (i1 & i2 & j & H1 & H2 & H3) ] ].
  - rewrite H1. respond_without_thresholds Hfalsy.
  - rewrite H1, H2. respond_without_thresholds Hfalsy.
  - rewrite H1, H2, H3. respond_without_thresholds Hfalsy.
Qed.

(** X17: for a request with valid coordinates that are not zero and
    without thresholds, the handler answers HTTP 200 with the answer of the
    first of the adapters POWER, GMAO, Worldview that is not [null]: its
    [current] record and forecast days formatted, its [data_source] and
    [nasa_mission], or "NASA Climate Simulation" and "Global Modeling and
    Assimilation Office" where the answer has none.  What the adapters after
    it would return plays no part. *)
Theorem handler_serves_first_answer (sv : Services) (req : Request) (i : nat)
  (validatedLat validatedLon : number) (w : WeatherData) :
  truthy (query_lat req) = true ->
  truthy (query_lon req) = true ->
  validateCoordinate (parseFloat rt (query_lat req)) "lat"
  = Returns (Some validatedLat) ->
  validateCoordinate (parseFloat rt (query_lon req)) "lon"
  = Returns (Some validatedLon) ->
  truthy (VNum validatedLat) = true ->
  truthy (VNum validatedLon) = true ->
  truthy (query_thresholds req) = false ->
  first_answer sv validatedLat validatedLon
    (isDesertRegion validatedLat validatedLon) i w ->
  exists (response : Response) (j : nat),
    handler rt sv req i = Returns (Ok response, j) /\ serves rt w response.
Proof.
  intros Hlat Hlon Hvlat Hvlon Htlat Htlon Hfalsy Hfirst.
  destruct (@fetchAndRespond_first_answer sv validatedLat validatedLon
              (query_thresholds req) i w Hfirst Hfalsy)
    as (response & j & Hrun & Hserves).
  exists response, j. split; [ | exact Hserves ].
  unfold handler. rewrite Hlat, Hlon. cbn [negb orb].
  unfold tryBlock. rewrite Hvlat, Hvlon. cbv beta iota.
  rewrite Htlat, Htlon. cbn [negb orb].
  rewrite Hrun. reflexivity.
Qed.

(** Whatever the adapters return, a response of the [try] block is HTTP 200
    with a weather object and its metadata. *)
Lemma fetchAndRespond_shape (sv : Services) (validatedLat validatedLon : number)
  (thresholds : value) (i j : nat) (response : Response) :
  fetchAndRespond rt sv validatedLat validatedLon thresholds i = (Ok response, j) ->
  status response = VNum (lit 200)
  /\ exists data metadata,
       body response = WeatherBody (Some data) (Some metadata)
       /\ coordinates metadata = (validatedLat, validatedLon)
       /\ truthy (w_location data) = true.
Proof.
  unfold fetchAndRespond, bindT, liftT, liftR.
  set (isDesert := isDesertRegion validatedLat validatedLon).
  set (userThresholds := if truthy thresholds then _ else _).
  destruct (tryNASA_POWER sv validatedLat validatedLon isDesert i) as [w1 i1].
  assert (Hlocation : forall name : value,
            truthy (or_else name
              (VStr ("Lat: " ++ NumberToString rt validatedLat
                     ++ ", Lon: " ++ NumberToString rt validatedLon))) = true).
  { intros name. unfold or_else. destruct (truthy name) eqn:E; [ exact E | ].
    reflexivity. }
  destruct w1 as [ w1 | ];
    [ | destruct (tryNASA_GMAO sv validatedLat validatedLon isDesert i1)
          as [[ w2 | ] i2];
        [ | destruct (tryNASA_Worldview sv validatedLat validatedLon isDesert i2)
              as [[ w3 | ] i3];
            [ | destruct (generateNASA_Model_Data rt validatedLat validatedLon
                            isDesert i3) as [[ w4 | m ] i4];
                [ | discriminate ] ] ] ];
    repeat match goal with
           | |- context [generateHistoricalData ?r ?a ?b ?c ?d ?e ?f] =>
               destruct (generateHistoricalData r a b c d e f) as [? ?]
           end;
    cbn [formatWeatherData w_current w_forecast w_location w_data_source
         w_nasa_mission w_climate_note w_disclaimer w_historicalData w_lat w_lon
         w_isDesert w_probabilities];
    (destruct (Object_keys_length userThresholds) as [ keys | m' ];
       [ | discriminate ]);
    (destruct (0 <? keys)%nat;
       [ match goal with
         | |- context [calculateProbabilities ?a ?b ?c ?d ?e] =>
             destruct (calculateProbabilities a b c d e) as [[computed | m''] ?]
         end; [ | discriminate ] | ]);
    intros H; injection H as <- <-;
    (split; [ reflexivity | ]);
    eexists; eexists; (split; [ reflexivity | ]);
    (split; [ reflexivity | apply Hlocation ]).
Qed.

(** X18: when the handler answers, whatever the adapters return.  With
    [lat] or [lon] falsy it sends the error entry with its status and draws
    nothing.  Otherwise it validates the coordinates first: if the longitude
    can be wrapped it sends HTTP 200 with a weather object, and no exception
    leaves it; if not, it sends nothing at all. *)
Theorem handler_answers (sv : Services) (req : Request) (i : nat) :
  if truthy (query_lat req) && truthy (query_lon req)
  then (wrappable (parseFloat rt (query_lon req)) ->
        exists (response : Response) (j : nat),
          handler rt sv req i = Returns (Ok response, j)
          /\ status response = VNum (lit 200)
          /\ exists data metadata,
               body response = WeatherBody (Some data) metadata)
       /\ (~ wrappable (parseFloat rt (query_lon req)) ->
           handler rt sv req i = NeverReturns)
  else handler rt sv req i
       = Returns (Ok {| status := HTTP_ERR_CODE (QUERY_MISSING_ERR sv);
                        body := ErrorBody (QUERY_MISSING_ERR sv) |}, i).
Proof.
  destruct (truthy (query_lat req)) eqn:Hlat; cbn [andb];
    [ destruct (truthy (query_lon req)) eqn:Hlon | ].
  - split; [ | intros Hw; apply handler_never; assumption ].
    intros Hw. unfold handler. rewrite Hlat, Hlon. cbn [negb orb].
    destruct (@validateCoordinate_returns _ Hw) as (validatedLon & Hvlon).
    destruct (@tryBlock_validates rt sv req i _ Hvlon)
      as (validatedLat & Hvlat & Htry).
    rewrite Htry.
    destruct validatedLat as [ validatedLat | ];
      [ destruct validatedLon as [ validatedLon | ];
        [ destruct (negb (truthy (VNum validatedLat))
                    || negb (truthy (VNum validatedLon))) | ] | ];
      try (destruct (@catchBlock_ok rt req i) as (model & k & _ & Hcatch & _);
           unfold throw; rewrite Hcatch;
           eexists; exists k; split; [ reflexivity | ];
           split; [ reflexivity | ]; eexists; eexists; reflexivity).
    destruct (fetchAndRespond rt sv validatedLat validatedLon
                (query_thresholds req) i) as [[response | m] j] eqn:Hrun.
    + exists response, j. split; [ reflexivity | ].
      destruct (@fetchAndRespond_shape _ _ _ _ _ _ _ Hrun)
        as (Hstatus & data & metadata & Hbody & _).
      split; [ exact Hstatus | ]. exists data, (Some metadata). exact Hbody.
    + destruct (@catchBlock_ok rt req j) as (model & k & _ & Hcatch & _).
      rewrite Hcatch.
      eexists. exists k. split; [ reflexivity | ].
      split; [ reflexivity | ]. eexists. eexists. reflexivity.
  - unfold handler. rewrite Hlat, Hlon. reflexivity.
  - unfold handler. rewrite Hlat. reflexivity.
Qed.

(** With thresholds that parse to [null], [Object.keys] throws: the [try]
    block never completes. *)
Lemma fetchAndRespond_null_thresholds (sv : Services)
  (validatedLat validatedLon : number) (thresholds : value) (i : nat) :
  truthy thresholds = true ->
  JSON_parse rt thresholds = Some VNull ->
  exists (m : string) (j : nat),
    fetchAndRespond rt sv validatedLat validatedLon thresholds i = (Throw m, j).
Proof.
  intros Htruthy Hparse. unfold fetchAndRespond, bindT, liftT, liftR.
  rewrite Htruthy, Hparse.
  set (isDesert := isDesertRegion validatedLat validatedLon).
  destruct (tryNASA_POWER sv validatedLat validatedLon isDesert i) as [w1 i1].
  destruct w1 as [ w1 | ];
    [ | destruct (tryNASA_GMAO sv validatedLat validatedLon isDesert i1)
          as [[ w2 | ] i2];
        [ | destruct (tryNASA_Worldview sv validatedLat validatedLon isDesert i2)
              as [[ w3 | ] i3];
            [ | destruct (generateNASA_Model_Data rt validatedLat validatedLon
                            isDesert i3) as [[ w4 | m ] i4];
                [ | eexists; eexists; reflexivity ] ] ] ];
    repeat match goal with
           | |- context [generateHistoricalData ?r ?a ?b ?c ?d ?e ?f] =>
               destruct (generateHistoricalData r a b c d e f) as [? ?]
           end;
    cbn [formatWeatherData Object_keys_length];
    eexists; eexists; reflexivity.
Qed.

(** X19: thresholds that parse to [null] make [Object.keys] throw in the
    [try] block, so for a request whose longitude can be wrapped the handler
    answers from the [catch] block: HTTP 200 with the synthetic model's data
    for the coordinates as read and no metadata, whatever the adapters
    returned. *)
Theorem handler_null_thresholds (sv : Services) (req : Request) (i : nat) :
  truthy (query_lat req) = true ->
  truthy (query_lon req) = true ->
  wrappable (parseFloat rt (query_lon req)) ->
  truthy (query_thresholds req) = true ->
  JSON_parse rt (query_thresholds req) = Some VNull ->
  exists (response : Response) (j : nat),
    handler rt sv req i = Returns (Ok response, j)
    /\ served_synthetic rt (parseFloat rt (query_lat req))
         (parseFloat rt (query_lon req)) response
    /\ exists data, body response = WeatherBody (Some data) None.
Proof.
  intros Hlat Hlon Hw Htruthy Hparse.
  assert (Hthrow : exists m j, tryBlock rt sv req i = Returns (Throw m, j)).
  { destruct (@validateCoordinate_returns _ Hw) as (validatedLon & Hvlon).
    destruct (@tryBlock_validates rt sv req i _ Hvlon)
      as (validatedLat & Hvlat & ->).
    destruct validatedLat as [ validatedLat | ];
      [ destruct validatedLon as [ validatedLon | ] | ];
      try (eexists; eexists; reflexivity).
    destruct (negb (truthy (VNum validatedLat))
              || negb (truthy (VNum validatedLon)));
      [ eexists; eexists; reflexivity | ].
    destruct (@fetchAndRespond_null_thresholds sv validatedLat validatedLon
                (query_thresholds req) i Htruthy Hparse) as (m & j & ->).
    exists m, j. reflexivity. }
  destruct Hthrow as (m & j & Hthrow).
  destruct (@catchBlock_ok rt req j) as (model & k & _ & Hcatch & Hserved).
  eexists. exists k. unfold handler. rewrite Hlat, Hlon. cbn [negb orb].
  rewrite Hthrow, Hcatch. split; [ reflexivity | ].
  split; [ exact Hserved | ].
  eexists. reflexivity.
Qed.

(** X20: thresholds that [JSON.parse] rejects are ignored: the handler
    answers as it does to the same request without thresholds. *)
Theorem handler_unparsable_thresholds (sv : Services) (req : Request) (i : nat) :
  JSON_parse rt (query_thresholds req) = None ->
  handler rt sv req i
  = handler rt sv {| query_lat := query_lat req;
                     query_lon := query_lon req;
                     query_thresholds := VUndefined |} i.
Proof.
  intros Hparse.
  unfold handler, tryBlock, catchBlock, fetchAndRespond.
  cbn [query_lat query_lon query_thresholds truthy].
  rewrite Hparse.
  destruct (truthy (query_thresholds req)); reflexivity.
Qed.

End HandlerMore.

Lemma handler_serves_first_answer_witness :
  exists (response : Response) (j : nat),
    handler Host.runtime Host.online (Host.request "-0.5" "-78.5") 0%nat
    = Returns (Ok response, j)
    /\ serves Host.runtime Host.measured response.
Proof.
  apply (@handler_serves_first_answer Host.runtime Host.online
           (Host.request "-0.5" "-78.5") 0%nat (lit (-0.5)) (lit (-78.5))
           Host.measured); try reflexivity.
  left. exists 0%nat. reflexivity.
Defined.

Lemma handler_null_thresholds_witness :
  exists (response : Response) (j : nat),
    handler Host.runtime Host.online
      (Host.request_with "-0.5" "-78.5" "null") 0%nat
    = Returns (Ok response, j)
    /\ served_synthetic Host.runtime (lit (-0.5)) (lit (-78.5)) response
    /\ exists data, body response = WeatherBody (Some data) None.
Proof.
  apply (@handler_null_thresholds Host.runtime Host.online
           (Host.request_with "-0.5" "-78.5" "null") 0%nat);
    try reflexivity.
  vm_compute. split; discriminate.
Defined.

Lemma handler_unparsable_thresholds_witness :
  handler Host.runtime Host.online
    (Host.request_with "-0.5" "-78.5" "{temperature:30") 0%nat
  = handler Host.runtime Host.online (Host.request "-0.5" "-78.5") 0%nat.
Proof.
  apply (@handler_unparsable_thresholds Host.runtime Host.online
           (Host.request_with "-0.5" "-78.5" "{temperature:30") 0%nat).
  reflexivity.
Defined.

(* ===================================================================== *)
(** ** [GET /weather/download] *)
(* ===================================================================== *)

(** A longitude that is a multiple of 360, of at most 53 bits, is normalised
    to zero. *)
Lemma validateCoordinate_multiple_of_360 (q : Q) (k : Z) :
  q == inject_Z (360 * k) -> (Z.abs (360 * k) <= 2 ^ 53)%Z ->
  exists r : Q,
    validateCoordinate (Num q) "lon" = Returns (Some (Num r)) /\ r == 0.
Proof.
  intros Hq Hk.
  destruct (@validateCoordinate_Z q (360 * k)%Z Hq Hk) as (k' & r & Hr & E).
  exists r. split; [ exact Hr | ].
  pose proof (validateCoordinate_lon q) as Hrange. rewrite Hr in Hrange.
  destruct Hrange as (_ & r' & Hr' & Hlo & Hhi & _).
  injection Hr' as <-.
  rewrite E in Hlo, Hhi.
  change (-180) with (inject_Z (-180)) in Hlo.
  change 180 with (inject_Z 180) in Hhi.
  rewrite <- Zle_Qle in Hlo, Hhi.
  assert (Hz : (360 * k + 360 * k' = 0)%Z) by lia.
  rewrite E, Hz. reflexivity.
Qed.

Section DownloadFacts.
Variable rt : Runtime.
Variable ObjectToString : value -> string.
Variable sv : Services.

(** The coordinates that make the [try] block of either endpoint throw, once
    they are validated. *)
Lemma invalid_coordinates (lat lon : number) :
  lat = NaN \/ lon = NaN
  \/ (exists q, lat = Num q /\ (q < -90 \/ 90 < q \/ q == 0))
  \/ (exists q k, lon = Num q /\ q == inject_Z (360 * k)
                   /\ (Z.abs (360 * k) <= 2 ^ 53)%Z) ->
  wrappable lon ->
  exists validatedLat validatedLon : option number,
    validateCoordinate lat "lat" = Returns validatedLat
    /\ validateCoordinate lon "lon" = Returns validatedLon
    /\ match validatedLat, validatedLon with
       | Some validatedLat, Some validatedLon =>
           negb (truthy (VNum validatedLat)) || negb (truthy (VNum validatedLon))
           = true
       | _, _ => True
       end.
Proof.
  intros Hbad Hw.
  destruct (@validateCoordinate_returns lon Hw) as (validatedLon & Hvlon).
  eexists. exists validatedLon.
  split; [ apply validateCoordinate_lat | ].
  split; [ exact Hvlon | ].
  destruct Hbad as [ -> | [ -> | [ (q & -> & Hq) | (q & k & -> & Hq & Hk) ] ] ].
  - reflexivity.
  - injection Hvlon as <-.
    destruct (geb lat (lit (-90)) && leb lat (lit 90)); exact I.
  - destruct (geb (Num q) (lit (-90))) eqn:Hlo;
      destruct (leb (Num q) (lit 90)) eqn:Hhi; cbn [andb]; try exact I.
    destruct validatedLon as [ validatedLon | ]; [ | exact I ].
    apply geb_lit in Hlo. apply leb_lit in Hhi.
    destruct Hq as [ Hq | [ Hq | Hq ] ]; try lra.
    cbn [truthy]. apply Qeq_bool_iff in Hq. rewrite Hq. reflexivity.
  - destruct (geb lat (lit (-90)) && leb lat (lit 90)); [ | exact I ].
    destruct (@validateCoordinate_multiple_of_360 q k Hq Hk) as (r & Hr & H0).
    rewrite Hr in Hvlon. injection Hvlon as <-.
    cbn [truthy]. apply Qeq_bool_iff in H0. rewrite H0.
    apply orb_true_r.
Qed.

(** X21: the download endpoint answers HTTP 500 "Download failed", asking
    no adapter and drawing nothing, when [lat] and [lon] are present, the
    longitude can be wrapped, and one of them does not read as a number, the
    latitude is outside [[-90, 90]] or zero, or the longitude is a multiple
    of 360 of at most 53 bits (which is normalised to zero). *)
Theorem download_invalid_coordinates (req : DownloadRequest) (i : nat) :
  truthy (download_lat req) = true ->
  truthy (download_lon req) = true ->
  wrappable (parseFloat rt (download_lon req)) ->
  parseFloat rt (download_lat req) = NaN
  \/ parseFloat rt (download_lon req) = NaN
  \/ (exists q, parseFloat rt (download_lat req) = Num q
                /\ (q < -90 \/ 90 < q \/ q == 0))
  \/ (exists q k, parseFloat rt (download_lon req) = Num q
                  /\ q == inject_Z (360 * k)
                  /\ (Z.abs (360 * k) <= 2 ^ 53)%Z) ->
  download rt ObjectToString sv req i = Returns (download_failed, i).
Proof.
  intros Hlat Hlon Hw Hbad.
  destruct (@invalid_coordinates _ _ Hbad Hw)
    as (validatedLat & validatedLon & Hvlat & Hvlon & Hfalsy).
  unfold download, downloadTry. rewrite Hlat, Hlon. cbn [negb orb].
  rewrite Hvlat, Hvlon.
  destruct validatedLat as [ validatedLat | ]; [ | reflexivity ].
  destruct validatedLon as [ validatedLon | ]; [ | reflexivity ].
  rewrite Hfalsy. reflexivity.
Qed.

(** X22: with valid coordinates that are not zero, a [format] that is
    given and is neither "csv" nor "json" (compared as it is, so "CSV" too)
    gets HTTP 400 "Unsupported format. Use csv or json.", whatever the POWER
    adapter returns. *)
Theorem download_unsupported_format (req : DownloadRequest) (i : nat)
  (validatedLat validatedLon : number) :
  truthy (download_lat req) = true ->
  truthy (download_lon req) = true ->
  validateCoordinate (parseFloat rt (download_lat req)) "lat"
  = Returns (Some validatedLat) ->
  validateCoordinate (parseFloat rt (download_lon req)) "lon"
  = Returns (Some validatedLon) ->
  truthy (VNum validatedLat) = true ->
  truthy (VNum validatedLon) = true ->
  download_format req <> VUndefined ->
  download_format req <> VStr "csv" ->
  download_format req <> VStr "json" ->
  exists j : nat,
    download rt ObjectToString sv req i
    = Returns
        ({| download_status := VNum (lit 400);
            download_body :=
              DownloadError "Unsupported format. Use csv or json." |},
         j).
Proof.
  intros Hlat Hlon Hvlat Hvlon Htlat Htlon Hu Hcsv Hjson.
  unfold download, downloadTry, bindT, liftT, liftR.
  rewrite Hlat, Hlon, Hvlat, Hvlon. cbv beta iota.
  rewrite Htlat, Htlon. cbn [negb orb].
  assert (Hformat : forall s,
            download_format req <> VStr s ->
            strict_eq_str (if is_undefined (download_format req) then VStr "csv"
                           else download_format req) s = false).
  { intros s Hs. destruct (download_format req) as [ | | | | t | | ];
      try reflexivity; try congruence.
    cbn [is_undefined strict_eq_str].
    destruct (String.eqb_spec t s); [ congruence | reflexivity ]. }
  rewrite (Hformat "csv" Hcsv), (Hformat "json" Hjson).
  set (isDesert := isDesertRegion validatedLat validatedLon).
  destruct (tryNASA_POWER sv validatedLat validatedLon isDesert i) as [[ w | ] i1].
  - exists i1. reflexivity.
  - destruct (@generateNASA_Model_Data_ok rt validatedLat validatedLon isDesert i1)
      as (model & j & _ & _ & Hrun & _).
    rewrite Hrun. exists j. reflexivity.
Qed.

(** X23: with valid coordinates that are not zero, when the POWER adapter
    answers with a weather object that has a forecast, the download is HTTP
    200 with the CSV text of that object when [format] is absent or "csv",
    and with the object itself when it is "json".  The object is not
    formatted, and the GMAO and Worldview adapters are not asked. *)
Theorem download_serves_unformatted (req : DownloadRequest) (i j : nat)
  (validatedLat validatedLon : number) (w : WeatherData)
  (forecast : list ForecastDay) :
  truthy (download_lat req) = true ->
  truthy (download_lon req) = true ->
  validateCoordinate (parseFloat rt (download_lat req)) "lat"
  = Returns (Some validatedLat) ->
  validateCoordinate (parseFloat rt (download_lon req)) "lon"
  = Returns (Some validatedLon) ->
  truthy (VNum validatedLat) = true ->
  truthy (VNum validatedLon) = true ->
  tryNASA_POWER sv validatedLat validatedLon
    (isDesertRegion validatedLat validatedLon) i = (Some w, j) ->
  w_forecast w = Some forecast ->
  (download_format req = VUndefined \/ download_format req = VStr "csv" ->
   exists csv,
     convertToCSV rt ObjectToString w = Ok csv
     /\ download rt ObjectToString sv req i
        = Returns
            ({| download_status := VNum (lit 200);
                download_body :=
                  DownloadCSV
                    (contentDisposition rt validatedLat validatedLon ".csv")
                    csv |}, j))
  /\ (download_format req = VStr "json" ->
      download rt ObjectToString sv req i
      = Returns
          ({| download_status := VNum (lit 200);
              download_body :=
                DownloadJSON
                  (contentDisposition rt validatedLat validatedLon ".json")
                  w |}, j)).
Proof.
  intros Hlat Hlon Hvlat Hvlon Htlat Htlon Hpower Hforecast.
  unfold download, downloadTry, bindT, liftT, liftR.
  rewrite Hlat, Hlon, Hvlat, Hvlon. cbv beta iota.
  rewrite Htlat, Htlon. cbn [negb orb].
  rewrite Hpower.
  split.
  - intros Hformat.
    assert (Hcsv : convertToCSV rt ObjectToString w
                   = Ok (join newline
                           (map (fun row => join "," (map (joinElement rt ObjectToString) row))
                              (map VStr headers :: map csvRow forecast)))).
    { unfold convertToCSV. rewrite Hforecast. reflexivity. }
    eexists. split; [ exact Hcsv | ].
    destruct Hformat as [ -> | -> ]; cbn [is_undefined strict_eq_str String.eqb];
      simpl String.eqb; cbv iota; rewrite Hcsv; reflexivity.
  - intros ->. cbn [is_undefined strict_eq_str]. simpl String.eqb. reflexivity.
Qed.

(** When the POWER adapter returns [null] the download is the synthetic
    model's forecast: a CSV text of a header and seven lines. *)
Lemma download_synthetic_csv (req : DownloadRequest) (i i1 : nat)
  (validatedLat validatedLon : number) :
  truthy (download_lat req) = true ->
  truthy (download_lon req) = true ->
  validateCoordinate (parseFloat rt (download_lat req)) "lat"
  = Returns (Some validatedLat) ->
  validateCoordinate (parseFloat rt (download_lon req)) "lon"
  = Returns (Some validatedLon) ->
  truthy (VNum validatedLat) = true ->
  truthy (VNum validatedLon) = true ->
  tryNASA_POWER sv validatedLat validatedLon
    (isDesertRegion validatedLat validatedLon) i = (None, i1) ->
  download_format req = VUndefined \/ download_format req = VStr "csv" ->
  exists (model : WeatherData) (days : list ForecastDay) (csv : string) (j : nat),
    generateNASA_Model_Data rt validatedLat validatedLon
      (isDesertRegion validatedLat validatedLon) i1 = (Ok model, j)
    /\ w_forecast model = Some days
    /\ List.length days = 7%nat
    /\ convertToCSV rt ObjectToString model = Ok csv
    /\ download rt ObjectToString sv req i
       = Returns
           ({| download_status := VNum (lit 200);
               download_body :=
                 DownloadCSV
                   (contentDisposition rt validatedLat validatedLon ".csv")
                   csv |}, j).
Proof.
  intros Hlat Hlon Hvlat Hvlon Htlat Htlon Hpower Hformat.
  unfold download, downloadTry, bindT, liftT, liftR.
  rewrite Hlat, Hlon, Hvlat, Hvlon. cbv beta iota.
  rewrite Htlat, Htlon. cbn [negb orb].
  rewrite Hpower.
  destruct (@generateNASA_Model_Data_ok rt validatedLat validatedLon
              (isDesertRegion validatedLat validatedLon) i1)
    as (model & j & c & days & Hrun & _ & Hdays & Hlen & _).
  rewrite Hrun.
  assert (Hcsv : convertToCSV rt ObjectToString model
                 = Ok (join newline
                         (map (fun row => join "," (map (joinElement rt ObjectToString) row))
                            (map VStr headers :: map csvRow days)))).
  { unfold convertToCSV. rewrite Hdays. reflexivity. }
  exists model, days. eexists. exists j.
  split; [ reflexivity | ]. split; [ exact Hdays | ]. split; [ exact Hlen | ].
  split; [ exact Hcsv | ].
  destruct Hformat as [ -> | -> ]; cbn [is_undefined strict_eq_str];
    simpl String.eqb; cbv iota; rewrite Hcsv; reflexivity.
Qed.

End DownloadFacts.

Lemma download_invalid_coordinates_witness :
  download Host.runtime Host.ObjectToString Host.online
    (Host.download_request "48.85" "360" VUndefined) 0%nat
  = Returns (download_failed, 0%nat)
  /\ download Host.runtime Host.ObjectToString Host.online
       (Host.download_request "0" "2.35" VUndefined) 0%nat
     = Returns (download_failed, 0%nat).
Proof.
  split.
  - apply (@download_invalid_coordinates Host.runtime Host.ObjectToString
             Host.online (Host.download_request "48.85" "360" VUndefined) 0%nat);
      try reflexivity.
    + vm_compute. split; discriminate.
    + right. right. right. exists 360, 1%Z.
      split; [ reflexivity | ]. split; [ reflexivity | ].
      vm_compute. discriminate.
  - apply (@download_invalid_coordinates Host.runtime Host.ObjectToString
             Host.online (Host.download_request "0" "2.35" VUndefined) 0%nat);
      try reflexivity.
    + vm_compute. split; discriminate.
    + right. right. left. exists 0. split; [ reflexivity | ].
      right. right. reflexivity.
Defined.

Lemma download_unsupported_format_witness :
  exists j : nat,
    download Host.runtime Host.ObjectToString Host.offline
      (Host.download_request "48.85" "2.35" (VStr "CSV")) 0%nat
    = Returns
        ({| download_status := VNum (lit 400);
            download_body :=
              DownloadError "Unsupported format. Use csv or json." |},
         j).
Proof.
  apply (@download_unsupported_format Host.runtime Host.ObjectToString
           Host.offline (Host.download_request "48.85" "2.35" (VStr "CSV"))
           0%nat (lit 48.85) (lit 2.35));
    try reflexivity; discriminate.
Defined.

Lemma download_serves_unformatted_witness :
  download Host.runtime Host.ObjectToString Host.online
    (Host.download_request "-0.5" "-78.5" (VStr "json")) 0%nat
  = Returns
      ({| download_status := VNum (lit 200);
          download_body :=
            DownloadJSON
              (contentDisposition Host.runtime (lit (-0.5)) (lit (-78.5))
                 ".json")
              Host.measured |}, 0%nat).
Proof.
  refine (proj2 (@download_serves_unformatted Host.runtime Host.ObjectToString
                   Host.online
                   (Host.download_request "-0.5" "-78.5" (VStr "json"))
                   0%nat 0%nat (lit (-0.5)) (lit (-78.5)) Host.measured _
                   eq_refl eq_refl eq_refl eq_refl eq_refl eq_refl eq_refl
                   eq_refl) eq_refl).
Defined.

(* ===================================================================== *)
(** ** The GMAO and Worldview adapters *)
(* ===================================================================== *)

Section AdapterFacts.
Variable rt : Runtime.
Variable fetch : string -> Adapters.FetchResult.

(** The "satellite" data set is the synthetic forecast under another
    label: it always returns, with the seven days that the climate model
    gives for the same draws. *)
Lemma generateNASA_FromSatellite_ok (lat lon : number) (isDesert : bool)
  (i : nat) :
  exists (model data : WeatherData) (day0 : ForecastDay)
         (rest : list ForecastDay) (j : nat),
    generateNASA_Model_Data rt lat lon isDesert i = (Ok model, j)
    /\ Adapters.generateNASA_FromSatellite rt lat lon isDesert i = (Ok data, j)
    /\ w_forecast model = Some (day0 :: rest)
    /\ w_forecast data = Some (day0 :: rest)
    /\ List.length (day0 :: rest) = 7%nat
    /\ w_current data
       = Some (Adapters.currentOfDay day0 "NASA Satellite Derived"
                 [("satellite", VStr "Terra/MODIS");
                  ("resolution", VStr "250m resolution")])
    /\ w_data_source data = VUndefined.
Proof.
  unfold Adapters.generateNASA_FromSatellite,
    generateNASA_Model_Data, bindT, liftT, liftR.
  pose proof (forLoop_length (climateForecastDay rt lat lon isDesert) 7 0 i) as Hlen.
  unfold generateNASA_ClimateForecast.
  destruct (forLoop (climateForecastDay rt lat lon isDesert) 0 7 i) as [days j].
  cbn [fst] in Hlen.
  destruct days as [ | day0 rest ]; [ discriminate | ].
  eexists. eexists. exists day0, rest, j.
  split; [ reflexivity | ]. split; [ reflexivity | ].
  repeat split. exact Hlen.
Qed.

(** X24: when the Worldview request is answered with an ok status, the
    adapter returns, whatever the status code and the body of the answer are,
    the seven forecast days that the synthetic climate model generates from
    the same draws, with a [current] record taken from the first day and
    labelled "NASA Satellite Derived", and without a [data_source]. *)
Theorem tryNASA_Worldview_is_synthetic (lat lon : number) (isDesert : bool)
  (i : nat) (status : value) (json : option value) :
  fetch (Adapters.worldviewUrl rt lat lon) = Adapters.Responded true status json ->
  exists (model data : WeatherData) (day0 : ForecastDay)
         (rest : list ForecastDay) (j : nat),
    generateNASA_Model_Data rt lat lon isDesert i = (Ok model, j)
    /\ Adapters.tryNASA_Worldview rt fetch lat lon isDesert i = (Some data, j)
    /\ w_forecast model = Some (day0 :: rest)
    /\ w_forecast data = Some (day0 :: rest)
    /\ List.length (day0 :: rest) = 7%nat
    /\ w_current data
       = Some (Adapters.currentOfDay day0 "NASA Satellite Derived"
                 [("satellite", VStr "Terra/MODIS");
                  ("resolution", VStr "250m resolution")])
    /\ w_data_source data = VUndefined.
Proof.
  intros Hfetch.
  destruct (generateNASA_FromSatellite_ok lat lon isDesert i)
    as (model & data & day0 & rest & j & Hmodel & Hrun & Hrest).
  exists model, data, day0, rest, j.
  split; [ exact Hmodel | ]. split; [ | exact Hrest ].
  unfold Adapters.tryNASA_Worldview. rewrite Hfetch, Hrun. reflexivity.
Qed.

(** Without an ok answer the three adapters return [null] and draw
    nothing, and the geocoder returns [null]. *)
Lemma adapters_network_down (Object_keys : value -> list string)
  (lat lon : number) (isDesert : bool) (i : nat) :
  network_down fetch ->
  Adapters.tryNASA_POWER rt fetch Object_keys lat lon isDesert i = (None, i)
  /\ Adapters.tryNASA_GMAO rt fetch lat lon isDesert i = (None, i)
  /\ Adapters.tryNASA_Worldview rt fetch lat lon isDesert i = (None, i)
  /\ Adapters.getLocationName rt fetch lat lon = VNull.
Proof.
  intros Hdown.
  unfold Adapters.tryNASA_POWER, Adapters.tryNASA_GMAO,
    Adapters.tryNASA_Worldview, Adapters.getLocationName.
  destruct (Hdown (Adapters.powerUrl rt lat lon)) as [ -> | (s0 & b0 & ->) ];
    destruct (Hdown (Adapters.gmaoUrl rt lat lon)) as [ -> | (s & b & ->) ];
    destruct (Hdown (Adapters.worldviewUrl rt lat lon)) as [ -> | (s' & b' & ->) ];
    destruct (Hdown (Adapters.reverseUrl rt lat lon)) as [ -> | (s'' & b'' & ->) ];
    repeat split.
Qed.

(** A day of the GMAO answer that is an object, or any value but [null] and
    [undefined], becomes a forecast day: a valid reading is passed on as it
    is. *)
Lemma processGMAO_Day_ok (lat lon : number) (isDesert : bool) (day : value)
  (index i : nat) :
  ~ nullish day ->
  exists (pushed : ForecastDay) (j : nat),
    Adapters.processGMAO_Day rt lat lon isDesert day index i = (Ok pushed, j)
    /\ d_date pushed = VStr (Date_isoDay rt index)
    /\ Forall (fun entry : string * (ForecastDay -> value) =>
                 forall q : Q,
                   truthy (get day (fst entry)) = true ->
                   parseFloat rt (get day (fst entry)) = Num q ->
                   -900 < q ->
                   snd entry pushed = VNum (Num q))
              gmao_fields.
Proof.
  intros Hday.
  assert (Hread : forall (key : string) (fallback : value) (q : Q),
            truthy (get day key) = true ->
            parseFloat rt (get day key) = Num q ->
            -900 < q ->
            getValidNASAValue rt (VNum (Adapters.rawField rt day key)) fallback
            = VNum (Num q)).
  { intros key fallback q Ht Hq Hv. unfold Adapters.rawField.
    rewrite Ht, Hq. apply getValidNASAValue_valid. exact Hv. }
  unfold Adapters.processGMAO_Day, liftT, bind, ret.
  destruct day; try (exfalso; apply Hday; unfold nullish; tauto);
    destruct (getRealisticHumidity rt lat isDesert i) as [h i1];
    destruct (getRealisticWindSpeed rt lat isDesert i1) as [w i2];
    destruct (getRealisticPrecipitation rt isDesert i2) as [p i3];
    destruct (getRealisticPressure rt lat i3) as [P i4];
    destruct (getRealisticMaxTemperature rt lat isDesert i4) as [M i5];
    destruct (getRealisticMinTemperature rt lat isDesert i5) as [m i6];
    (eexists; eexists; split; [ reflexivity | ];
     split; [ reflexivity | ];
     unfold gmao_fields;
     repeat (apply Forall_cons || apply Forall_nil);
     cbn [fst snd d_temperature d_max_temp d_min_temp d_precipitation
          d_wind_speed d_humidity d_pressure];
     intros q Ht Hq Hv; apply Hread; assumption).
Qed.

Lemma processGMAO_Day_null (lat lon : number) (isDesert : bool) (day : value)
  (index i : nat) :
  nullish day ->
  Adapters.processGMAO_Day rt lat lon isDesert day index i = (Throw "TypeError", i).
Proof. intros [ -> | -> ]; reflexivity. Qed.

Lemma processGMAO_Days_ok (lat lon : number) (isDesert : bool)
  (days : list value) :
  Forall (fun day => ~ nullish day) days ->
  forall index i,
  exists (forecast : list ForecastDay) (j : nat),
    Adapters.processGMAO_Days rt lat lon isDesert days index i = (Ok forecast, j)
    /\ List.length forecast = List.length days
    /\ forall k, (k < List.length days)%nat ->
         option_map d_date (nth_error forecast k)
         = Some (VStr (Date_isoDay rt (index + k))).
Proof.
  induction 1 as [ | day rest Hday Hrest IH ]; intros index i.
  - exists [], i. repeat split. intros k Hk. inversion Hk.
  - cbn [Adapters.processGMAO_Days]. unfold bindT, liftR.
    destruct (processGMAO_Day_ok lat lon isDesert index i Hday)
      as (pushed & i1 & -> & Hdate & _).
    destruct (IH (S index) i1) as (forecast & j & -> & Hlen & Hdates).
    exists (pushed :: forecast), j.
    split; [ reflexivity | ]. split; [ cbn [List.length]; congruence | ].
    intros [ | k ] Hk.
    + cbn [nth_error option_map]. rewrite Hdate, Nat.add_0_r. reflexivity.
    + cbn [nth_error]. rewrite Hdates by (cbn [List.length] in Hk; lia).
      rewrite Nat.add_succ_r. reflexivity.
Qed.

Lemma processGMAO_Days_null (lat lon : number) (isDesert : bool)
  (days : list value) :
  Exists nullish days ->
  forall index i,
  exists (m : string) (j : nat),
    Adapters.processGMAO_Days rt lat lon isDesert days index i = (Throw m, j).
Proof.
  induction 1 as [ day rest Hday | day rest Hrest IH ]; intros index i.
  - cbn [Adapters.processGMAO_Days]. unfold bindT.
    rewrite (processGMAO_Day_null lat lon isDesert index i Hday).
    eexists. eexists. reflexivity.
  - cbn [Adapters.processGMAO_Days]. unfold bindT, liftR.
    destruct (Adapters.processGMAO_Day rt lat lon isDesert day index i)
      as [[pushed | m] i1]; [ | eexists; eexists; reflexivity ].
    destruct (IH (S index) i1) as (m & j & ->).
    eexists. eexists. reflexivity.
Qed.

(** X25: for an ok GMAO answer whose [forecast] is an array: when no
    element is [null] or [undefined], the adapter returns one forecast day
    per element, in order and dated from today on, with a [current] record
    labelled "NASA GEOS Forecast Model", or, for an empty array, "NASA
    Climate Model"; when an element is [null] or [undefined], the adapter
    returns [null]. *)
Theorem tryNASA_GMAO_days (lat lon : number) (isDesert : bool) (i : nat)
  (status data : value) (days : list value) :
  fetch (Adapters.gmaoUrl rt lat lon) = Adapters.Responded true status (Some data) ->
  get data "forecast" = VArr days ->
  (Forall (fun day => ~ nullish day) days ->
   exists (w : WeatherData) (c : Current) (forecast : list ForecastDay) (j : nat),
     Adapters.tryNASA_GMAO rt fetch lat lon isDesert i = (Some w, j)
     /\ w_forecast w = Some forecast
     /\ List.length forecast = List.length days
     /\ (forall k, (k < List.length days)%nat ->
           option_map d_date (nth_error forecast k)
           = Some (VStr (Date_isoDay rt k)))
     /\ w_current w = Some c
     /\ c_data_quality c
        = VStr (match days with
                | [] => "NASA Climate Model"
                | _ :: _ => "NASA GEOS Forecast Model"
                end))
  /\ (Exists nullish days ->
      exists j, Adapters.tryNASA_GMAO rt fetch lat lon isDesert i = (None, j)).
Proof.
  intros Hfetch Hforecast.
  assert (Hdata : truthy data = true /\ member data "forecast" = Ok (VArr days)).
  { destruct data; try discriminate. split; [ reflexivity | ].
    cbn [member]. rewrite Hforecast. reflexivity. }
  destruct Hdata as [Htruthy Hmember].
  unfold Adapters.tryNASA_GMAO, Adapters.processGMAO_Data, bindT, liftT, liftR.
  rewrite Hfetch, Htruthy, Hforecast, Hmember. cbn [negb truthy andb].
  split.
  - intros Hdays.
    destruct (processGMAO_Days_ok lat lon isDesert Hdays 0 i)
      as (forecast & j & -> & Hlen & Hdates).
    destruct forecast as [ | day0 rest ].
    + destruct days; [ | discriminate ].
      destruct (Adapters.generateNASA_Current rt lat lon isDesert j) as [c j'] eqn:E.
      eexists. exists c, [], j'.
      split; [ reflexivity | ]. repeat split.
      * intros k Hk. inversion Hk.
      * unfold Adapters.generateNASA_Current, bind, ret in E.
        destruct (getRealisticHumidity rt lat isDesert j) as [h i1].
        destruct (getRealisticWindSpeed rt lat isDesert i1) as [w i2].
        destruct (getRealisticPressure rt lat i2) as [P i3].
        injection E as <- _. reflexivity.
    + destruct days; [ discriminate | ].
      eexists. eexists. exists (day0 :: rest), j.
      split; [ reflexivity | ]. repeat split; assumption.
  - intros Hnull.
    destruct (processGMAO_Days_null lat lon isDesert Hnull 0 i) as (m & j & ->).
    exists j. reflexivity.
Qed.

(** X26: for a day of the GMAO answer, each reading that is truthy and
    parses to a number above -900 is passed on unchanged in its field of the
    forecast day; a precipitation reading that is falsy, 0 included, is
    replaced by a draw of the synthetic precipitation. *)
Theorem processGMAO_readings (lat lon : number) (isDesert : bool) (day : value)
  (index i : nat) :
  ~ nullish day ->
  exists (pushed : ForecastDay) (j : nat),
    Adapters.processGMAO_Day rt lat lon isDesert day index i = (Ok pushed, j)
    /\ Forall (fun entry : string * (ForecastDay -> value) =>
                 forall q : Q,
                   truthy (get day (fst entry)) = true ->
                   parseFloat rt (get day (fst entry)) = Num q ->
                   -900 < q ->
                   snd entry pushed = VNum (Num q))
              gmao_fields
    /\ (truthy (get day "precipitation") = false ->
        exists k, d_precipitation pushed
                  = VNum (fst (getRealisticPrecipitation rt isDesert k))).
Proof.
  intros Hday.
  destruct (processGMAO_Day_ok lat lon isDesert index i Hday)
    as (pushed & j & Hrun & _ & Hfields).
  exists pushed, j. split; [ exact Hrun | ]. split; [ exact Hfields | ].
  intros Hfalsy.
  assert (Hp : forall p : number,
            getValidNASAValue rt
              (VNum (Adapters.rawField rt day "precipitation")) (VNum p)
            = VNum p).
  { intros p. unfold Adapters.rawField. rewrite Hfalsy.
    apply getValidNASAValue_invalid. unfold Qle. simpl. lia. }
  unfold Adapters.processGMAO_Day, liftT, bind, ret in Hrun.
  destruct day; try (exfalso; apply Hday; unfold nullish; tauto);
    destruct (getRealisticHumidity rt lat isDesert i) as [h i1];
    destruct (getRealisticWindSpeed rt lat isDesert i1) as [w i2];
    destruct (getRealisticPrecipitation rt isDesert i2) as [p i3] eqn:E;
    destruct (getRealisticPressure rt lat i3) as [P i4];
    destruct (getRealisticMaxTemperature rt lat isDesert i4) as [M i5];
    destruct (getRealisticMinTemperature rt lat isDesert i5) as [m i6];
    exists i2; rewrite E; cbn [fst];
    injection Hrun as <- _; cbn [d_precipitation]; apply Hp.
Qed.

End AdapterFacts.

Lemma tryNASA_Worldview_is_synthetic_witness :
  exists (model data : WeatherData) (day0 : ForecastDay)
         (rest : list ForecastDay) (j : nat),
    generateNASA_Model_Data Host.runtime (lit 48.85) (lit 2.35) false 0%nat
    = (Ok model, j)
    /\ Adapters.tryNASA_Worldview Host.runtime Host.worldview_up
         (lit 48.85) (lit 2.35) false 0%nat = (Some data, j)
    /\ w_forecast model = Some (day0 :: rest)
    /\ w_forecast data = Some (day0 :: rest)
    /\ List.length (day0 :: rest) = 7%nat
    /\ w_current data
       = Some (Adapters.currentOfDay day0 "NASA Satellite Derived"
                 [("satellite", VStr "Terra/MODIS");
                  ("resolution", VStr "250m resolution")])
    /\ w_data_source data = VUndefined.
Proof.
  apply (@tryNASA_Worldview_is_synthetic Host.runtime Host.worldview_up
           (lit 48.85) (lit 2.35) false 0%nat (VNum (lit 200)) None).
  reflexivity.
Defined.

Lemma tryNASA_GMAO_days_witness :
  exists (w : WeatherData) (c : Current) (forecast : list ForecastDay) (j : nat),
    Adapters.tryNASA_GMAO Host.runtime Host.gmao_up (lit 48.85) (lit 2.35)
      false 0%nat = (Some w, j)
    /\ w_forecast w = Some forecast
    /\ List.length forecast = 2%nat
    /\ w_current w = Some c
    /\ c_data_quality c = VStr "NASA GEOS Forecast Model".
Proof.
  destruct (@tryNASA_GMAO_days Host.runtime Host.gmao_up (lit 48.85) (lit 2.35)
              false 0%nat (VNum (lit 200)) Host.gmao_answer
              [Host.gmao_day 0; Host.gmao_day 3] eq_refl eq_refl)
    as [Hdays _].
  destruct Hdays as (w & c & forecast & j & Hrun & Hf & Hlen & _ & Hc & Hq).
  - repeat constructor; intros [ H | H ]; discriminate.
  - exists w, c, forecast, j. repeat split; assumption.
Defined.

Lemma processGMAO_readings_witness :
  exists (pushed : ForecastDay) (j : nat),
    Adapters.processGMAO_Day Host.runtime (lit 48.85) (lit 2.35) false
      (Host.gmao_day 0) 0%nat 0%nat = (Ok pushed, j)
    /\ d_temperature pushed = VNum (lit 18.2)
    /\ exists k, d_precipitation pushed
                 = VNum (fst (getRealisticPrecipitation Host.runtime false k)).
Proof.
  destruct (@processGMAO_readings Host.runtime (lit 48.85) (lit 2.35) false
              (Host.gmao_day 0) 0%nat 0%nat)
    as (pushed & j & Hrun & Hfields & Hzero).
  - intros [ H | H ]; discriminate.
  - exists pushed, j. split; [ exact Hrun | ]. split.
    + inversion Hfields as [ | entry rest Htemperature _ ].
      apply (Htemperature (Qred 18.2)); reflexivity.
    + apply Hzero. reflexivity.
Defined.

(* ===================================================================== *)
(** ** The POWER adapter *)
(* ===================================================================== *)

Section PowerForecastFacts.
Variable rt : Runtime.
Hypothesis random_range : unit_random rt.
Hypothesis sine : sine_range rt.

(** Rewrites the next draw of the goal to a number [r] in range. *)
Ltac next_draw r :=
  match goal with
  | |- context [random rt ?i] =>
      let Hr := fresh "Hr" in
      let Hlo := fresh "Hlo" in
      let Hhi := fresh "Hhi" in
      destruct (random_draw random_range i) as (r & Hr & Hlo & Hhi);
      rewrite Hr; clear Hr
  end.

(** Settles a fallback [a || b]: either [a], or the pair that [b] gives. *)
Ltac settle_fallback :=
  match goal with
  | |- context [Adapters.orDraw ?a ?b ?i] =>
      unfold Adapters.orDraw at 1;
      destruct (truthy (VNum a)); [ unfold ret at 1 | destruct (b i) as [? ?] ]
  end.

Lemma powerForecastDay_bands (t : Q) (wind_speed humidity precipitation
  pressure lat lon : number) (isDesert : bool) (index i : nat) :
  ~ t == 0 ->
  power_day_in_bands t
    (fst (Adapters.powerForecastDay rt (Num t) wind_speed humidity
            precipitation pressure lat lon isDesert index i)).
Proof.
  intros Ht.
  assert (Htruthy : truthy (VNum (Num t)) = true).
  { cbn [truthy]. apply negb_true_iff, not_true_iff_false.
    rewrite Qeq_bool_iff. exact Ht. }
  unfold Adapters.powerForecastDay, bind. rewrite Htruthy.
  next_draw r.
  destruct (sine (Qred (Qred (inject_Z (Z.of_nat index)) * Qred 0.8)))
    as (s & Hs & Hs0 & Hs1).
  assert (Hsin : Math_sin rt (lit (inject_Z (Z.of_nat index)) * lit 0.8)%js = Num s)
    by exact Hs.
  rewrite Hsin.
  do 3 settle_fallback;
    next_draw rMax; next_draw rMin; next_draw rP; next_draw rW; next_draw rH;
    settle_fallback; next_draw rPr; next_draw rC;
    unfold ret, power_day_in_bands, within, within_left_open;
    cbn [fst d_temperature d_max_temp d_min_temp];
    unfold add, sub, mul, lift2, lit;
    (eexists; split; [ reflexivity | ]);
    rewrite ?Qred_correct;
    (split; [ lra | ]); (split; [ lra | ]);
    (split; eexists; (split; [ reflexivity | ]); rewrite ?Qred_correct;
     split; lra).
Qed.

Lemma powerForecastDay_conditions (temperature wind_speed pressure
  lat lon : number) (p h : number) (isDesert : bool) (index i : nat) :
  truthy (VNum p) = true ->
  truthy (VNum h) = true ->
  d_weather_code
    (fst (Adapters.powerForecastDay rt temperature wind_speed h p pressure
            lat lon isDesert index i))
  = VStr (getNASA_WeatherCode p h)
  /\ d_conditions
       (fst (Adapters.powerForecastDay rt temperature wind_speed h p pressure
               lat lon isDesert index i))
     = VStr (getNASA_WeatherCondition p h isDesert).
Proof.
  intros Hp Hh.
  unfold Adapters.powerForecastDay, Adapters.orDraw, bind, ret.
  rewrite Hp, Hh.
  repeat (cbv beta iota;
          match goal with
          | |- context [random rt ?k] => destruct (random rt k) as [? ?]
          | |- context [getRealisticWindSpeed rt ?a ?b ?k] =>
              destruct (getRealisticWindSpeed rt a b k) as [? ?]
          | |- context [getRealisticPressure rt ?a ?k] =>
              destruct (getRealisticPressure rt a k) as [? ?]
          | |- context [if truthy (VNum wind_speed) then _ else _] =>
              destruct (truthy (VNum wind_speed))
          | |- context [if truthy (VNum pressure) then _ else _] =>
              destruct (truthy (VNum pressure))
          end);
    split; reflexivity.
Qed.


End PowerForecastFacts.

Section PowerAdapterFacts.
Variable rt : Runtime.
Variable fetch : string -> Adapters.FetchResult.
Variable Object_keys : value -> list string.

(** Reading a date of a column that the answer does not have throws. *)
Lemma rawParameter_missing (params : value) (P dateStr : string) :
  truthy params = true ->
  nullish (get params P) ->
  exists m, rawParameter rt params P dateStr = Throw m.
Proof.
  intros Hparams Hmissing. unfold rawParameter.
  assert (Hmember : member params P = Ok (get params P))
    by (destruct params; try discriminate; reflexivity).
  rewrite Hmember.
  destruct Hmissing as [ -> | -> ]; eexists; reflexivity.
Qed.

(** X28: when the POWER answer lacks one of the nine columns that
    the adapter reads besides T2M, reading the column's date throws and the
    adapter returns [null]: the answer is discarded as a whole. *)
Theorem tryNASA_POWER_missing_column (lat lon : number) (isDesert : bool)
  (i : nat) (status data properties params : value) (P : string) :
  fetch (Adapters.powerUrl rt lat lon)
  = Adapters.Responded true status (Some data) ->
  member data "properties" = Ok properties ->
  get properties "parameter" = params ->
  In P power_columns ->
  nullish (get params P) ->
  exists j, Adapters.tryNASA_POWER rt fetch Object_keys lat lon isDesert i
            = (None, j).
Proof.
  intros Hfetch Hproperties Hparams HP Hmissing.
  unfold Adapters.tryNASA_POWER. rewrite Hfetch. cbn [negb].
  unfold Adapters.processPOWER, bindT, liftR, liftT.
  rewrite Hproperties, Hparams.
  destruct (truthy properties); cbn [negb orb];
    [ | eexists; reflexivity ].
  destruct (truthy params) eqn:Htruthy; cbn [negb];
    [ | eexists; reflexivity ].
  destruct (Object_keys (or_else (get params "T2M") (VObj [])))
    as [ | currentDateStr dates ]; [ eexists; reflexivity | ].
  destruct (@rawParameter_missing params P currentDateStr Htruthy Hmissing)
    as (m & Hthrow).
  unfold power_columns in HP. cbn [In] in HP.
  repeat match goal with
         | H : _ \/ _ |- _ => destruct H as [ H | H ]
         end;
    try contradiction; subst P;
    repeat match goal with
           | |- context [rawParameter rt params ?c currentDateStr] =>
               first
                 [ rewrite Hthrow
                 | destruct (rawParameter rt params c currentDateStr) as [ ? | ? ] ]
           | |- context [getRealisticHumidity rt ?a ?b ?k] =>
               destruct (getRealisticHumidity rt a b k) as [? ?]
           | |- context [getRealisticWindSpeed rt ?a ?b ?k] =>
               destruct (getRealisticWindSpeed rt a b k) as [? ?]
           | |- context [getRealisticPrecipitation rt ?b ?k] =>
               destruct (getRealisticPrecipitation rt b k) as [? ?]
           | |- context [getRealisticPressure rt ?a ?k] =>
               destruct (getRealisticPressure rt a k) as [? ?]
           | |- context [getRealisticMaxTemperature rt ?a ?b ?k] =>
               destruct (getRealisticMaxTemperature rt a b k) as [? ?]
           | |- context [getRealisticMinTemperature rt ?a ?b ?k] =>
               destruct (getRealisticMinTemperature rt a b k) as [? ?]
           | |- context [getRealisticCloudCover rt ?b ?k] =>
               destruct (getRealisticCloudCover rt b k) as [? ?]
           end;
    try (eexists; reflexivity).
Qed.

End PowerAdapterFacts.

(** The sine of the concrete host stays in range. *)
Lemma Host_sine_range : sine_range Host.runtime.
Proof.
  intros q. exists (Qred 0). split; [ reflexivity | ].
  rewrite Qred_correct. split; lra.
Qed.


Lemma tryNASA_POWER_missing_column_witness :
  exists j,
    Adapters.tryNASA_POWER Host.runtime Host.power_partial Host.Object_keys
      (lit 48.85) (lit 2.35) false 0%nat = (None, j).
Proof.
  apply (@tryNASA_POWER_missing_column Host.runtime Host.power_partial
           Host.Object_keys (lit 48.85) (lit 2.35) false 0%nat (VNum (lit 200))
           Host.power_answer_T2M_only
           (VObj [("parameter",
                   VObj [("T2M", VObj [("20250701", VNum (lit 21.37))])])])
           (VObj [("T2M", VObj [("20250701", VNum (lit 21.37))])])
           "RH2M").
  - reflexivity.
  - reflexivity.
  - reflexivity.
  - cbn [In power_columns]. tauto.
  - right. reflexivity.
Defined.

(** With its ten columns the answer becomes a weather object: the readings
    of the day, and seven forecast days around them. *)
Example tryNASA_POWER_answer :
  match Adapters.tryNASA_POWER Host.runtime Host.power_up Host.Object_keys
          (lit 48.85) (lit 2.35) false 0%nat with
  | (Some w, _) =>
      (option_map (fun c => (c_temperature c, c_conditions c)) (w_current w),
       option_map (@List.length ForecastDay) (w_forecast w))
  | (None, _) => (None, None)
  end = (Some (VNum (lit 21.37), VStr "Drizzle"), Some 7%nat).
Proof. vm_compute. reflexivity. Qed.

(* ===================================================================== *)
(** ** The handler over the adapters *)
(* ===================================================================== *)

Section Composition.
Variable rt : Runtime.
Variable fetch : string -> Adapters.FetchResult.
Variable Object_keys : value -> list string.
Variable missing : ErrorSpec.

(** X29: when no request is answered with an ok status, the handler over
    the three adapters and the geocoder answers a request with [lat] and
    [lon] present whose longitude can be wrapped: HTTP 200 with the
    synthetic model's data, labelled "NASA Climate Simulation", for the
    validated coordinates or, from the [catch] block, for the coordinates as
    read. *)
Theorem handler_network_down (req : Request) (i : nat) :
  network_down fetch ->
  truthy (query_lat req) = true ->
  truthy (query_lon req) = true ->
  wrappable (parseFloat rt (query_lon req)) ->
  exists (response : Response) (j : nat) (lat lon : number),
    handler rt (all_services rt fetch Object_keys missing) req i
    = Returns (Ok response, j)
    /\ served_synthetic rt lat lon response
    /\ fallback_point rt req lat lon.
Proof.
  intros Hdown Hlat Hlon Hw.
  refine (@handler_synthetic rt (all_services rt fetch Object_keys missing)
            _ _ _ req i Hlat Hlon Hw);
    intros a b d k;
    destruct (adapters_network_down rt Object_keys a b d k Hdown)
      as (Hpower & Hgmao & Hworldview & _);
    cbn [tryNASA_POWER tryNASA_GMAO tryNASA_Worldview all_services services].
  - rewrite Hpower. reflexivity.
  - rewrite Hgmao. reflexivity.
  - rewrite Hworldview. reflexivity.
Qed.

(** X30: when the POWER and GMAO requests are rejected and the Worldview
    request is answered with an ok status, the
    handler answers a request with valid coordinates that are not zero and
    without thresholds with HTTP 200; the forecast is the synthetic climate
    forecast for the validated coordinates, formatted, the [current] record
    is labelled "NASA Satellite Derived" and [data_source] is "NASA Climate
    Simulation". *)
Theorem handler_worldview_only (req : Request) (i : nat)
  (validatedLat validatedLon : number) (code : value) (json : option value) :
  truthy (query_lat req) = true ->
  truthy (query_lon req) = true ->
  validateCoordinate (parseFloat rt (query_lat req)) "lat"
  = Returns (Some validatedLat) ->
  validateCoordinate (parseFloat rt (query_lon req)) "lon"
  = Returns (Some validatedLon) ->
  truthy (VNum validatedLat) = true ->
  truthy (VNum validatedLon) = true ->
  truthy (query_thresholds req) = false ->
  fetch (Adapters.powerUrl rt validatedLat validatedLon) = Adapters.Rejected ->
  fetch (Adapters.gmaoUrl rt validatedLat validatedLon) = Adapters.Rejected ->
  fetch (Adapters.worldviewUrl rt validatedLat validatedLon)
  = Adapters.Responded true code json ->
  exists (response : Response) (j : nat) (data : WeatherData) (c : Current)
         (days : list ForecastDay) (metadata : option Metadata),
    handler rt (all_services rt fetch Object_keys missing) req i
    = Returns (Ok response, j)
    /\ status response = VNum (lit 200)
    /\ body response = WeatherBody (Some data) metadata
    /\ w_current data = Some c
    /\ c_data_quality c = VStr "NASA Satellite Derived"
    /\ w_data_source data = VStr "NASA Climate Simulation"
    /\ w_forecast data = Some (map (format_day rt) days)
    /\ fst (generateNASA_ClimateForecast rt validatedLat validatedLon
              (isDesertRegion validatedLat validatedLon) i) = days.
Proof.
  intros Hlat Hlon Hvlat Hvlon Htlat Htlon Hfalsy Hpower Hgmao Hworld.
  set (sv := all_services rt fetch Object_keys missing).
  set (isDesert := isDesertRegion validatedLat validatedLon).
  destruct (generateNASA_FromSatellite_ok rt validatedLat validatedLon isDesert i)
    as (model & w & day0 & rest & j & Hmodel & Hrun & Hmf & Hf & Hlen & Hc & Hsrc).
  assert (Hfirst : first_answer sv
                     validatedLat validatedLon isDesert i w).
  { right. right. exists i, i, j.
    cbn [tryNASA_POWER tryNASA_GMAO tryNASA_Worldview all_services services sv].
    split; [ unfold Adapters.tryNASA_POWER; rewrite Hpower; reflexivity | ].
    split; [ unfold Adapters.tryNASA_GMAO; rewrite Hgmao; reflexivity | ].
    unfold Adapters.tryNASA_Worldview. rewrite Hworld, Hrun. reflexivity. }
  destruct (@fetchAndRespond_first_answer rt sv
              validatedLat validatedLon (query_thresholds req) i w Hfirst Hfalsy)
    as (response & k & Hrespond & Hstatus & data & metadata & Hbody & Hcur & Hfor
        & Hds & _).
  exists response, k, data. eexists. exists (day0 :: rest), (Some metadata).
  split.
  { unfold handler. rewrite Hlat, Hlon. cbn [negb orb].
    unfold tryBlock. rewrite Hvlat, Hvlon. cbv beta iota.
    rewrite Htlat, Htlon. cbn [negb orb].
    fold isDesert sv. rewrite Hrespond. reflexivity. }
  split; [ exact Hstatus | ]. split; [ exact Hbody | ].
  rewrite Hcur, Hc, Hfor, Hf, Hds, Hsrc. cbn [option_map].
  split; [ reflexivity | ]. split; [ reflexivity | ].
  split; [ reflexivity | ]. split; [ reflexivity | ].
  unfold generateNASA_Model_Data, bindT, liftT, liftR in Hmodel.
  destruct (generateNASA_ClimateForecast rt validatedLat validatedLon isDesert i)
    as [forecast j0].
  destruct forecast as [ | d0 ds ]; [ discriminate | ].
  injection Hmodel as Hm _. rewrite <- Hm in Hmf. cbn [w_forecast] in Hmf.
  injection Hmf as <- <-. reflexivity.
Qed.

End Composition.

Lemma handler_network_down_witness :
  exists (response : Response) (j : nat) (lat lon : number),
    handler Host.runtime
      (all_services Host.runtime Host.unreachable Host.Object_keys
         (QUERY_MISSING_ERR Host.offline))
      (Host.request "48.85" "2.35") 0%nat
    = Returns (Ok response, j)
    /\ served_synthetic Host.runtime lat lon response
    /\ fallback_point Host.runtime (Host.request "48.85" "2.35") lat lon.
Proof.
  apply (@handler_network_down Host.runtime Host.unreachable Host.Object_keys
           (QUERY_MISSING_ERR Host.offline) (Host.request "48.85" "2.35") 0%nat).
  - intros url. left. reflexivity.
  - reflexivity.
  - reflexivity.
  - vm_compute. split; discriminate.
Defined.

Lemma handler_worldview_only_witness :
  exists (response : Response) (j : nat) (data : WeatherData) (c : Current)
         (days : list ForecastDay) (metadata : option Metadata),
    handler Host.runtime
      (all_services Host.runtime Host.worldview_up Host.Object_keys
         (QUERY_MISSING_ERR Host.offline))
      (Host.request "48.85" "2.35") 0%nat
    = Returns (Ok response, j)
    /\ status response = VNum (lit 200)
    /\ body response = WeatherBody (Some data) metadata
    /\ w_current data = Some c
    /\ c_data_quality c = VStr "NASA Satellite Derived"
    /\ w_data_source data = VStr "NASA Climate Simulation"
    /\ w_forecast data = Some (map (format_day Host.runtime) days)
    /\ fst (generateNASA_ClimateForecast Host.runtime (lit 48.85) (lit 2.35)
              (isDesertRegion (lit 48.85) (lit 2.35)) 0%nat) = days.
Proof.
  apply (@handler_worldview_only Host.runtime Host.worldview_up Host.Object_keys
           (QUERY_MISSING_ERR Host.offline) (Host.request "48.85" "2.35") 0%nat
           (lit 48.85) (lit 2.35) (VNum (lit 200)) None); reflexivity.
Defined.
